(** * Command dispatch and device presence: a shallow embedding

    The development follows the layout of the repository:

    - [Command]            models/Command.js (schema, hooks, record methods)
    - [Device], [Alert]    models/Device.js and the alert schema
    - [Mongo]              the few collection primitives the controllers call
    - [CommandController]  the command controller (pull / ack / result / ...)
    - [DeviceController]   the device controller (heartbeat, settings, block)
    - [Jobs]               the scheduled jobs (offline sweep)
    - [CommandHistory]     the history listing of the command controller
    - [DeviceAdmin]        linking and deleting devices, the [isOffline] virtual
    - [Retention]          the alert retention job
    - [Session]            models/Session.js

    Dates are milliseconds since the epoch ([Z]); ObjectIds are natural
    numbers; JavaScript strings are [string]; every [new Date()] /
    [Date.now()] of one request is the single argument [now]. *)

From Stdlib Require Import ZArith List String Ascii Bool Lia Sorted Permutation.
From Stdlib Require Import DecimalString.
From Stdlib Require OrderedTypeEx.
Import ListNotations.

Open Scope string_scope.
Open Scope list_scope.
Open Scope Z_scope.

(** ** Values shared by the schemas *)

(** [mongoose.Schema.Types.Mixed], as far as the controllers build it. *)
Inductive Mixed : Type :=
| MNum (n : Z)
| MStr (s : string)
| MBool (b : bool).

(** A request body or a [Map] field: keys with their values. *)
Definition Payload : Type := list (string * Mixed).

Definition ObjectId : Type := nat.
Bind Scope nat_scope with ObjectId.
Definition Date : Type := Z.

(** [enum: [...]] validator of a String path. *)
Definition inEnum (s : string) (values : list string) : bool :=
  existsb (String.eqb s) values.
Arguments inEnum s values : simpl never.

(** What a handler hands to [res]: [res.status(code).json(body)] with
    [success: true], or the [{ success: false, message }] body. *)
Inductive Reply (A : Type) : Type :=
| Json (code : nat) (body : A)
| Fail (code : nat) (message : string).
Arguments Json {A} code body.
Arguments Fail {A} code message.

Definition isSuccess {A : Type} (r : Reply A) : bool :=
  match r with Json _ _ => true | Fail _ _ => false end.

(** ** Sorting, as [Query.sort] delivers it

    The order of documents with equal keys is left open by the database;
    the model keeps them in collection order (a stable insertion sort). *)
Section Sorting.
Context {A : Type} (before : A -> A -> bool).

Fixpoint insertSorted (x : A) (l : list A) : list A :=
  match l with
  | [] => [x]
  | y :: l' => if before x y then x :: l else y :: insertSorted x l'
  end.

Fixpoint sortBy (l : list A) : list A :=
  match l with
  | [] => []
  | x :: l' => insertSorted x (sortBy l')
  end.
End Sorting.

(** ** models/Command.js *)
Module Command.

Definition typeEnum : list string :=
  [ "lock_device"; "unlock_device"; "show_message"; "play_sound"; "vibrate";
    "take_screenshot"; "get_location"; "enable_app"; "disable_app";
    "set_time_limit"; "update_settings"; "factory_reset" ].

Definition priorityEnum : list string := [ "low"; "normal"; "high"; "critical" ].

Definition statusEnum : list string :=
  [ "pending"; "sent"; "delivered"; "executing"; "completed"; "failed"; "expired" ].

Record ExecutionResult : Type := mkResult {
  success : bool;
  message : string;
  errorCode : option string;
  timestamp : Date;
  data : option Mixed
}.

Record t : Type := mk {
  _id : ObjectId;
  deviceId : string;
  parentId : ObjectId;
  type : string;
  command : Payload;
  priority : string;
  status : string;
  executionResult : option ExecutionResult;
  expiresAt : option Date;
  retryCount : Z;
  nextRetryAt : option Date;
  scheduledAt : option Date;
  deliveredAt : option Date;
  executedAt : option Date;
  failureReason : option string;
  createdAt : Date;
  updatedAt : Date
}.

Definition setStatus (s : string) (c : t) : t :=
  mk (_id c) (deviceId c) (parentId c) (type c) (command c) (priority c)
     s (executionResult c) (expiresAt c) (retryCount c) (nextRetryAt c)
     (scheduledAt c) (deliveredAt c) (executedAt c) (failureReason c)
     (createdAt c) (updatedAt c).

Definition setUpdatedAt (d : Date) (c : t) : t :=
  mk (_id c) (deviceId c) (parentId c) (type c) (command c) (priority c)
     (status c) (executionResult c) (expiresAt c) (retryCount c) (nextRetryAt c)
     (scheduledAt c) (deliveredAt c) (executedAt c) (failureReason c)
     (createdAt c) d.

Definition setExpiresAt (d : option Date) (c : t) : t :=
  mk (_id c) (deviceId c) (parentId c) (type c) (command c) (priority c)
     (status c) (executionResult c) d (retryCount c) (nextRetryAt c)
     (scheduledAt c) (deliveredAt c) (executedAt c) (failureReason c)
     (createdAt c) (updatedAt c).

(** The schema validators run by [save()]: [required] on [deviceId] and
    [type] (an empty string is not accepted), the three [enum]s and
    [max: 5] on [retryCount]. *)
Definition validate (c : t) : bool :=
  negb (String.eqb (deviceId c) "")
  && inEnum (type c) typeEnum
  && inEnum (priority c) priorityEnum
  && inEnum (status c) statusEnum
  && (retryCount c <=? 5).

(** [commandSchema.pre('save', ...)] *)
Definition preSave (now : Date) (c : t) : t :=
  match expiresAt c with
  | Some _ => c
  | None =>
      let expirationHours :=
        if String.eqb (priority c) "critical" then 168 else 24 in
      setExpiresAt (Some (now + expirationHours * 60 * 60 * 1000)) c
  end.

(** [markAsDelivered], up to its [save()]. *)
Definition markAsDelivered (now : Date) (c : t) : t :=
  mk (_id c) (deviceId c) (parentId c) (type c) (command c) (priority c)
     "delivered" (executionResult c) (expiresAt c) (retryCount c)
     (nextRetryAt c) (scheduledAt c) (Some now) (executedAt c)
     (failureReason c) (createdAt c) (updatedAt c).

(** [markAsExecuting], up to its [save()]. *)
Definition markAsExecuting (c : t) : t := setStatus "executing" c.

(** [markAsCompleted(result)], up to its [save()]. *)
Definition markAsCompleted (now : Date) (result : ExecutionResult) (c : t) : t :=
  mk (_id c) (deviceId c) (parentId c) (type c) (command c) (priority c)
     "completed" (Some result) (expiresAt c) (retryCount c)
     (nextRetryAt c) (scheduledAt c) (deliveredAt c) (Some now)
     (failureReason c) (createdAt c) (updatedAt c).

(** [markAsFailed(reason)], up to its [save()].  The counter of a stored
    command is a non-negative integer, where [Math.pow(2, n)] is [2 ^ n]. *)
Definition markAsFailed (now : Date) (reason : string) (c : t) : t :=
  let retryCount' := retryCount c + 1 in
  if 5 <=? retryCount' then
    mk (_id c) (deviceId c) (parentId c) (type c) (command c) (priority c)
       "failed" (executionResult c) (expiresAt c) retryCount'
       (nextRetryAt c) (scheduledAt c) (deliveredAt c) (executedAt c)
       (Some reason) (createdAt c) (updatedAt c)
  else
    let backoff := 2 ^ retryCount' * 1000 in
    mk (_id c) (deviceId c) (parentId c) (type c) (command c) (priority c)
       "pending" (executionResult c) (expiresAt c) retryCount'
       (Some (now + backoff)) (scheduledAt c) (deliveredAt c) (executedAt c)
       (Some reason) (createdAt c) (updatedAt c).

End Command.

(** ** models/Device.js *)
Module Device.

Definition statusEnum : list string := [ "active"; "suspended"; "deleted" ].

Definition networkTypeEnum : list string := [ "wifi"; "cellular"; "unknown" ].

Record t : Type := mk {
  _id : ObjectId;
  deviceId : string;
  deviceName : string;
  parentId : ObjectId;
  childId : ObjectId;
  isOnline : bool;
  lastHeartbeat : option Date;
  batteryLevel : Z;
  isCharging : bool;
  networkType : string;
  signalStrength : Z;
  isBlocked : bool;
  (** the stored [settings] sub-document; a key it lacks reads as the
      default of its path when the document is loaded *)
  settings : Payload;
  (** the paths without validators (versions, model, storage, location,
      usage) *)
  telemetry : Payload;
  status : string
}.

Definition lookup (key : string) (p : Payload) : option Mixed :=
  match find (fun kv => String.eqb (fst kv) key) p with
  | Some kv => Some (snd kv)
  | None => None
  end.

(** A Number path of [settings] as the loaded document gives it: the
    stored number, or the schema default when the stored sub-document
    lacks the key.  [None] stands for a stored value that is not a
    number, which casting on write keeps out of the collection. *)
Definition numberSetting (key : string) (default : Z) (p : Payload) : option Z :=
  match lookup key p with
  | None => Some default
  | Some (MNum n) => Some n
  | Some _ => None
  end.

(** [device.settings.heartbeatInterval], [default: 300] *)
Definition heartbeatInterval (d : t) : option Z :=
  numberSetting "heartbeatInterval" 300 (settings d).

(** [device.settings.maxBatteryAlert], [default: 20] *)
Definition maxBatteryAlert (d : t) : option Z :=
  numberSetting "maxBatteryAlert" 20 (settings d).

(** Schema defaults of the [settings] sub-document. *)
Definition defaultSettings : Payload :=
  [ ("heartbeatInterval", MNum 300); ("maxBatteryAlert", MNum 20);
    ("enableTamperProtection", MBool true); ("enableScreenshot", MBool false);
    ("enableLocation", MBool false);
    ("enableNotificationMonitoring", MBool false);
    ("enableCallMonitoring", MBool false); ("enableSMSMonitoring", MBool false) ].

Definition setIsOnline (b : bool) (d : t) : t :=
  mk (_id d) (deviceId d) (deviceName d) (parentId d) (childId d) b
     (lastHeartbeat d) (batteryLevel d) (isCharging d) (networkType d)
     (signalStrength d) (isBlocked d) (settings d) (telemetry d) (status d).

Definition setLastHeartbeat (hb : Date) (d : t) : t :=
  mk (_id d) (deviceId d) (deviceName d) (parentId d) (childId d) (isOnline d)
     (Some hb) (batteryLevel d) (isCharging d) (networkType d)
     (signalStrength d) (isBlocked d) (settings d) (telemetry d) (status d).

Definition setSignalStrength (n : Z) (d : t) : t :=
  mk (_id d) (deviceId d) (deviceName d) (parentId d) (childId d) (isOnline d)
     (lastHeartbeat d) (batteryLevel d) (isCharging d) (networkType d)
     n (isBlocked d) (settings d) (telemetry d) (status d).

Definition setSettings (s : Payload) (d : t) : t :=
  mk (_id d) (deviceId d) (deviceName d) (parentId d) (childId d) (isOnline d)
     (lastHeartbeat d) (batteryLevel d) (isCharging d) (networkType d)
     (signalStrength d) (isBlocked d) s (telemetry d) (status d).

Definition setIsBlocked (b : bool) (d : t) : t :=
  mk (_id d) (deviceId d) (deviceName d) (parentId d) (childId d) (isOnline d)
     (lastHeartbeat d) (batteryLevel d) (isCharging d) (networkType d)
     (signalStrength d) b (settings d) (telemetry d) (status d).

(** [updateHeartbeat(batteryLevel, isCharging)], up to its [save()]. *)
Definition updateHeartbeat (now : Date) (level : Z) (charging : bool) (d : t) : t :=
  mk (_id d) (deviceId d) (deviceName d) (parentId d) (childId d) true
     (Some now) level charging (networkType d) (signalStrength d)
     (isBlocked d) (settings d) (telemetry d) (status d).

(** [min] and [max] of a Number path. *)
Definition within (lo hi : Z) (x : option Z) : bool :=
  match x with
  | Some n => (lo <=? n) && (n <=? hi)
  | None => false
  end.

(** The validators of the schema.  [save()] runs them on every path of
    the document, changed or not: [required] on [deviceId], [maxlength]
    on [deviceName], [min] and [max] on [batteryLevel], [signalStrength]
    and the two bounded settings, [enum] on [networkType] and [status].
    ([parentId] and [childId], also required, are always present in
    [t].) *)
Definition validate (d : t) : bool :=
  negb (String.eqb (deviceId d) "")
  && Nat.leb (String.length (deviceName d)) 100
  && within 0 100 (Some (batteryLevel d))
  && inEnum (networkType d) networkTypeEnum
  && within (-1) 100 (Some (signalStrength d))
  && within 60 3600 (heartbeatInterval d)
  && within 5 50 (maxBatteryAlert d)
  && inEnum (status d) statusEnum.

End Device.

(** ** The alert schema *)
Module Alert.

Record t : Type := mk {
  _id : ObjectId;
  deviceId : string;
  parentId : ObjectId;
  type : string;
  message : string;
  severity : string;
  data : Payload;
  createdAt : Date
}.

End Alert.

(** ** The collection primitives the handlers use *)
Module Mongo.

Section Collection.
Context {D : Type} (idOf : D -> ObjectId).

(** A new ObjectId: one that no document of the collection carries. *)
Definition freshId (coll : list D) : ObjectId :=
  S (list_max (map idOf coll)).

(** [Model.findOne(filter)] / [Model.findById(id)] *)
Definition findOne (p : D -> bool) (coll : list D) : option D := find p coll.

Definition byId (id : ObjectId) (d : D) : bool := Nat.eqb (idOf d) id.

(** [Model.updateMany(filter, update)] *)
Definition updateMany (p : D -> bool) (f : D -> D) (coll : list D) : list D :=
  map (fun d => if p d then f d else d) coll.

(** [Model.findOneAndUpdate(filter, update, { new: true })]: the first
    match is updated and returned; [None] is the [null] result. *)
Fixpoint findOneAndUpdate (p : D -> bool) (f : D -> D) (coll : list D)
  : option (D * list D) :=
  match coll with
  | [] => None
  | d :: rest =>
      if p d then Some (f d, f d :: rest)
      else match findOneAndUpdate p f rest with
           | Some (d', rest') => Some (d', d :: rest')
           | None => None
           end
  end.

(** [doc.save()] of a document read from the collection. *)
Definition save (doc : D) (coll : list D) : list D :=
  map (fun d => if byId (idOf doc) d then doc else d) coll.
End Collection.

End Mongo.

(** The three collections. *)
Record Db : Type := mkDb {
  commands : list Command.t;
  devices : list Device.t;
  alerts : list Alert.t
}.

Definition withCommands (cs : list Command.t) (db : Db) : Db :=
  mkDb cs (devices db) (alerts db).

Definition withDevices (ds : list Device.t) (db : Db) : Db :=
  mkDb (commands db) ds (alerts db).

Definition withAlerts (als : list Alert.t) (db : Db) : Db :=
  mkDb (commands db) (devices db) als.

(** [Command.create({ deviceId, parentId, type, command, priority })]:
    schema defaults, validation, the pre-save hook, timestamps, insertion.
    [None] is the rejected promise (a validation error). *)
Definition commandCreate (now : Date) (deviceId : string) (parentId : ObjectId)
    (type : string) (command : Payload) (priority : option string)
    (coll : list Command.t) : option (Command.t * list Command.t) :=
  let doc :=
    Command.mk (Mongo.freshId Command._id coll) deviceId parentId type command
      (match priority with Some p => p | None => "normal" end)
      "pending" None None 0 None None None None None now now in
  if Command.validate doc
  then let doc' := Command.preSave now doc in Some (doc', coll ++ [doc'])
  else None.

(** [command.save()] for a document loaded by a handler. *)
Definition commandSave (now : Date) (doc : Command.t) (coll : list Command.t)
  : option (list Command.t) :=
  if Command.validate doc
  then Some (Mongo.save Command._id
               (Command.setUpdatedAt now (Command.preSave now doc)) coll)
  else None.

(** [x || fallback] on an optional string: undefined and the empty string
    are both falsy. *)
Definition orDefault (x : option string) (fallback : string) : string :=
  match x with
  | Some s => if String.eqb s "" then fallback else s
  | None => fallback
  end.

(** ** The command controller *)
Module CommandController.

(** One element of the [commands] array of the pull reply. *)
Record Summary : Type := mkSummary {
  id : ObjectId;
  type : string;
  command : Payload;
  priority : string;
  createdAt : Date
}.

Definition summary (cmd : Command.t) : Summary :=
  mkSummary (Command._id cmd) (Command.type cmd) (Command.command cmd)
            (Command.priority cmd) (Command.createdAt cmd).

(** The [command] object of the replies of [sendCommand] and
    [retryCommand]. *)
Record Created : Type := mkCreated {
  createdId : ObjectId;
  createdType : string;
  createdPriority : string;
  createdStatus : string
}.

Definition created (cmd : Command.t) : Created :=
  mkCreated (Command._id cmd) (Command.type cmd) (Command.priority cmd)
            (Command.status cmd).

(** The filter of the pull query:
    [{ deviceId, status: { $in: ['pending', 'sent'] }, expiresAt: { $gt: now } }].
    A document without [expiresAt] does not match a [$gt] on a date. *)
Definition pendingFilter (deviceId : string) (now : Date) (cmd : Command.t) : bool :=
  String.eqb (Command.deviceId cmd) deviceId
  && inEnum (Command.status cmd) [ "pending"; "sent" ]
  && match Command.expiresAt cmd with
     | Some e => now <? e
     | None => false
     end.

(** [.sort({ priority: -1, createdAt: 1 })]: [priority] is a String path,
    so the database compares the stored strings; [-1] puts the greater
    string first, [1] the earlier date first. *)
Definition pendingOrder (a b : Command.t) : bool :=
  match String.compare (Command.priority b) (Command.priority a) with
  | Lt => true
  | Gt => false
  | Eq => Command.createdAt a <=? Command.createdAt b
  end.

(** The documents the pull query returns, in order. *)
Definition pendingQuery (deviceId : string) (now : Date) (coll : list Command.t)
  : list Command.t :=
  sortBy pendingOrder (filter (pendingFilter deviceId now) coll).

Definition getPendingCommands (deviceId : string) (now : Date) (db : Db)
  : Db * Reply (list Summary) :=
  let stored := commands db in
  let commands := pendingQuery deviceId now stored in
  let db' :=
    match commands with
    | [] => db
    | _ :: _ =>
        let commandIds := map Command._id commands in
        withCommands
          (Mongo.updateMany
             (fun c => existsb (Nat.eqb (Command._id c)) commandIds)
             (fun c => Command.setUpdatedAt now (Command.setStatus "sent" c))
             stored)
          db
    end in
  (db', Json 200 (map summary commands)).

Definition acknowledgeCommand (commandId : ObjectId) (now : Date) (db : Db)
  : Db * Reply string :=
  match Mongo.findOneAndUpdate (Mongo.byId Command._id commandId)
          (fun c => Command.setUpdatedAt now (Command.setStatus "delivered" c))
          (commands db) with
  | None => (db, Fail 404 "Command not found")
  | Some (_, coll') => (withCommands coll' db, Json 200 "Command acknowledged")
  end.

(** The body of a result report: [{ success, message, errorCode, data }]. *)
Record ResultBody : Type := mkResultBody {
  success : bool;
  message : option string;
  errorCode : option string;
  data : option Mixed
}.

Definition reportCommandResult (commandId : ObjectId) (body : ResultBody)
    (now : Date) (db : Db) : Db * Reply string :=
  match Mongo.findOne (Mongo.byId Command._id commandId) (commands db) with
  | None => (db, Fail 404 "Command not found")
  | Some cmd =>
      let cmd' :=
        if success body then
          Command.markAsCompleted now
            (Command.mkResult true
               (orDefault (message body) "Command executed successfully")
               None now (data body))
            cmd
        else
          Command.markAsFailed now
            (orDefault (message body) "Command execution failed") cmd in
      match commandSave now cmd' (commands db) with
      | None => (db, Fail 500 "Server error reporting command result")
      | Some coll' => (withCommands coll' db, Json 200 "Command result reported")
      end
  end.

(** [req.body] of [sendCommand]; [data] and [priority] have defaults. *)
Record SendBody : Type := mkSendBody {
  sendDeviceId : string;
  sendType : string;
  sendData : option Payload;
  sendPriority : option string
}.

Definition ownsActiveDevice (deviceId : string) (user : ObjectId) (d : Device.t)
  : bool :=
  String.eqb (Device.deviceId d) deviceId
  && Nat.eqb (Device.parentId d) user
  && String.eqb (Device.status d) "active".

Definition sendCommand (user : ObjectId) (body : SendBody) (now : Date) (db : Db)
  : Db * Reply Created :=
  match Mongo.findOne (ownsActiveDevice (sendDeviceId body) user) (devices db) with
  | None => (db, Fail 404 "Device not found or access denied")
  | Some _ =>
      match commandCreate now (sendDeviceId body) user (sendType body)
              (match sendData body with Some d => d | None => [] end)
              (Some (match sendPriority body with Some p => p | None => "normal" end))
              (commands db) with
      | None => (db, Fail 500 "Server error sending command")
      | Some (cmd, coll') => (withCommands coll' db, Json 201 (created cmd))
      end
  end.

Definition cancelCommand (user : ObjectId) (commandId : ObjectId) (now : Date)
    (db : Db) : Db * Reply string :=
  match Mongo.findOneAndUpdate
          (fun c => Nat.eqb (Command._id c) commandId
                    && Nat.eqb (Command.parentId c) user
                    && inEnum (Command.status c) [ "pending"; "sent" ])
          (fun c => Command.setUpdatedAt now (Command.setStatus "expired" c))
          (commands db) with
  | None => (db, Fail 404 "Command not found or cannot be cancelled")
  | Some (_, coll') =>
      (withCommands coll' db, Json 200 "Command cancelled successfully")
  end.

Definition retryCommand (user : ObjectId) (commandId : ObjectId) (now : Date)
    (db : Db) : Db * Reply Created :=
  match Mongo.findOne
          (fun c => Nat.eqb (Command._id c) commandId
                    && Nat.eqb (Command.parentId c) user
                    && String.eqb (Command.status c) "failed")
          (commands db) with
  | None => (db, Fail 404 "Command not found or cannot be retried")
  | Some cmd =>
      match commandCreate now (Command.deviceId cmd) (Command.parentId cmd)
              (Command.type cmd) (Command.command cmd)
              (Some (Command.priority cmd)) (commands db) with
      | None => (db, Fail 500 "Server error retrying command")
      | Some (newCommand, coll') =>
          (withCommands coll' db, Json 200 (created newCommand))
      end
  end.

End CommandController.

(** ** Alert creation *)

Definition alertTypeEnum : list string :=
  [ "tamper_attempt"; "uninstall_attempt"; "settings_access"; "device_offline";
    "low_battery"; "geofence_breach"; "app_usage"; "notification"; "call";
    "sms"; "website_visit"; "screenshot" ].

Definition severityEnum : list string := [ "low"; "medium"; "high"; "critical" ].

(** The validators of the alert schema on the paths the handlers write. *)
Definition alertValidate (a : Alert.t) : bool :=
  negb (String.eqb (Alert.deviceId a) "")
  && inEnum (Alert.type a) alertTypeEnum
  && negb (String.eqb (Alert.message a) "")
  && (Nat.leb (String.length (Alert.message a)) 500)
  && inEnum (Alert.severity a) severityEnum.

(** [Alert.create({ deviceId, parentId, type, message, severity, data })] *)
Definition alertCreate (now : Date) (deviceId : string) (parentId : ObjectId)
    (type message severity : string) (data : Payload) (coll : list Alert.t)
  : option (Alert.t * list Alert.t) :=
  let doc := Alert.mk (Mongo.freshId Alert._id coll) deviceId parentId type
                      message severity data now in
  if alertValidate doc then Some (doc, coll ++ [doc]) else None.

(** Template literal [`${n}`] of an integer. *)
Definition showZ (n : Z) : string := NilZero.string_of_int (Z.to_int n).

(** ** The device controller *)
Module DeviceController.

(** One of the remaining keys of a heartbeat body, by what
    [findByIdAndUpdate] makes of it.  A key outside the schema is dropped
    (strict mode).  A key whose value does not cast to the type of its
    path, or that the database refuses to change ([_id]), fails the whole
    update.  Any other key is written to the stored document, cast but
    not validated; [write] is the change it makes, on whichever path of
    the schema ([isOnline], [status], [parentId], [settings],
    [signalStrength], ...). *)
Inductive ExtraKey : Type :=
| Ignored (key : string)
| Refused (key : string)
| Written (key : string) (write : Device.t -> Device.t).

(** [req.body] of a heartbeat, after the route's validation:
    [{ deviceId, batteryLevel, isCharging, ...otherData }]. *)
Record HeartbeatBody : Type := mkHeartbeatBody {
  deviceId : string;
  batteryLevel : Z;
  isCharging : bool;
  otherData : list ExtraKey
}.

Record PendingSummary : Type := mkPendingSummary {
  id : ObjectId;
  type : string;
  command : Payload;
  priority : string
}.

Definition pendingSummary (cmd : Command.t) : PendingSummary :=
  mkPendingSummary (Command._id cmd) (Command.type cmd) (Command.command cmd)
                   (Command.priority cmd).

Record HeartbeatReply : Type := mkHeartbeatReply {
  requiresAction : bool;
  pendingCommands : list PendingSummary
}.

Definition isRefused (k : ExtraKey) : bool :=
  match k with
  | Refused _ => true
  | _ => false
  end.

(** The update [{ ...otherData, lastHeartbeat: new Date() }] as it
    reaches the stored document; [None] when a key fails it.  The
    [lastHeartbeat] of the handler comes last and so wins over one among
    the extra keys. *)
Fixpoint extraUpdate (now : Date) (other : list ExtraKey)
  : option (Device.t -> Device.t) :=
  match other with
  | [] => Some (Device.setLastHeartbeat now)
  | Ignored _ :: rest => extraUpdate now rest
  | Refused _ :: _ => None
  | Written _ write :: rest =>
      match extraUpdate now rest with
      | Some update => Some (fun d => update (write d))
      | None => None
      end
  end.

Definition lowBattery (device : Device.t) (level : Z) (charging : bool) : bool :=
  match Device.maxBatteryAlert device with
  | Some threshold => (level <=? threshold) && negb charging
  | None => false
  end.

Definition receiveHeartbeat (body : HeartbeatBody) (now : Date) (db : Db)
  : Db * Reply HeartbeatReply :=
  let failure := Fail 500 "Server error processing heartbeat" in
  match Mongo.findOne (fun d => String.eqb (Device.deviceId d) (deviceId body))
          (devices db) with
  | None => (db, Fail 404 "Device not registered")
  | Some found =>
      let device :=
        Device.updateHeartbeat now (batteryLevel body) (isCharging body) found in
      if negb (Device.validate device) then (db, failure) else
      let db1 := withDevices (Mongo.save Device._id device (devices db)) db in
      let updated :=
        match otherData body with
        | [] => Some db1
        | _ :: _ =>
            match extraUpdate now (otherData body) with
            | None => None
            | Some update =>
                match Mongo.findOneAndUpdate
                        (Mongo.byId Device._id (Device._id device))
                        update (devices db1) with
                | Some (_, ds) => Some (withDevices ds db1)
                | None => Some db1
                end
            end
        end in
      match updated with
      | None => (db1, failure)
      | Some db2 =>
          let raised :=
            if lowBattery device (batteryLevel body) (isCharging body) then
              match alertCreate now (deviceId body) (Device.parentId device)
                      "low_battery"
                      ("Low battery alert: " ++ showZ (batteryLevel body)
                         ++ "% remaining")%string
                      (if batteryLevel body <=? 10 then "critical" else "medium")
                      [ ("batteryLevel", MNum (batteryLevel body)) ]
                      (alerts db2) with
              | Some (_, als) => Some (withAlerts als db2)
              | None => None
              end
            else Some db2 in
          match raised with
          | None => (db2, failure)
          | Some db3 =>
              let pending :=
                filter (CommandController.pendingFilter (deviceId body) now)
                       (commands db3) in
              (db3, Json 200 (mkHeartbeatReply
                                (negb (Nat.eqb (List.length pending) 0))
                                (map pendingSummary pending)))
          end
      end
  end.

(** [req.body] of the settings route, and what the cast of the update
    [{ $set: { 'settings': { ...req.body } } }] makes of it: the [settings]
    sub-document with the keys outside the schema dropped (strict mode)
    and every value converted to the type of its path, a numeric string
    to its number among them; [None] when a value does not cast. *)
Record SettingsBody : Type := mkSettingsBody {
  raw : Payload;
  cast : option Payload
}.

(** Update validators ([runValidators: true]) of one bounded setting of a
    cast sub-document: they run on a path that the update sets.  After
    the cast the value of a Number path is a number. *)
Definition validSetting (key : string) (lo hi : Z) (settings : Payload) : bool :=
  match Device.lookup key settings with
  | None => true
  | Some (MNum n) => (lo <=? n) && (n <=? hi)
  | Some _ => false
  end.

Definition validateSettings (settings : Payload) : bool :=
  validSetting "heartbeatInterval" 60 3600 settings
  && validSetting "maxBatteryAlert" 5 50 settings.

Definition updateDeviceSettings (user : ObjectId) (deviceId : string)
    (body : SettingsBody) (now : Date) (db : Db) : Db * Reply string :=
  let failure := Fail 500 "Server error updating device settings" in
  match cast body with
  | None => (db, failure)
  | Some settings =>
      if negb (validateSettings settings) then (db, failure) else
      match Mongo.findOneAndUpdate
              (CommandController.ownsActiveDevice deviceId user)
              (Device.setSettings settings) (devices db) with
      | None => (db, Fail 404 "Device not found")
      | Some (device, ds) =>
          let db1 := withDevices ds db in
          match commandCreate now (Device.deviceId device) user
                  "update_settings" (raw body) (Some "high") (commands db1) with
          | None => (db1, failure)
          | Some (_, coll') =>
              (withCommands coll' db1,
               Json 200 "Device settings updated successfully")
          end
      end
  end.

Definition toggleDeviceBlock (user : ObjectId) (deviceId : string)
    (blocked : bool) (now : Date) (db : Db) : Db * Reply string :=
  match Mongo.findOneAndUpdate
          (fun d => String.eqb (Device.deviceId d) deviceId
                    && Nat.eqb (Device.parentId d) user)
          (Device.setIsBlocked blocked) (devices db) with
  | None => (db, Fail 404 "Device not found")
  | Some (device, ds) =>
      let db1 := withDevices ds db in
      match commandCreate now (Device.deviceId device) user
              (if blocked then "lock_device" else "unlock_device")
              [ ("reason", MStr "Parent remote control") ]
              (Some "high") (commands db1) with
      | None => (db1, Fail 500 "Server error toggling device block")
      | Some (_, coll') =>
          (withCommands coll' db1,
           Json 200 (if blocked then "Device blocked successfully"
                     else "Device unblocked successfully"))
      end
  end.

End DeviceController.

(** ** Scheduled jobs and the TTL index *)
Module Jobs.

Definition offlineThreshold : Z := 15 * 60 * 1000.

(** [{ isOnline: true, lastHeartbeat: { $lt: cutoffTime } }] *)
Definition offlineFilter (cutoffTime : Date) (d : Device.t) : bool :=
  Device.isOnline d
  && match Device.lastHeartbeat d with
     | Some hb => hb <? cutoffTime
     | None => false
     end.

Definition offlineMessage (device : Device.t) : string :=
  ("Device " ++ Device.deviceName device
     ++ " has been offline for more than 15 minutes")%string.

(** [data: { lastHeartbeat, offlineSince }] as it is stored: the [data]
    path of the alert schema declares neither key, and strict mode drops
    what the schema does not declare. *)
Definition offlineData (device : Device.t) (cutoffTime : Date) : Payload := [].

(** The body of the [for (const device of devices)] loop.  [save()]
    validates the whole document; its exception, like one of
    [Alert.create], leaves the loop (it is caught and logged outside), so
    the devices that follow are not visited in this run. *)
Fixpoint offlineLoop (now cutoffTime : Date) (found : list Device.t) (db : Db)
  : Db :=
  match found with
  | [] => db
  | device :: rest =>
      let device' := Device.setIsOnline false device in
      if negb (Device.validate device') then db else
      let db1 := withDevices (Mongo.save Device._id device' (devices db)) db in
      match alertCreate now (Device.deviceId device') (Device.parentId device')
              "device_offline" (offlineMessage device') "medium"
              (offlineData device' cutoffTime) (alerts db1) with
      | None => db1
      | Some (_, als) => offlineLoop now cutoffTime rest (withAlerts als db1)
      end
  end.

(** The job scheduled every five minutes. *)
Definition checkOfflineDevices (now : Date) (db : Db) : Db :=
  let cutoffTime := now - offlineThreshold in
  let found := filter (offlineFilter cutoffTime) (devices db) in
  offlineLoop now cutoffTime found db.

(** The TTL index on [expiresAt] ([expires: 0]): the database removes a
    command once its [expiresAt] has passed. *)
Definition ttlMonitor (now : Date) (db : Db) : Db :=
  withCommands
    (filter (fun c => match Command.expiresAt c with
                      | Some e => now <? e
                      | None => true
                      end)
            (commands db))
    db.

End Jobs.

(** ** The system as a whole

    Every entry point of the repository that writes the command
    collection, the heartbeat, and the two background activities.  (The
    history listing only reads; linking and deleting a device touch the
    device collection alone.) *)
Inductive Request : Type :=
| GetPendingCommands (deviceId : string)
| AcknowledgeCommand (commandId : ObjectId)
| ReportCommandResult (commandId : ObjectId) (body : CommandController.ResultBody)
| SendCommand (user : ObjectId) (body : CommandController.SendBody)
| CancelCommand (user : ObjectId) (commandId : ObjectId)
| RetryCommand (user : ObjectId) (commandId : ObjectId)
| ReceiveHeartbeat (body : DeviceController.HeartbeatBody)
| UpdateDeviceSettings (user : ObjectId) (deviceId : string)
    (body : DeviceController.SettingsBody)
| ToggleDeviceBlock (user : ObjectId) (deviceId : string) (blocked : bool)
| CheckOfflineDevices
| TtlMonitor.

Definition handle (now : Date) (req : Request) (db : Db) : Db :=
  match req with
  | GetPendingCommands deviceId =>
      fst (CommandController.getPendingCommands deviceId now db)
  | AcknowledgeCommand commandId =>
      fst (CommandController.acknowledgeCommand commandId now db)
  | ReportCommandResult commandId body =>
      fst (CommandController.reportCommandResult commandId body now db)
  | SendCommand user body => fst (CommandController.sendCommand user body now db)
  | CancelCommand user commandId =>
      fst (CommandController.cancelCommand user commandId now db)
  | RetryCommand user commandId =>
      fst (CommandController.retryCommand user commandId now db)
  | ReceiveHeartbeat body => fst (DeviceController.receiveHeartbeat body now db)
  | UpdateDeviceSettings user deviceId body =>
      fst (DeviceController.updateDeviceSettings user deviceId body now db)
  | ToggleDeviceBlock user deviceId blocked =>
      fst (DeviceController.toggleDeviceBlock user deviceId blocked now db)
  | CheckOfflineDevices => Jobs.checkOfflineDevices now db
  | TtlMonitor => Jobs.ttlMonitor now db
  end.

(** A history: requests with the time each one is served. *)
Fixpoint run (history : list (Date * Request)) (db : Db) : Db :=
  match history with
  | [] => db
  | (now, req) :: rest => run rest (handle now req db)
  end.

(** The system before any command was issued: linked devices only. *)
Definition initial (linked : list Device.t) : Db := mkDb [] linked [].

(** ** Invariant of the command collection *)

(** What holds of every stored command: it passes the schema validators
    (so its status is a member of [Command.statusEnum] and its retry count
    is at most five), it has its deadline, its retry count is not negative,
    and at the retry ceiling it is not [pending]. *)
Definition wellFormed (c : Command.t) : Prop :=
  Command.validate c = true
  /\ (exists e, Command.expiresAt c = Some e)
  /\ 0 <= Command.retryCount c
  /\ (Command.retryCount c = 5 -> Command.status c <> "pending").

(** The eligibility rule in the words of the specification (data model of
    Command), to be compared with what the pull query selects. *)
Definition eligible (now : Date) (c : Command.t) : Prop :=
  (Command.status c = "pending" \/ Command.status c = "sent")
  /\ (exists e, Command.expiresAt c = Some e /\ now < e)
  /\ (Command.nextRetryAt c = None
      \/ exists r, Command.nextRetryAt c = Some r /\ r <= now).

(** Rank of a priority in the words of the specification: critical before
    high before normal before low. *)
Definition priorityRank (p : string) : Z :=
  if String.eqb p "critical" then 3
  else if String.eqb p "high" then 2
  else if String.eqb p "normal" then 1
  else 0.

(** The body of a pull reply, [[]] for an error reply. *)
Definition pulled (r : Reply (list CommandController.Summary))
  : list CommandController.Summary :=
  match r with
  | Json _ l => l
  | Fail _ _ => []
  end.

(** The stored command with a given id. *)
Definition stored (commandId : ObjectId) (db : Db) : option Command.t :=
  Mongo.findOne (Mongo.byId Command._id commandId) (commands db).

(** Number of [device_offline] alerts raised for a device. *)
Definition offlineAlerts (deviceId : string) (als : list Alert.t) : nat :=
  List.length
    (filter (fun a => String.eqb (Alert.deviceId a) deviceId
                      && String.eqb (Alert.type a) "device_offline") als).

(** ** Presence: what the device schema guarantees, and repeated sweeps *)

(** The constraints of the device schema that the offline job relies on:
    [_id] and [deviceId] are unique, [deviceId] is required and
    [deviceName] has [maxlength: 100]. *)
Definition devicesValid (ds : list Device.t) : Prop :=
  NoDup (map Device._id ds)
  /\ NoDup (map Device.deviceId ds)
  /\ Forall (fun d => Device.deviceId d <> ""
                      /\ (String.length (Device.deviceName d) <= 100)%nat) ds.

(** Every stored device passes the validators of its schema.  Documents
    written by [create], by [save()] or by an update that runs the
    validators do; the update of a heartbeat's extra keys writes without
    them. *)
Definition devicesSavable (ds : list Device.t) : Prop :=
  Forall (fun d => Device.validate d = true) ds.

(** What one run of the offline job does to a device. *)
Definition flipIfSilent (cutoffTime : Date) (d : Device.t) : Device.t :=
  if Jobs.offlineFilter cutoffTime d then Device.setIsOnline false d else d.

(** The devices after the loop: each found document saved with
    [isOnline = false]. *)
Definition savedOffline (found ds : list Device.t) : list Device.t :=
  fold_left
    (fun acc d => Mongo.save Device._id (Device.setIsOnline false d) acc)
    found ds.

(** The offline job run at each of the given times, in turn. *)
Definition sweeps (times : list Date) (db : Db) : Db :=
  fold_left (fun acc t => Jobs.checkOfflineDevices t acc) times db.

(** ** Concrete situations used below *)
Module Fixtures.

Definition day : Z := 24 * 60 * 60 * 1000.

(** A stored command of device [dev-1], issued by parent 7. *)
Definition cmd (id : ObjectId) (priority status : string) (createdAt : Date)
  : Command.t :=
  Command.mk id "dev-1" 7 "lock_device" [] priority status None
             (Some (createdAt + day)) 0 None None None None None
             createdAt createdAt.

(** A(high, t1), B(critical, t2 > t1), C(high, t3 > t1). *)
Definition cmdA : Command.t := cmd 1 "high" "pending" 1000.
Definition cmdB : Command.t := cmd 2 "critical" "pending" 2000.
Definition cmdC : Command.t := cmd 3 "high" "pending" 3000.

Definition phone : Device.t :=
  Device.mk 1 "dev-1" "Child Device" 7 7 true (Some 0) 80 false "unknown" (-1)
            false Device.defaultSettings [] "active".

Definition dbOrdering : Db := mkDb [ cmdA; cmdB; cmdC ] [ phone ] [].

(** One command that has been handed to the device. *)
Definition dbSent : Db := mkDb [ cmd 1 "normal" "sent" 1000 ] [ phone ] [].

(** One command that has run to completion. *)
Definition dbCompleted : Db := mkDb [ cmd 1 "normal" "completed" 1000 ] [ phone ] [].

(** One command whose retries are exhausted. *)
Definition failedCmd : Command.t :=
  Command.mk 1 "dev-1" 7 "play_sound" [ ("volume", MNum 3) ] "high" "failed"
             None (Some (1000 + day)) 5 (Some 40000) None None None
             (Some "Command execution failed") 1000 50000.

Definition dbFailed : Db := mkDb [ failedCmd ] [ phone ] [].

Definition failure : CommandController.ResultBody :=
  CommandController.mkResultBody false None None None.

Definition successBody : CommandController.ResultBody :=
  CommandController.mkResultBody true (Some "done") None None.

(** A device that has been silent for an hour. *)
Definition silentPhone : Device.t :=
  Device.mk 1 "dev-1" "Child Device" 7 7 true (Some 0) 80 false "unknown" (-1)
            false Device.defaultSettings [] "active".

Definition hour : Z := 60 * 60 * 1000.

Definition dbSilent : Db := mkDb [] [ silentPhone ] [].

(** A critical lock command issued at 1000 ms, and the history that
    issues it. *)
Definition issued : Command.t :=
  Command.mk 1 "dev-1" 7 "lock_device" [] "critical" "pending" None
             (Some (1000 + 168 * 60 * 60 * 1000)) 0 None None None None None
             1000 1000.

Definition issuing : list (Date * Request) :=
  [ (1000, SendCommand 7 (CommandController.mkSendBody "dev-1" "lock_device"
                            None (Some "critical"))) ].

(** A command whose deadline has passed but whose status is still
    [pending]. *)
Definition stale : Command.t :=
  Command.mk 4 "dev-1" 7 "vibrate" [] "normal" "pending" None (Some 4000) 0
             None None None None None 1000 1000.

Definition dbStale : Db := mkDb [ stale; cmdA ] [ phone ] [].

(** A second device of the same parent, silent as well. *)
Definition silentTablet : Device.t :=
  Device.mk 2 "dev-2" "Tablet" 7 7 true (Some 0) 50 false "wifi" 40
            false Device.defaultSettings [] "active".

Definition dbSilentPair : Db := mkDb [] [ silentPhone; silentTablet ] [].

(** A heartbeat of [dev-1] that reports a signal strength of 500 among
    its extra keys, and the store after it is served at time 0. *)
Definition loudHeartbeat : DeviceController.HeartbeatBody :=
  DeviceController.mkHeartbeatBody "dev-1" 80 false
    [ DeviceController.Written "signalStrength" (Device.setSignalStrength 500) ].

Definition dbUnsavable : Db :=
  fst (DeviceController.receiveHeartbeat loudHeartbeat 0 dbSilentPair).

(** Alerts of day 0 and of day 150: an offline notice and a tamper
    attempt that are old on day 200, and a recent battery notice. *)
Definition oldNotice : Alert.t :=
  Alert.mk 1 "dev-1" 7 "device_offline"
           "Device Child Device has been offline for more than 15 minutes"
           "medium" [] 0.

Definition oldTamper : Alert.t :=
  Alert.mk 2 "dev-1" 7 "tamper_attempt" "Tamper attempt detected" "critical"
           [] 0.

Definition recentNotice : Alert.t :=
  Alert.mk 3 "dev-1" 7 "low_battery" "Low battery alert: 15% remaining"
           "medium" [ ("batteryLevel", MNum 15) ] (150 * day).

Definition dbAlerts : Db :=
  mkDb [] [ phone ] [ oldNotice; oldTamper; recentNotice ].

End Fixtures.

(** ** The command controller: history listing *)
Module CommandHistory.

(** [req.query] of the history route: [{ page = 1, limit = 50, status }],
    with [page] and [limit] that denote integers. *)
Record Query : Type := mkQuery {
  page : option Z;
  limit : option Z;
  status : option string
}.

(** [{ deviceId, parentId: req.user._id }], with [status] added when the
    query gives a non-empty one. *)
Definition historyFilter (deviceId : string) (user : ObjectId)
    (status : option string) (c : Command.t) : bool :=
  String.eqb (Command.deviceId c) deviceId
  && Nat.eqb (Command.parentId c) user
  && match status with
     | Some s => if String.eqb s "" then true else String.eqb (Command.status c) s
     | None => true
     end.

(** The documents [Command.find(filter)] matches; their number is the
    [countDocuments(filter)] of the reply. *)
Definition matching (deviceId : string) (user : ObjectId)
    (status : option string) (db : Db) : list Command.t :=
  filter (historyFilter deviceId user status) (commands db).

(** [.sort({ createdAt: -1 })] *)
Definition newestFirst (a b : Command.t) : bool :=
  Command.createdAt b <=? Command.createdAt a.

(** [Math.ceil(total / limit)]; [None] is the non-finite quotient of a zero
    [limit], which the JSON body renders as [null]. *)
Definition pageCount (total : nat) (limit : Z) : option Z :=
  if limit =? 0 then None else Some (- ((- Z.of_nat total) / limit)).

(** The body of the history reply. *)
Record Listing : Type := mkListing {
  count : nat;
  total : nat;
  pageNo : Z;
  pages : option Z;
  commands : list Command.t
}.

(** [.limit(limit * 1).skip((page - 1) * limit)]: a negative skip is
    refused by the database, a zero limit is no limit, a negative limit
    counts as its absolute value. *)
Definition getCommandHistory (user : ObjectId) (deviceId : string) (q : Query)
    (db : Db) : Reply Listing :=
  let page := match page q with Some p => p | None => 1 end in
  let limit := match limit q with Some l => l | None => 50 end in
  let matching := matching deviceId user (status q) db in
  let skip := (page - 1) * limit in
  if skip <? 0 then Fail 500 "Server error fetching command history" else
  let rest := skipn (Z.to_nat skip) (sortBy newestFirst matching) in
  let commands := if limit =? 0 then rest else firstn (Z.abs_nat limit) rest in
  Json 200 (mkListing (List.length commands) (List.length matching) page
                      (pageCount (List.length matching) limit) commands).

End CommandHistory.

(** ** The device controller: linking and deleting *)
Module DeviceAdmin.

(** JavaScript white space within ASCII. *)
Definition isSpace (a : ascii) : bool :=
  let n := nat_of_ascii a in
  (Nat.eqb n 32 || (Nat.leb 9 n && Nat.leb n 13))%bool.

Fixpoint trimStart (s : string) : string :=
  match s with
  | String a rest => if isSpace a then trimStart rest else s
  | EmptyString => EmptyString
  end.

Fixpoint trimEnd (s : string) : string :=
  match s with
  | String a rest =>
      match trimEnd rest with
      | EmptyString => if isSpace a then EmptyString else String a EmptyString
      | rest' => String a rest'
      end
  | EmptyString => EmptyString
  end.

(** The [trim: true] setter of a String path. *)
Definition trim (s : string) : string := trimEnd (trimStart s).

(** [s.slice(-n)] *)
Definition sliceLast (n : nat) (s : string) : string :=
  substring (String.length s - n) n s.

(** [req.body] of the link route. *)
Record LinkBody : Type := mkLinkBody {
  deviceId : string;
  deviceName : option string;
  androidVersion : option string;
  appVersion : option string
}.

Definition versionPaths (body : LinkBody) : Payload :=
  (match androidVersion body with
   | Some v => [ ("androidVersion", MStr v) ]
   | None => []
   end)
  ++ (match appVersion body with
      | Some v => [ ("appVersion", MStr v) ]
      | None => []
      end).

(** [Device.create({ deviceId, deviceName, parentId, childId, ... })]:
    schema defaults, the [required] and [maxlength] validators, insertion. *)
Definition deviceCreate (deviceId deviceName : string) (parentId childId : ObjectId)
    (versions : Payload) (coll : list Device.t)
  : option (Device.t * list Device.t) :=
  let doc :=
    Device.mk (Mongo.freshId Device._id coll) deviceId (trim deviceName)
              parentId childId false None 0 false "unknown" (-1) false
              Device.defaultSettings versions "active" in
  if negb (String.eqb deviceId "")
     && Nat.leb (String.length (Device.deviceName doc)) 100
  then Some (doc, coll ++ [doc])
  else None.

Definition linkDevice (user : ObjectId) (body : LinkBody) (db : Db)
  : Db * Reply Device.t :=
  match Mongo.findOne (fun d => String.eqb (Device.deviceId d) (deviceId body))
          (devices db) with
  | Some _ => (db, Fail 400 "Device is already linked to another account")
  | None =>
      match deviceCreate (deviceId body)
              (orDefault (deviceName body)
                 ("Child Device - " ++ sliceLast 4 (deviceId body))%string)
              user user (versionPaths body) (devices db) with
      | None => (db, Fail 500 "Server error linking device")
      | Some (device, ds) => (withDevices ds db, Json 201 device)
      end
  end.

Definition setStatus (s : string) (d : Device.t) : Device.t :=
  Device.mk (Device._id d) (Device.deviceId d) (Device.deviceName d)
    (Device.parentId d) (Device.childId d) (Device.isOnline d)
    (Device.lastHeartbeat d) (Device.batteryLevel d) (Device.isCharging d)
    (Device.networkType d) (Device.signalStrength d) (Device.isBlocked d)
    (Device.settings d) (Device.telemetry d) s.

Definition deleteDevice (user : ObjectId) (deviceId : string) (db : Db)
  : Db * Reply string :=
  match Mongo.findOneAndUpdate
          (fun d => String.eqb (Device.deviceId d) deviceId
                    && Nat.eqb (Device.parentId d) user)
          (setStatus "deleted") (devices db) with
  | None => (db, Fail 404 "Device not found")
  | Some (_, ds) => (withDevices ds db, Json 200 "Device deleted successfully")
  end.

(** The [isOffline] virtual of the device schema; the interval is read
    from the loaded document, with its default. *)
Definition isOffline (now : Date) (d : Device.t) : bool :=
  match Device.lastHeartbeat d with
  | None => true
  | Some hb =>
      match Device.heartbeatInterval d with
      | Some interval => interval * 2 * 1000 <? now - hb
      | None => false
      end
  end.

End DeviceAdmin.

(** ** The alert retention job *)
Module Retention.

Definition ninetyDays : Z := 90 * 24 * 60 * 60 * 1000.

(** [Alert.deleteMany({ createdAt: { $lt: cutoffDate },
                        severity: { $in: ['low', 'medium'] } })] *)
Definition cleanupOldAlerts (now : Date) (db : Db) : Db :=
  let cutoffDate := now - ninetyDays in
  withAlerts
    (filter (fun a => negb ((Alert.createdAt a <? cutoffDate)
                            && inEnum (Alert.severity a) [ "low"; "medium" ]))
            (alerts db))
    db.

End Retention.

(** ** models/Session.js

    The record keeps the paths that the methods and statics read or write;
    the descriptive paths (device, agent, location, metadata) are left
    out. *)
Module Session.

Definition logoutReasonEnum : list string :=
  [ "user"; "timeout"; "security"; "system"; "other" ].

Record t : Type := mk {
  _id : ObjectId;
  userId : ObjectId;
  token : string;
  ipAddress : string;
  expiresAt : Date;
  lastActivity : Date;
  isActive : bool;
  logoutReason : option string;
  createdAt : Date;
  updatedAt : Date
}.

(** The [duration] virtual. *)
Definition duration (now : Date) (s : t) : Z :=
  if isActive s then now - createdAt s else updatedAt s - createdAt s.

(** [isExpired()] *)
Definition isExpired (now : Date) (s : t) : bool := expiresAt s <? now.


(** [logout(reason = 'user')]; [None] when [save()] rejects a reason
    outside the enumeration. *)
Definition logout (now : Date) (reason : option string) (s : t) : option t :=
  let r := match reason with Some r => r | None => "user" end in
  if inEnum r logoutReasonEnum
  then Some (mk (_id s) (userId s) (token s) (ipAddress s) now (lastActivity s)
                false (Some r) (createdAt s) now)
  else None.

(** [cleanupExpiredSessions()]: [deleteMany({ expiresAt: { $lt: now } })] *)
Definition cleanupExpiredSessions (now : Date) (coll : list t) : list t :=
  filter (fun s => negb (expiresAt s <? now)) coll.

(** [getActiveSessions(userId)] *)
Definition getActiveSessions (now : Date) (user : ObjectId) (coll : list t)
  : list t :=
  sortBy (fun a b => lastActivity b <=? lastActivity a)
         (filter (fun s => Nat.eqb (userId s) user && isActive s
                           && (now <? expiresAt s)) coll).

(** [logoutAllSessions(userId, reason = 'security')] *)
Definition logoutAllSessions (now : Date) (user : ObjectId)
    (reason : option string) (coll : list t) : list t :=
  let r := match reason with Some r => r | None => "security" end in
  Mongo.updateMany
    (fun s => Nat.eqb (userId s) user && isActive s)
    (fun s => mk (_id s) (userId s) (token s) (ipAddress s) now (lastActivity s)
                 false (Some r) (createdAt s) now)
    coll.

End Session.

(** ** What stays fixed in a stored command *)

(** The paths of a command that no handler writes after creation. *)
Definition core (c : Command.t)
  : ObjectId * string * ObjectId * string * Payload * string * option Date * Date :=
  (Command._id c, Command.deviceId c, Command.parentId c, Command.type c,
   Command.command c, Command.priority c, Command.expiresAt c,
   Command.createdAt c).

(** A command as the pull leaves it. *)
Definition markSent (now : Date) (c : Command.t) : Command.t :=
  Command.setUpdatedAt now (Command.setStatus "sent" c).

(** The sort key of the pull query, [{ priority: -1, createdAt: 1 }]. *)
Definition pendingKey (c : Command.t) : string * Date :=
  (Command.priority c, Command.createdAt c).

(** The stored device with a given [deviceId]. *)
Definition storedDevice (deviceId : string) (db : Db) : option Device.t :=
  Mongo.findOne (fun d => String.eqb (Device.deviceId d) deviceId) (devices db).

(** Number of [low_battery] alerts. *)
Definition lowBatteryAlerts (als : list Alert.t) : list Alert.t :=
  filter (fun a => String.eqb (Alert.type a) "low_battery") als.

(** The commands of one page of the history, [[]] for an error reply. *)
Definition historyPage (user : ObjectId) (deviceId : string)
    (status : option string) (limit : Z) (db : Db) (page : Z) : list Command.t :=
  match CommandHistory.getCommandHistory user deviceId
          (CommandHistory.mkQuery (Some page) (Some limit) status) db with
  | Json _ listing => CommandHistory.commands listing
  | Fail _ _ => []
  end.

(** * Properties *)

(** ** Lists and collections *)
Section SortingFacts.
Context {A : Type} (before : A -> A -> bool).

Lemma insertSorted_perm (x : A) (l : list A) :
  Permutation (insertSorted before x l) (x :: l).
Proof.
  induction l as [| y l IH]; simpl.
  - apply Permutation_refl.
  - destruct (before x y).
    + apply Permutation_refl.
    + eapply perm_trans; [apply perm_skip, IH | apply perm_swap].
Qed.

Lemma sortBy_perm (l : list A) : Permutation (sortBy before l) l.
Proof.
  induction l as [| x l IH]; simpl.
  - constructor.
  - eapply perm_trans; [apply insertSorted_perm | apply perm_skip, IH].
Qed.

Lemma sortBy_In (x : A) (l : list A) : In x (sortBy before l) <-> In x l.
Proof.
  split; apply Permutation_in;
    [apply sortBy_perm | apply Permutation_sym, sortBy_perm].
Qed.

(** With a total comparison the output is sorted: each document comes
    [before] its successor. *)
Hypothesis before_total : forall x y, before x y = false -> before y x = true.

Lemma insertSorted_sorted (x : A) (l : list A) :
  Sorted (fun a b => before a b = true) l ->
  Sorted (fun a b => before a b = true) (insertSorted before x l).
Proof.
  induction 1 as [| y l Hs IH Hd]; simpl.
  - repeat constructor.
  - destruct (before x y) eqn:E.
    + constructor; [constructor; assumption | constructor; exact E].
    + constructor; [exact IH |].
      destruct Hd as [| z l' Hz]; simpl.
      * constructor. apply before_total, E.
      * destruct (before x z); constructor;
          [apply before_total, E | exact Hz].
Qed.

Lemma sortBy_sorted (l : list A) :
  Sorted (fun a b => before a b = true) (sortBy before l).
Proof.
  induction l as [| x l IH]; simpl.
  - constructor.
  - apply insertSorted_sorted, IH.
Qed.
End SortingFacts.

Section CollectionFacts.
Context {D : Type} (idOf : D -> ObjectId).

Lemma findOne_some (p : D -> bool) (coll : list D) (d : D) :
  Mongo.findOne p coll = Some d -> In d coll /\ p d = true.
Proof. apply find_some. Qed.

Lemma findOne_none (p : D -> bool) (coll : list D) :
  Mongo.findOne p coll = None -> forall d, In d coll -> p d = false.
Proof. apply find_none. Qed.

Lemma updateMany_Forall (P : D -> Prop) (p : D -> bool) (f : D -> D) coll :
  (forall d, P d -> P (f d)) ->
  Forall P coll -> Forall P (Mongo.updateMany p f coll).
Proof.
  intros Hf H. unfold Mongo.updateMany.
  induction H as [| d l Hd Hl IH]; simpl; constructor; auto.
  destruct (p d); auto.
Qed.

Lemma findOneAndUpdate_Forall (P : D -> Prop) (p : D -> bool) (f : D -> D) :
  (forall d, P d -> P (f d)) ->
  forall coll d' coll',
    Mongo.findOneAndUpdate p f coll = Some (d', coll') ->
    Forall P coll -> Forall P coll' /\ P d'.
Proof.
  intros Hf coll. induction coll as [| d l IH]; simpl; intros d' coll' E H.
  - discriminate.
  - inversion H as [| ? ? Hd Hl]; subst.
    destruct (p d).
    + inversion E; subst. split; [constructor |]; auto.
    + destruct (Mongo.findOneAndUpdate p f l) as [[d1 l1] |] eqn:E1;
        [| discriminate].
      inversion E; subst.
      destruct (IH _ _ eq_refl Hl) as [H1 H2].
      split; [constructor |]; assumption.
Qed.

Lemma findOneAndUpdate_none (p : D -> bool) (f : D -> D) coll :
  Mongo.findOneAndUpdate p f coll = None <-> Mongo.findOne p coll = None.
Proof.
  unfold Mongo.findOne.
  induction coll as [| d l IH]; simpl; [tauto |].
  destruct (p d); [split; discriminate |].
  destruct (Mongo.findOneAndUpdate p f l) as [[d1 l1] |].
  - split; [discriminate |]. intros E. apply IH in E. discriminate.
  - split; intros _; [apply IH |]; reflexivity.
Qed.

Lemma findOneAndUpdate_some (p : D -> bool) (f : D -> D) coll d :
  Mongo.findOne p coll = Some d ->
  exists coll', Mongo.findOneAndUpdate p f coll = Some (f d, coll').
Proof.
  unfold Mongo.findOne.
  induction coll as [| x l IH]; simpl; [discriminate |].
  destruct (p x).
  - intros E; inversion E; subst. eexists; reflexivity.
  - intros E. destruct (IH E) as [l' ->]. eexists; reflexivity.
Qed.

Lemma save_Forall (P : D -> Prop) (doc : D) coll :
  P doc -> Forall P coll -> Forall P (Mongo.save idOf doc coll).
Proof.
  intros Hdoc H. unfold Mongo.save.
  induction H as [| d l Hd Hl IH]; simpl; constructor; auto.
  destruct (Mongo.byId idOf (idOf doc) d); auto.
Qed.

Lemma save_findOne (doc : D) coll id :
  idOf doc = id ->
  Mongo.findOne (Mongo.byId idOf id) coll <> None ->
  Mongo.findOne (Mongo.byId idOf id) (Mongo.save idOf doc coll) = Some doc.
Proof.
  intros <-. unfold Mongo.findOne, Mongo.save.
  induction coll as [| d l IH]; simpl; [congruence |].
  destruct (Mongo.byId idOf (idOf doc) d) eqn:E; simpl.
  - unfold Mongo.byId. rewrite Nat.eqb_refl. reflexivity.
  - rewrite E. exact IH.
Qed.

Lemma freshId_fresh (coll : list D) :
  ~ In (Mongo.freshId idOf coll) (map idOf coll).
Proof.
  unfold Mongo.freshId. intros H.
  pose proof (list_max_le (map idOf coll) (list_max (map idOf coll))) as [Hle _].
  specialize (Hle (Nat.le_refl _)).
  rewrite Forall_forall in Hle. apply Hle in H. lia.
Qed.
End CollectionFacts.

(** ** The pull query *)

Lemma pendingQuery_In (deviceId : string) (now : Date) coll cmd :
  In cmd (CommandController.pendingQuery deviceId now coll) <->
  In cmd coll /\ CommandController.pendingFilter deviceId now cmd = true.
Proof.
  unfold CommandController.pendingQuery.
  rewrite sortBy_In. apply filter_In.
Qed.

Lemma pendingFilter_true (deviceId : string) (now : Date) cmd :
  CommandController.pendingFilter deviceId now cmd = true <->
  Command.deviceId cmd = deviceId
  /\ (Command.status cmd = "pending" \/ Command.status cmd = "sent")
  /\ exists e, Command.expiresAt cmd = Some e /\ now < e.
Proof.
  unfold CommandController.pendingFilter, inEnum. simpl.
  rewrite !andb_true_iff, !orb_true_iff, !String.eqb_eq.
  split.
  - intros [[Hd Hs] He]. split; [exact Hd | split].
    + destruct Hs as [Hs | [Hs | Hs]]; [left | right | discriminate]; exact Hs.
    + destruct (Command.expiresAt cmd) as [e |]; [| discriminate].
      exists e. split; [reflexivity | apply Z.ltb_lt, He].
  - intros [Hd [Hs [e [He Hlt]]]]. repeat split.
    + exact Hd.
    + destruct Hs as [Hs | Hs]; [left | right; left]; exact Hs.
    + rewrite He. apply Z.ltb_lt, Hlt.
Qed.

Lemma compare_same (s : string) : String.compare s s = Eq.
Proof.
  pose proof (String.compare_antisym s s) as H.
  destruct (String.compare s s); simpl in H; congruence.
Qed.

Lemma pendingOrder_total (a b : Command.t) :
  CommandController.pendingOrder a b = false ->
  CommandController.pendingOrder b a = true.
Proof.
  unfold CommandController.pendingOrder.
  rewrite (String.compare_antisym (Command.priority b) (Command.priority a)).
  destruct (String.compare (Command.priority a) (Command.priority b));
    simpl; intros H; try discriminate; try reflexivity.
  apply Z.leb_gt in H. apply Z.leb_le. lia.
Qed.

(** The order the pull really delivers: along the reply, the priority
    names never increase as strings, and between equal priorities the
    creation dates never decrease. *)
Lemma pendingQuery_sorted (deviceId : string) (now : Date) coll :
  Sorted (fun a b => CommandController.pendingOrder a b = true)
         (CommandController.pendingQuery deviceId now coll).
Proof. apply sortBy_sorted. exact pendingOrder_total. Qed.

Lemma pendingOrder_same_priority (a b : Command.t) :
  Command.priority a = Command.priority b ->
  (CommandController.pendingOrder a b = true
   <-> Command.createdAt a <= Command.createdAt b).
Proof.
  intros E. unfold CommandController.pendingOrder.
  rewrite E, compare_same. apply Z.leb_le.
Qed.

(** C6: the pull reply is the summary list of the query result, and every
    document of that result is a stored command whose [expiresAt] lies
    strictly after [now]; a command with [expiresAt <= now] is never part of
    it, whatever its status. *)
Theorem getPendingCommands_excludes_expired :
  forall (deviceId : string) (now : Date) (db : Db),
    snd (CommandController.getPendingCommands deviceId now db)
    = Json 200 (map CommandController.summary
                  (CommandController.pendingQuery deviceId now (commands db)))
    /\ (forall cmd,
          In cmd (CommandController.pendingQuery deviceId now (commands db)) ->
          In cmd (commands db)
          /\ exists e, Command.expiresAt cmd = Some e /\ now < e)
    /\ (forall cmd e,
          Command.expiresAt cmd = Some e -> e <= now ->
          ~ In cmd (CommandController.pendingQuery deviceId now (commands db))).
Proof.
  intros deviceId now db. split; [reflexivity | split].
  - intros cmd H. apply pendingQuery_In in H. destruct H as [Hin Hf].
    apply pendingFilter_true in Hf. tauto.
  - intros cmd e He Hle H. apply pendingQuery_In in H. destruct H as [_ Hf].
    apply pendingFilter_true in Hf. destruct Hf as [_ [_ [e' [He' Hlt]]]].
    rewrite He in He'. inversion He'; subst. lia.
Qed.

Lemma getPendingCommands_excludes_expired_witness :
  ~ In Fixtures.stale
       (CommandController.pendingQuery "dev-1" 5000 (commands Fixtures.dbStale)).
Proof.
  destruct (getPendingCommands_excludes_expired "dev-1" 5000 Fixtures.dbStale)
    as [_ [_ H]].
  apply (H Fixtures.stale 4000); [reflexivity | discriminate].
Defined.

(** ** Schema validity and the stored-command invariant *)

Lemma validate_spec (c : Command.t) :
  Command.validate c = true <->
  String.eqb (Command.deviceId c) "" = false
  /\ inEnum (Command.type c) Command.typeEnum = true
  /\ inEnum (Command.priority c) Command.priorityEnum = true
  /\ inEnum (Command.status c) Command.statusEnum = true
  /\ Command.retryCount c <= 5.
Proof.
  unfold Command.validate.
  rewrite !andb_true_iff, negb_true_iff, Z.leb_le. tauto.
Qed.

Lemma inEnum_In (s : string) (values : list string) :
  inEnum s values = true <-> In s values.
Proof.
  unfold inEnum. rewrite existsb_exists. split.
  - intros [x [Hin Heq]]. apply String.eqb_eq in Heq. subst. exact Hin.
  - intros H. exists s. split; [exact H | apply String.eqb_refl].
Qed.

Lemma within_spec (lo hi : Z) (x : option Z) :
  Device.within lo hi x = true <-> exists n, x = Some n /\ lo <= n <= hi.
Proof.
  unfold Device.within. destruct x as [n |].
  - rewrite andb_true_iff, !Z.leb_le. split.
    + intros H. exists n. split; [reflexivity | exact H].
    + intros [m [E H]]. inversion E; subst. exact H.
  - split; [discriminate | intros [n [E _]]; discriminate].
Qed.

(** What the validators of the device schema ask of a document. *)
Lemma deviceValidate_spec (d : Device.t) :
  Device.validate d = true <->
  Device.deviceId d <> ""
  /\ (String.length (Device.deviceName d) <= 100)%nat
  /\ 0 <= Device.batteryLevel d <= 100
  /\ In (Device.networkType d) Device.networkTypeEnum
  /\ -1 <= Device.signalStrength d <= 100
  /\ (exists n, Device.heartbeatInterval d = Some n /\ 60 <= n <= 3600)
  /\ (exists n, Device.maxBatteryAlert d = Some n /\ 5 <= n <= 50)
  /\ In (Device.status d) Device.statusEnum.
Proof.
  unfold Device.validate.
  rewrite !andb_true_iff, negb_true_iff, String.eqb_neq, Nat.leb_le,
    !within_spec, !inEnum_In.
  split.
  - intros [[[[[[[H1 H2] [n [E H3]]] H4] [m [E' H5]]] H6] H7] H8].
    inversion E; inversion E'; subst. tauto.
  - intros [H1 [H2 [H3 [H4 [H5 [H6 [H7 H8]]]]]]].
    repeat split; try assumption; eexists; (split; [reflexivity | assumption]).
Qed.

Lemma validate_updateHeartbeat (now : Date) (level : Z) (charging : bool)
    (d : Device.t) :
  Device.validate d = true -> 0 <= level <= 100 ->
  Device.validate (Device.updateHeartbeat now level charging d) = true.
Proof.
  intros H Hl. apply deviceValidate_spec in H. apply deviceValidate_spec.
  unfold Device.heartbeatInterval, Device.maxBatteryAlert in *.
  cbn [Device.updateHeartbeat Device.deviceId Device.deviceName
       Device.batteryLevel Device.networkType Device.signalStrength
       Device.settings Device.status].
  tauto.
Qed.

Lemma preSave_fields (now : Date) (c : Command.t) :
  Command.validate (Command.preSave now c) = Command.validate c
  /\ Command.status (Command.preSave now c) = Command.status c
  /\ Command.retryCount (Command.preSave now c) = Command.retryCount c
  /\ Command._id (Command.preSave now c) = Command._id c
  /\ exists e, Command.expiresAt (Command.preSave now c) = Some e.
Proof.
  unfold Command.preSave.
  destruct (Command.expiresAt c) as [e |] eqn:E.
  - repeat split; try reflexivity. exists e. exact E.
  - repeat split; try reflexivity. eexists. reflexivity.
Qed.

(** A status written by one of the unconditional updates. *)
Lemma wellFormed_setStatus (now : Date) (s : string) (c : Command.t) :
  In s Command.statusEnum -> s <> "pending" ->
  wellFormed c ->
  wellFormed (Command.setUpdatedAt now (Command.setStatus s c)).
Proof.
  intros Hs Hp [Hv [He [H0 Hc]]].
  apply validate_spec in Hv. destruct Hv as [V1 [V2 [V3 [V4 V5]]]].
  split; [| split; [| split]]; simpl; auto.
  apply validate_spec; simpl. repeat split; auto.
  apply inEnum_In. exact Hs.
Qed.

Lemma wellFormed_saved (now : Date) (c : Command.t) :
  Command.validate c = true ->
  0 <= Command.retryCount c ->
  (Command.retryCount c = 5 -> Command.status c <> "pending") ->
  wellFormed (Command.setUpdatedAt now (Command.preSave now c)).
Proof.
  intros Hv H0 Hc.
  destruct (preSave_fields now c) as [Pv [Ps [Pr [_ Pe]]]].
  split; [| split; [| split]]; simpl.
  - rewrite <- Pv in Hv. apply validate_spec in Hv. apply validate_spec.
    simpl. exact Hv.
  - exact Pe.
  - rewrite Pr. exact H0.
  - rewrite Pr, Ps. exact Hc.
Qed.

Lemma markAsFailed_spec (now : Date) (reason : string) (c : Command.t) :
  let c' := Command.markAsFailed now reason c in
  Command.retryCount c' = Command.retryCount c + 1
  /\ (Command.retryCount c' < 5 ->
      Command.status c' = "pending"
      /\ Command.nextRetryAt c' = Some (now + 2 ^ Command.retryCount c' * 1000))
  /\ (5 <= Command.retryCount c' ->
      Command.status c' = "failed"
      /\ Command.nextRetryAt c' = Command.nextRetryAt c).
Proof.
  unfold Command.markAsFailed.
  destruct (5 <=? Command.retryCount c + 1) eqn:E; simpl;
    [apply Z.leb_le in E | apply Z.leb_gt in E];
    (split; [reflexivity | split; intros H; try lia; split; reflexivity]).
Qed.

Lemma commandCreate_spec (now : Date) deviceId parentId type command priority
    coll doc coll' :
  commandCreate now deviceId parentId type command priority coll
  = Some (doc, coll') ->
  coll' = coll ++ [doc]
  /\ wellFormed doc
  /\ Command._id doc = Mongo.freshId Command._id coll
  /\ Command.deviceId doc = deviceId
  /\ Command.parentId doc = parentId
  /\ Command.type doc = type
  /\ Command.command doc = command
  /\ Command.priority doc
     = match priority with Some p => p | None => "normal" end
  /\ Command.status doc = "pending"
  /\ Command.retryCount doc = 0
  /\ Command.expiresAt doc
     = Some (now + (if String.eqb (Command.priority doc) "critical"
                    then 168 else 24) * 60 * 60 * 1000).
Proof.
  unfold commandCreate.
  set (d := Command.mk _ _ _ _ _ _ _ _ _ _ _ _ _ _ _ _ _).
  destruct (Command.validate d) eqn:Hv; [| discriminate].
  intros E. inversion E; subst doc coll'; clear E.
  split; [reflexivity | split].
  - destruct (preSave_fields now d) as [Pv [Ps [Pr [_ Pe]]]].
    split; [| split; [| split]].
    + rewrite Pv. exact Hv.
    + exact Pe.
    + rewrite Pr. simpl. lia.
    + rewrite Pr. simpl. lia.
  - unfold Command.preSave. simpl. repeat split; reflexivity.
Qed.

Lemma commandCreate_succeeds (now : Date) deviceId parentId type command
    priority coll :
  String.eqb deviceId "" = false ->
  inEnum type Command.typeEnum = true ->
  inEnum priority Command.priorityEnum = true ->
  exists doc,
    commandCreate now deviceId parentId type command (Some priority) coll
    = Some (doc, coll ++ [doc]).
Proof.
  intros Hd Ht Hp. unfold commandCreate.
  match goal with |- context [Command.validate ?d] =>
    assert (Hv : Command.validate d = true)
  end.
  { apply validate_spec. simpl. repeat split; auto. lia. }
  rewrite Hv. eexists. reflexivity.
Qed.

Lemma commandCreate_wellFormed (now : Date) deviceId parentId type command
    priority coll doc coll' :
  commandCreate now deviceId parentId type command priority coll
  = Some (doc, coll') ->
  Forall wellFormed coll -> Forall wellFormed coll'.
Proof.
  intros E H. apply commandCreate_spec in E. destruct E as [-> [Hw _]].
  apply Forall_app. split; [exact H | constructor; [exact Hw | constructor]].
Qed.

(** ** Handlers that leave the command collection alone *)

Lemma receiveHeartbeat_commands (body : DeviceController.HeartbeatBody)
    (now : Date) (db : Db) :
  commands (fst (DeviceController.receiveHeartbeat body now db)) = commands db.
Proof.
  unfold DeviceController.receiveHeartbeat.
  destruct (Mongo.findOne _ (devices db)) as [found |]; [| reflexivity].
  destruct (negb (Device.validate _)); [reflexivity |].
  cbv zeta.
  match goal with
  | |- context [match ?u with Some _ => _ | None => (_, _) end] =>
      remember u as updated eqn:Eu
  end.
  assert (Hu : forall db2, updated = Some db2 -> commands db2 = commands db).
  { rewrite Eu. intros db2.
    destruct (DeviceController.otherData body) as [| kv other];
      [intros [= <-]; reflexivity |].
    destruct (DeviceController.extraUpdate _ _); [| discriminate].
    destruct (Mongo.findOneAndUpdate _ _ _) as [[d ds] |];
      intros [= <-]; reflexivity. }
  clear Eu. destruct updated as [db2 |]; [| reflexivity].
  specialize (Hu db2 eq_refl).
  destruct (DeviceController.lowBattery _ _ _); [| exact Hu].
  destruct (alertCreate _ _ _ _ _ _ _ _) as [[a als] |]; exact Hu.
Qed.

Lemma offlineLoop_commands (now cutoffTime : Date) (found : list Device.t) :
  forall db, commands (Jobs.offlineLoop now cutoffTime found db) = commands db.
Proof.
  induction found as [| device rest IH]; intros db; simpl.
  - reflexivity.
  - destruct (negb (Device.validate _)); [reflexivity |].
    destruct (alertCreate _ _ _ _ _ _ _ _) as [[a als] |].
    + rewrite IH. reflexivity.
    + reflexivity.
Qed.

(** ** Every request keeps the stored commands well formed *)

Lemma reportCommandResult_wellFormed commandId body (now : Date) (db : Db) :
  Forall wellFormed (commands db) ->
  Forall wellFormed
    (commands (fst (CommandController.reportCommandResult commandId body now db))).
Proof.
  intros H. unfold CommandController.reportCommandResult.
  destruct (Mongo.findOne _ (commands db)) as [cmd |] eqn:Ef; [| exact H].
  apply findOne_some in Ef. destruct Ef as [Hin _].
  rewrite Forall_forall in H. pose proof (H _ Hin) as [Hv [He [H0 Hc]]].
  rewrite <- Forall_forall in H.
  unfold commandSave.
  match goal with |- context [Command.validate ?c] =>
    destruct (Command.validate c) eqn:Hv'; [| exact H]
  end.
  simpl. apply save_Forall; [| exact H].
  apply wellFormed_saved; [exact Hv' | |].
  - destruct (CommandController.success body); simpl; [exact H0 |].
    pose proof (markAsFailed_spec now
      (orDefault (CommandController.message body) "Command execution failed") cmd)
      as [Hr _].
    simpl in Hr. rewrite Hr. lia.
  - destruct (CommandController.success body); simpl; [discriminate |].
    pose proof (markAsFailed_spec now
      (orDefault (CommandController.message body) "Command execution failed") cmd)
      as [Hr [_ Hf]].
    simpl in Hr, Hf. intros H5.
    destruct (Hf ltac:(lia)) as [Hs _]. rewrite Hs. discriminate.
Qed.

Lemma handle_wellFormed (now : Date) (req : Request) (db : Db) :
  Forall wellFormed (commands db) ->
  Forall wellFormed (commands (handle now req db)).
Proof.
  intros H. destruct req; simpl.
  - (* pull *)
    unfold CommandController.getPendingCommands.
    destruct (CommandController.pendingQuery _ _ _); simpl; [exact H |].
    apply updateMany_Forall; [| exact H].
    intros d. apply wellFormed_setStatus; [simpl; tauto | discriminate].
  - (* acknowledge *)
    unfold CommandController.acknowledgeCommand.
    destruct (Mongo.findOneAndUpdate _ _ _) as [[d coll'] |] eqn:E; [| exact H].
    simpl. eapply findOneAndUpdate_Forall in E; [apply E | | exact H].
    intros c. apply wellFormed_setStatus; [simpl; tauto | discriminate].
  - apply reportCommandResult_wellFormed, H.
  - (* send *)
    unfold CommandController.sendCommand.
    destruct (Mongo.findOne _ _); [| exact H].
    destruct (commandCreate _ _ _ _ _ _ _) as [[c coll'] |] eqn:E; [| exact H].
    simpl. eapply commandCreate_wellFormed; eauto.
  - (* cancel *)
    unfold CommandController.cancelCommand.
    destruct (Mongo.findOneAndUpdate _ _ _) as [[d coll'] |] eqn:E; [| exact H].
    simpl. eapply findOneAndUpdate_Forall in E; [apply E | | exact H].
    intros c. apply wellFormed_setStatus; [simpl; tauto | discriminate].
  - (* retry *)
    unfold CommandController.retryCommand.
    destruct (Mongo.findOne _ _); [| exact H].
    destruct (commandCreate _ _ _ _ _ _ _) as [[c coll'] |] eqn:E; [| exact H].
    simpl. eapply commandCreate_wellFormed; eauto.
  - rewrite receiveHeartbeat_commands. exact H.
  - (* settings *)
    unfold DeviceController.updateDeviceSettings.
    destruct (DeviceController.cast body) as [settings |]; [| exact H].
    destruct (negb _); [exact H |].
    destruct (Mongo.findOneAndUpdate _ _ _) as [[d ds] |]; [| exact H].
    destruct (commandCreate _ _ _ _ _ _ _) as [[c coll'] |] eqn:E; [| exact H].
    simpl. eapply commandCreate_wellFormed; eauto.
  - (* block *)
    unfold DeviceController.toggleDeviceBlock.
    destruct (Mongo.findOneAndUpdate _ _ _) as [[d ds] |]; [| exact H].
    destruct (commandCreate _ _ _ _ _ _ _) as [[c coll'] |] eqn:E; [| exact H].
    simpl. eapply commandCreate_wellFormed; eauto.
  - unfold Jobs.checkOfflineDevices. rewrite offlineLoop_commands. exact H.
  - unfold Jobs.ttlMonitor. simpl.
    rewrite Forall_forall in *. intros c Hc. apply filter_In in Hc.
    apply H, Hc.
Qed.

Lemma run_wellFormed (history : list (Date * Request)) :
  forall db, Forall wellFormed (commands db) ->
             Forall wellFormed (commands (run history db)).
Proof.
  induction history as [| [now req] rest IH]; intros db H; simpl.
  - exact H.
  - apply IH, handle_wellFormed, H.
Qed.

Lemma reachable_wellFormed (history : list (Date * Request))
    (linked : list Device.t) :
  Forall wellFormed (commands (run history (initial linked))).
Proof. apply run_wellFormed. constructor. Qed.

(** ** Retry policy *)

(** C3: a failed result report increments [retryCount]; below the bound of
    five the command is [pending] again with [nextRetryAt = now +
    2^retryCount] seconds (the first failure gives [retryCount = 1] and
    [now + 2000] ms), at five it is [failed] and [nextRetryAt] is left as it
    was.  The handler persists exactly that for a stored command below the
    bound, and in no reachable state is a command with [retryCount = 5]
    [pending]. *)
Theorem markAsFailed_retry_policy :
  (forall (now : Date) (reason : string) (c : Command.t),
      let c' := Command.markAsFailed now reason c in
      Command.retryCount c' = Command.retryCount c + 1
      /\ (Command.retryCount c' < 5 ->
          Command.status c' = "pending"
          /\ Command.nextRetryAt c'
             = Some (now + 2 ^ Command.retryCount c' * 1000))
      /\ (5 <= Command.retryCount c' ->
          Command.status c' = "failed"
          /\ Command.nextRetryAt c' = Command.nextRetryAt c)
      /\ (Command.retryCount c = 0 ->
          Command.retryCount c' = 1
          /\ Command.status c' = "pending"
          /\ Command.nextRetryAt c' = Some (now + 2000)))
  /\ (forall commandId body (now : Date) (db : Db) (cmd : Command.t),
         stored commandId db = Some cmd ->
         Command.validate cmd = true ->
         CommandController.success body = false ->
         Command.retryCount cmd < 5 ->
         let r := CommandController.reportCommandResult commandId body now db in
         snd r = Json 200 "Command result reported"
         /\ exists c',
             stored commandId (fst r) = Some c'
             /\ Command.retryCount c' = Command.retryCount cmd + 1
             /\ (Command.retryCount cmd + 1 < 5 ->
                 Command.status c' = "pending"
                 /\ Command.nextRetryAt c'
                    = Some (now + 2 ^ (Command.retryCount cmd + 1) * 1000))
             /\ (Command.retryCount cmd + 1 = 5 -> Command.status c' = "failed"))
  /\ (forall (history : list (Date * Request)) (linked : list Device.t) c,
         In c (commands (run history (initial linked))) ->
         Command.retryCount c <= 5
         /\ (Command.retryCount c = 5 -> Command.status c <> "pending")).
Proof.
  split; [| split].
  - intros now reason c c'.
    destruct (markAsFailed_spec now reason c) as [Hr [Hlt Hge]].
    fold c' in Hr, Hlt, Hge.
    split; [exact Hr | split; [exact Hlt | split; [exact Hge |]]].
    intros H0. assert (H1 : Command.retryCount c' = 1) by lia.
    destruct (Hlt ltac:(lia)) as [Hs Hn].
    rewrite H1 in Hn. repeat split; assumption.
  - intros commandId body now db cmd Hst Hv Hs Hlt r. subst r.
    unfold CommandController.reportCommandResult.
    unfold stored in Hst. rewrite Hst, Hs.
    set (reason := orDefault _ _).
    destruct (markAsFailed_spec now reason cmd) as [Hr [Hp Hf]].
    set (c1 := Command.markAsFailed now reason cmd) in *.
    assert (Hid : Command._id c1 = Command._id cmd).
    { unfold c1, Command.markAsFailed.
      destruct (5 <=? Command.retryCount cmd + 1); reflexivity. }
    assert (Hv1 : Command.validate c1 = true).
    { apply validate_spec in Hv. destruct Hv as [V1 [V2 [V3 [V4 V5]]]].
      apply validate_spec. unfold c1, Command.markAsFailed.
      destruct (5 <=? Command.retryCount cmd + 1) eqn:E; simpl;
        repeat split; auto; lia. }
    unfold commandSave. rewrite Hv1. simpl.
    split; [reflexivity |].
    destruct (preSave_fields now c1) as [_ [Ps [Pr [Pi _]]]].
    exists (Command.setUpdatedAt now (Command.preSave now c1)).
    split; [| split; [| split]].
    + unfold stored. simpl. apply save_findOne.
      * simpl. rewrite Pi, Hid.
        apply findOne_some in Hst. destruct Hst as [_ Hb].
        apply Nat.eqb_eq in Hb. exact Hb.
      * rewrite Hst. discriminate.
    + simpl. rewrite Pr. exact Hr.
    + intros H. rewrite <- Hr in H. destruct (Hp H) as [H1 H2].
      simpl. rewrite Ps. split; [exact H1 |].
      unfold Command.preSave.
      destruct (Command.expiresAt c1); simpl; rewrite H2, Hr; reflexivity.
    + intros H. destruct (Hf ltac:(lia)) as [H1 _]. simpl. rewrite Ps. exact H1.
  - intros history linked c Hin.
    pose proof (reachable_wellFormed history linked) as H.
    rewrite Forall_forall in H. destruct (H _ Hin) as [Hv [_ [_ Hc]]].
    apply validate_spec in Hv. split; [tauto | exact Hc].
Qed.

Lemma markAsFailed_retry_policy_witness :
  (let r := CommandController.reportCommandResult 1 Fixtures.failure 10000
              Fixtures.dbSent in
   snd r = Json 200 "Command result reported"
   /\ exists c',
       stored 1 (fst r) = Some c'
       /\ Command.retryCount c' = 0 + 1
       /\ (0 + 1 < 5 ->
           Command.status c' = "pending"
           /\ Command.nextRetryAt c' = Some (10000 + 2 ^ (0 + 1) * 1000))
       /\ (0 + 1 = 5 -> Command.status c' = "failed")).
Proof.
  destruct markAsFailed_retry_policy as [_ [H _]].
  apply (H 1%nat Fixtures.failure 10000 Fixtures.dbSent
           (Fixtures.cmd 1 "normal" "sent" 1000)).
  - reflexivity.
  - reflexivity.
  - reflexivity.
  - reflexivity.
Defined.

(** ** Operator retry *)

Lemma find_refine {A : Type} (p r : A -> bool) (l : list A) (x : A) :
  find p l = Some x -> r x = true ->
  (forall a, r a = true -> p a = true) ->
  find r l = Some x.
Proof.
  intros Hx Hr Himp. induction l as [| y l IH]; simpl in *; [discriminate |].
  destruct (p y) eqn:E.
  - inversion Hx; subst. rewrite Hr. reflexivity.
  - destruct (r y) eqn:E'; [| apply IH, Hx].
    apply Himp in E'. congruence.
Qed.

Lemma find_app_some {A : Type} (p : A -> bool) (l l' : list A) (x : A) :
  find p l = Some x -> find p (l ++ l') = Some x.
Proof.
  induction l as [| y l IH]; simpl; [discriminate |].
  destruct (p y); auto.
Qed.

(** C8: for a stored command in [failed] state that belongs to the calling
    parent, retry appends one new command whose id is carried by no stored
    command, with [retryCount = 0], status [pending] and the type, payload,
    priority, device and parent of the original, and leaves the original as
    it is; when no stored command has that id, that parent and status
    [failed], the reply is 404 and nothing changes. *)
Theorem retryCommand_clones_failed :
  forall (user commandId : ObjectId) (now : Date) (db : Db),
    (forall cmd,
        stored commandId db = Some cmd ->
        Command.parentId cmd = user ->
        Command.status cmd = "failed" ->
        Command.validate cmd = true ->
        exists newCommand,
          CommandController.retryCommand user commandId now db
          = (withCommands (commands db ++ [newCommand]) db,
             Json 200 (CommandController.created newCommand))
          /\ ~ In (Command._id newCommand) (map Command._id (commands db))
          /\ Command._id newCommand <> commandId
          /\ Command.retryCount newCommand = 0
          /\ Command.status newCommand = "pending"
          /\ Command.type newCommand = Command.type cmd
          /\ Command.command newCommand = Command.command cmd
          /\ Command.priority newCommand = Command.priority cmd
          /\ Command.deviceId newCommand = Command.deviceId cmd
          /\ Command.parentId newCommand = Command.parentId cmd
          /\ stored commandId
               (fst (CommandController.retryCommand user commandId now db))
             = Some cmd)
    /\ ((forall c, In c (commands db) ->
                   ~ (Command._id c = commandId
                      /\ Command.parentId c = user
                      /\ Command.status c = "failed")) ->
        CommandController.retryCommand user commandId now db
        = (db, Fail 404 "Command not found or cannot be retried")).
Proof.
  intros user commandId now db. split.
  - intros cmd Hst Hp Hs Hv.
    unfold CommandController.retryCommand.
    assert (Hfind :
      Mongo.findOne
        (fun c => Nat.eqb (Command._id c) commandId
                  && Nat.eqb (Command.parentId c) user
                  && String.eqb (Command.status c) "failed")
        (commands db) = Some cmd).
    { unfold stored in Hst.
      apply (find_refine (Mongo.byId Command._id commandId)); [exact Hst | |].
      - rewrite Hp, Hs, Nat.eqb_refl.
        apply findOne_some in Hst. destruct Hst as [_ Hb].
        unfold Mongo.byId in Hb. rewrite Hb. reflexivity.
      - intros a Ha. rewrite !andb_true_iff in Ha. apply Ha. }
    rewrite Hfind.
    apply validate_spec in Hv. destruct Hv as [V1 [V2 [V3 _]]].
    destruct (commandCreate_succeeds now (Command.deviceId cmd)
                (Command.parentId cmd) (Command.type cmd) (Command.command cmd)
                (Command.priority cmd) (commands db) V1 V2 V3) as [doc Hc].
    rewrite Hc. exists doc.
    apply commandCreate_spec in Hc.
    destruct Hc as [_ [_ [Hid [Hd [Hpa [Ht [Hco [Hpr [Hs' [Hr _]]]]]]]]]].
    pose proof (freshId_fresh Command._id (commands db)) as Hfresh.
    rewrite <- Hid in Hfresh.
    split; [reflexivity |].
    split; [exact Hfresh |].
    split.
    { intros Heq. apply Hfresh. apply in_map_iff. exists cmd.
      apply findOne_some in Hst. destruct Hst as [Hin Hb].
      apply Nat.eqb_eq in Hb. split; [congruence | exact Hin]. }
    repeat (split; [assumption |]).
    simpl. unfold stored. simpl. apply find_app_some. exact Hst.
  - intros Hnone. unfold CommandController.retryCommand.
    destruct (Mongo.findOne _ (commands db)) as [cmd |] eqn:E; [| reflexivity].
    apply findOne_some in E. destruct E as [Hin Hb].
    rewrite !andb_true_iff, !Nat.eqb_eq, String.eqb_eq in Hb.
    exfalso. apply (Hnone cmd Hin). tauto.
Qed.

Lemma retryCommand_clones_failed_witness :
  exists newCommand,
    CommandController.retryCommand 7 1 60000 Fixtures.dbFailed
    = (withCommands (commands Fixtures.dbFailed ++ [newCommand]) Fixtures.dbFailed,
       Json 200 (CommandController.created newCommand))
    /\ Command._id newCommand <> 1%nat
    /\ Command.retryCount newCommand = 0
    /\ Command.status newCommand = "pending".
Proof.
  destruct (retryCommand_clones_failed 7 1 60000 Fixtures.dbFailed) as [H _].
  destruct (H Fixtures.failedCmd eq_refl eq_refl eq_refl eq_refl)
    as [newCommand [H1 [_ [H3 [H4 [H5 _]]]]]].
  exists newCommand. repeat split; assumption.
Defined.

(** ** The status enumeration and the deadline *)

Lemma statusEnum_NoDup : NoDup Command.statusEnum.
Proof.
  unfold Command.statusEnum.
  repeat (constructor;
          [simpl; intros H;
           repeat (destruct H as [H | H]; [discriminate H |]); exact H |]).
  constructor.
Qed.

(** C9, as stated: there would be nine distinct status values, the ones the
    schema enumerates.  The schema enumerates seven. *)
Lemma statusEnum_has_not_nine_values :
  ~ exists values : list string,
      NoDup values
      /\ List.length values = 9%nat
      /\ forall s, In s values <-> inEnum s Command.statusEnum = true.
Proof.
  intros [values [Hnd [Hlen Hiff]]].
  assert (Hincl : incl values Command.statusEnum).
  { intros s Hs. apply inEnum_In, Hiff, Hs. }
  pose proof (NoDup_incl_length Hnd Hincl) as Hle.
  rewrite Hlen in Hle. simpl in Hle. lia.
Qed.

(** C9, amended: the schema enumerates seven distinct status values; in
    every reachable state every stored command has one of them as its
    status and has its [expiresAt]; and a command created without a deadline
    gets [now + 24h] at normal priority (also the default priority) and
    [now + 168h] at critical priority. *)
Theorem status_enumerated_and_deadline_set :
  (NoDup Command.statusEnum /\ List.length Command.statusEnum = 7%nat)
  /\ (forall (history : list (Date * Request)) (linked : list Device.t) c,
         In c (commands (run history (initial linked))) ->
         In (Command.status c) Command.statusEnum
         /\ exists e, Command.expiresAt c = Some e)
  /\ (forall (now : Date) deviceId parentId type command priority coll doc coll',
         commandCreate now deviceId parentId type command priority coll
         = Some (doc, coll') ->
         In (Command.status doc) Command.statusEnum
         /\ (priority = None \/ priority = Some "normal" ->
             Command.expiresAt doc = Some (now + 24 * 60 * 60 * 1000))
         /\ (priority = Some "critical" ->
             Command.expiresAt doc = Some (now + 168 * 60 * 60 * 1000))).
Proof.
  split; [split; [apply statusEnum_NoDup | reflexivity] | split].
  - intros history linked c Hin.
    pose proof (reachable_wellFormed history linked) as H.
    rewrite Forall_forall in H. destruct (H _ Hin) as [Hv [He _]].
    apply validate_spec in Hv. destruct Hv as [_ [_ [_ [Hs _]]]].
    split; [apply inEnum_In, Hs | exact He].
  - intros now deviceId parentId type command priority coll doc coll' E.
    apply commandCreate_spec in E.
    destruct E as [_ [_ [_ [_ [_ [_ [_ [Hp [Hs [_ He]]]]]]]]]].
    split; [rewrite Hs; simpl; tauto | split].
    + intros Hn. rewrite He, Hp.
      destruct Hn as [-> | ->]; reflexivity.
    + intros ->. rewrite He, Hp. reflexivity.
Qed.

Lemma status_enumerated_and_deadline_set_witness :
  In (Command.status Fixtures.issued) Command.statusEnum
  /\ exists e, Command.expiresAt Fixtures.issued = Some e.
Proof.
  destruct status_enumerated_and_deadline_set as [_ [H _]].
  apply (H Fixtures.issuing [ Fixtures.phone ] Fixtures.issued).
  vm_compute. left. reflexivity.
Defined.

(** ** Unguarded transitions *)

Lemma findOneAndUpdate_stored (f : Command.t -> Command.t) (id : ObjectId)
    coll cmd :
  (forall c, Command._id (f c) = Command._id c) ->
  Mongo.findOne (Mongo.byId Command._id id) coll = Some cmd ->
  exists coll',
    Mongo.findOneAndUpdate (Mongo.byId Command._id id) f coll = Some (f cmd, coll')
    /\ Mongo.findOne (Mongo.byId Command._id id) coll' = Some (f cmd).
Proof.
  intros Hid. unfold Mongo.findOne.
  induction coll as [| c coll IH]; simpl; [discriminate |].
  destruct (Mongo.byId Command._id id c) eqn:E.
  - intros H. inversion H; subst. eexists. split; [reflexivity |].
    simpl. unfold Mongo.byId in *. rewrite Hid, E. reflexivity.
  - intros H. destruct (IH H) as [coll' [-> Hf]].
    eexists. split; [reflexivity |]. simpl. rewrite E. exact Hf.
Qed.

(** Whatever the status of a stored command, an acknowledgement is
    answered with success and stores [delivered]. *)
Lemma acknowledgeCommand_any_status (commandId : ObjectId) (now : Date)
    (db : Db) (cmd : Command.t) :
  stored commandId db = Some cmd ->
  let r := CommandController.acknowledgeCommand commandId now db in
  snd r = Json 200 "Command acknowledged"
  /\ stored commandId (fst r)
     = Some (Command.setUpdatedAt now (Command.setStatus "delivered" cmd)).
Proof.
  intros Hst r. subst r. unfold CommandController.acknowledgeCommand.
  destruct (findOneAndUpdate_stored
              (fun c => Command.setUpdatedAt now (Command.setStatus "delivered" c))
              commandId (commands db) cmd (fun c => eq_refl) Hst)
    as [coll' [E Hf]].
  rewrite E. simpl. split; [reflexivity | exact Hf].
Qed.

(** An unknown id is answered with 404 and changes nothing. *)
Lemma acknowledgeCommand_unknown (commandId : ObjectId) (now : Date) (db : Db) :
  stored commandId db = None ->
  CommandController.acknowledgeCommand commandId now db
  = (db, Fail 404 "Command not found").
Proof.
  intros Hst. unfold CommandController.acknowledgeCommand.
  apply (findOneAndUpdate_none _
           (fun c => Command.setUpdatedAt now (Command.setStatus "delivered" c)))
    in Hst.
  rewrite Hst. reflexivity.
Qed.

(** ** Where the handlers depart from the specification *)

(** C1 at A(high, t1), B(critical, t2), C(high, t3): the pull returns
    A, C, B.  The priorities are compared as strings, and [high] is the
    greater string; the specified order B, A, C is not produced. *)
Theorem pull_order_compares_priority_strings :
  map CommandController.id
      (pulled (snd (CommandController.getPendingCommands "dev-1" 5000
                      Fixtures.dbOrdering)))
  = [ Command._id Fixtures.cmdA; Command._id Fixtures.cmdC;
      Command._id Fixtures.cmdB ]
  /\ map CommandController.id
         (pulled (snd (CommandController.getPendingCommands "dev-1" 5000
                         Fixtures.dbOrdering)))
     <> [ Command._id Fixtures.cmdB; Command._id Fixtures.cmdA;
          Command._id Fixtures.cmdC ]
  /\ String.compare "high" "critical" = Gt
  /\ priorityRank "high" < priorityRank "critical".
Proof.
  split; [reflexivity | split; [discriminate | split; reflexivity]].
Qed.

(** C2 at a command whose failure was reported at 10000 ms: its
    [nextRetryAt] is 12000, and a pull at 10001 returns it all the same;
    the query has no condition on [nextRetryAt]. *)
Theorem pull_returns_command_in_backoff :
  let db1 := fst (CommandController.reportCommandResult 1 Fixtures.failure 10000
                    Fixtures.dbSent) in
  option_map Command.nextRetryAt (stored 1 db1) = Some (Some 12000)
  /\ option_map Command.status (stored 1 db1) = Some "pending"
  /\ map CommandController.id
         (pulled (snd (CommandController.getPendingCommands "dev-1" 10001 db1)))
     = [ 1%nat ]
  /\ forall c, stored 1 db1 = Some c -> ~ eligible 10001 c.
Proof.
  repeat split; try reflexivity.
  intros c Hc. vm_compute in Hc. inversion Hc; subst; clear Hc.
  intros [_ [_ [Hn | [r [Hr Hle]]]]].
  - discriminate Hn.
  - simpl in Hr. inversion Hr; subst. lia.
Qed.

(** C4 at a completed command: the acknowledgement is answered with
    success, and the stored status becomes [delivered] and [updatedAt] the
    time of the call. *)
Theorem acknowledge_overwrites_completed :
  let r := CommandController.acknowledgeCommand 1 9000 Fixtures.dbCompleted in
  option_map Command.status (stored 1 Fixtures.dbCompleted) = Some "completed"
  /\ snd r = Json 200 "Command acknowledged"
  /\ option_map Command.status (stored 1 (fst r)) = Some "delivered"
  /\ option_map Command.updatedAt (stored 1 Fixtures.dbCompleted) = Some 1000
  /\ option_map Command.updatedAt (stored 1 (fst r)) = Some 9000.
Proof. repeat split; reflexivity. Qed.

(** C5 at a sent command cancelled by its parent: the command is [expired];
    a success report then makes it [completed] with an execution result and
    an execution time, and a failure report makes it [pending] again, so the
    next pull hands it to the device. *)
Theorem result_after_cancel_changes_state :
  let cancelled := fst (CommandController.cancelCommand 7 1 5000 Fixtures.dbSent) in
  let ok := CommandController.reportCommandResult 1 Fixtures.successBody 6000
              cancelled in
  let ko := CommandController.reportCommandResult 1 Fixtures.failure 6000
              cancelled in
  option_map Command.status (stored 1 cancelled) = Some "expired"
  /\ snd ok = Json 200 "Command result reported"
  /\ option_map Command.status (stored 1 (fst ok)) = Some "completed"
  /\ option_map Command.executedAt (stored 1 (fst ok)) = Some (Some 6000)
  /\ option_map Command.executionResult (stored 1 (fst ok))
     = Some (Some (Command.mkResult true "done" None 6000 None))
  /\ snd ko = Json 200 "Command result reported"
  /\ option_map Command.status (stored 1 (fst ko)) = Some "pending"
  /\ map CommandController.id
         (pulled (snd (CommandController.getPendingCommands "dev-1" 9000 (fst ko))))
     = [ 1%nat ].
Proof. repeat split; reflexivity. Qed.

(** ** The offline job *)

Lemma length_append (s1 s2 : string) :
  String.length (s1 ++ s2)%string = (String.length s1 + String.length s2)%nat.
Proof.
  induction s1 as [| a s1 IH]; simpl; [reflexivity | rewrite IH; reflexivity].
Qed.

(** The documents a query finds keep the uniqueness of a key of the
    collection. *)
Lemma found_keys_unique {K : Type} (key : Device.t -> K) (cutoffTime : Date)
    (ds : list Device.t) :
  NoDup (map key ds) ->
  NoDup (map key (filter (Jobs.offlineFilter cutoffTime) ds)).
Proof.
  induction ds as [| d ds IH]; simpl; intros H; [constructor |].
  apply NoDup_cons_iff in H. destruct H as [Hfresh Hrest].
  destruct (Jobs.offlineFilter cutoffTime d); simpl; [| apply IH, Hrest].
  apply NoDup_cons_iff. split; [| apply IH, Hrest].
  intros Hin. apply Hfresh. apply in_map_iff in Hin.
  destruct Hin as [d' [Hkey Hin]]. apply filter_In in Hin.
  apply in_map_iff. exists d'. tauto.
Qed.

Lemma NoDup_map_inj {A B : Type} (f : A -> B) (l : list A) (x y : A) :
  NoDup (map f l) -> In x l -> In y l -> f x = f y -> x = y.
Proof.
  induction l as [| z l IH]; simpl; intros H Hx Hy E; [contradiction |].
  inversion H as [| ? ? Hn Hl]; subst.
  destruct Hx as [-> | Hx], Hy as [-> | Hy]; auto.
  - exfalso. apply Hn. rewrite E. apply in_map, Hy.
  - exfalso. apply Hn. rewrite <- E. apply in_map, Hx.
Qed.

Lemma offlineFilter_spec (now : Date) (d : Device.t) :
  Jobs.offlineFilter (now - Jobs.offlineThreshold) d = true <->
  Device.isOnline d = true
  /\ exists hb, Device.lastHeartbeat d = Some hb
                /\ now - hb > Jobs.offlineThreshold.
Proof.
  unfold Jobs.offlineFilter. rewrite andb_true_iff. split.
  - intros [Ho Hh]. split; [exact Ho |].
    destruct (Device.lastHeartbeat d) as [hb |]; [| discriminate].
    exists hb. split; [reflexivity |]. apply Z.ltb_lt in Hh. lia.
  - intros [Ho [hb [Hh Hgt]]]. split; [exact Ho |].
    rewrite Hh. apply Z.ltb_lt. lia.
Qed.

(** The alert of the loop body passes the alert validators. *)
Lemma offline_alertCreate (now cutoffTime : Date) (device : Device.t) als :
  Device.deviceId device <> "" ->
  (String.length (Device.deviceName device) <= 100)%nat ->
  let device' := Device.setIsOnline false device in
  exists a,
    alertCreate now (Device.deviceId device') (Device.parentId device')
      "device_offline" (Jobs.offlineMessage device') "medium"
      (Jobs.offlineData device' cutoffTime) als
    = Some (a, als ++ [a])
    /\ Alert.deviceId a = Device.deviceId device
    /\ Alert.type a = "device_offline".
Proof.
  intros Hid Hlen device'. unfold alertCreate.
  match goal with |- context [alertValidate ?d] =>
    assert (Hv : alertValidate d = true)
  end.
  { unfold alertValidate. simpl.
    apply String.eqb_neq in Hid. rewrite Hid. simpl.
    unfold Jobs.offlineMessage. simpl.
    rewrite length_append. simpl.
    rewrite andb_true_r. apply Nat.leb_le. lia. }
  rewrite Hv. eexists. split; [reflexivity | split; reflexivity].
Qed.

(** The loop on documents that pass the validators: each is saved
    offline and gets its alert. *)
Lemma offlineLoop_spec (now cutoffTime : Date) (found : list Device.t) :
  devicesSavable found ->
  forall db,
  exists new,
    Jobs.offlineLoop now cutoffTime found db
    = mkDb (commands db) (savedOffline found (devices db)) (alerts db ++ new)
    /\ map Alert.deviceId new = map Device.deviceId found
    /\ Forall (fun a => Alert.type a = "device_offline") new.
Proof.
  induction 1 as [| device rest Hv Hrest IH]; intros db.
  - exists []. simpl. rewrite app_nil_r. destruct db; repeat split; constructor.
  - pose proof (proj1 (deviceValidate_spec device) Hv) as [Hid [Hlen _]].
    simpl.
    change (Device.validate (Device.setIsOnline false device))
      with (Device.validate device).
    rewrite Hv. simpl.
    destruct (offline_alertCreate now cutoffTime device (alerts db) Hid Hlen)
      as [a [Ha [Hd Ht]]].
    simpl in Ha. rewrite Ha.
    destruct (IH (withAlerts (alerts db ++ [a])
                    (withDevices
                       (Mongo.save Device._id (Device.setIsOnline false device)
                          (devices db)) db)))
      as [new [E [Hm Hf]]].
    exists (a :: new). rewrite E. simpl.
    rewrite <- app_assoc. simpl.
    split; [reflexivity | split].
    + rewrite Hd, Hm. reflexivity.
    + constructor; assumption.
Qed.

Lemma savedOffline_map (found : list Device.t) :
  forall ds,
    NoDup (map Device._id found) ->
    (forall f d, In f found -> In d ds -> Device._id f = Device._id d -> d = f) ->
    savedOffline found ds
    = map (fun d => if existsb (fun f => Nat.eqb (Device._id f) (Device._id d)) found
                    then Device.setIsOnline false d else d) ds.
Proof.
  induction found as [| f rest IH]; intros ds Hnd Hsame.
  - simpl. symmetry. apply map_id.
  - simpl. inversion Hnd as [| ? ? Hn Hr]; subst.
    rewrite IH; [| exact Hr |].
    + unfold Mongo.save. rewrite map_map. apply map_ext_in.
      intros d Hd. unfold Mongo.byId. simpl.
      destruct (Nat.eqb (Device._id d) (Device._id f)) eqn:E.
      * apply Nat.eqb_eq in E.
        assert (d = f) by (apply Hsame; [left; reflexivity | exact Hd | congruence]).
        subst d. rewrite Nat.eqb_refl. simpl.
        destruct (existsb _ rest) eqn:Ex; [| reflexivity].
        exfalso. apply Hn. apply existsb_exists in Ex.
        destruct Ex as [g [Hg Hgid]]. apply Nat.eqb_eq in Hgid.
        apply in_map_iff. exists g. split; assumption.
      * rewrite Nat.eqb_sym, E. reflexivity.
    + intros g d Hg Hd Hgd. unfold Mongo.save in Hd. apply in_map_iff in Hd.
      destruct Hd as [d0 [Hd0 Hin]]. unfold Mongo.byId in Hd0. simpl in Hd0.
      destruct (Nat.eqb (Device._id d0) (Device._id f)) eqn:E.
      * subst d. simpl in Hgd. exfalso. apply Hn.
        apply in_map_iff. exists g. split; [exact Hgd | exact Hg].
      * subst d0. apply Hsame; [right; exact Hg | exact Hin | exact Hgd].
Qed.

(** One run of the job, on a valid device collection. *)
Lemma checkOfflineDevices_spec (now : Date) (db : Db) :
  devicesValid (devices db) ->
  devicesSavable (devices db) ->
  let cutoffTime := now - Jobs.offlineThreshold in
  let db' := Jobs.checkOfflineDevices now db in
  devices db' = map (flipIfSilent cutoffTime) (devices db)
  /\ commands db' = commands db
  /\ exists new,
      alerts db' = alerts db ++ new
      /\ map Alert.deviceId new
         = map Device.deviceId (filter (Jobs.offlineFilter cutoffTime) (devices db))
      /\ Forall (fun a => Alert.type a = "device_offline") new.
Proof.
  intros [Hids [Hdev Hnames]] Hsav cutoffTime db'. subst db'.
  unfold Jobs.checkOfflineDevices. fold cutoffTime.
  set (found := filter (Jobs.offlineFilter cutoffTime) (devices db)).
  assert (Hfound : devicesSavable found).
  { unfold devicesSavable in *. rewrite Forall_forall in *.
    intros d Hd. apply filter_In in Hd. apply Hsav, Hd. }
  destruct (offlineLoop_spec now cutoffTime found Hfound db) as [new [E [Hm Hf]]].
  rewrite E. simpl. split; [| split; [reflexivity | exists new; auto]].
  rewrite savedOffline_map.
  - apply map_ext_in. intros d Hd. unfold flipIfSilent.
    destruct (Jobs.offlineFilter cutoffTime d) eqn:Ep.
    + assert (Ex : existsb (fun f => Nat.eqb (Device._id f) (Device._id d)) found
                   = true).
      { apply existsb_exists. exists d. split; [| apply Nat.eqb_refl].
        apply filter_In. split; assumption. }
      rewrite Ex. reflexivity.
    + destruct (existsb _ found) eqn:Ex; [| reflexivity].
      apply existsb_exists in Ex. destruct Ex as [f [Hf' Hfid]].
      apply Nat.eqb_eq in Hfid. apply filter_In in Hf'. destruct Hf' as [Hin Hp].
      assert (f = d)
        by (apply (NoDup_map_inj Device._id (devices db)); assumption).
      subst f. congruence.
  - apply found_keys_unique, Hids.
  - intros f d Hf' Hd Hfd. apply filter_In in Hf'. destruct Hf' as [Hin _].
    apply (NoDup_map_inj Device._id (devices db)); auto.
Qed.

Lemma devicesValid_flip (cutoffTime : Date) (ds : list Device.t) :
  devicesValid ds -> devicesValid (map (flipIfSilent cutoffTime) ds).
Proof.
  intros [Hids [Hdev Hnames]].
  assert (Hsame : forall d,
             Device._id (flipIfSilent cutoffTime d) = Device._id d
             /\ Device.deviceId (flipIfSilent cutoffTime d) = Device.deviceId d
             /\ Device.deviceName (flipIfSilent cutoffTime d) = Device.deviceName d).
  { intros d. unfold flipIfSilent.
    destruct (Jobs.offlineFilter cutoffTime d); repeat split; reflexivity. }
  split; [| split].
  - rewrite map_map. erewrite map_ext; [exact Hids |]. intros d. apply Hsame.
  - rewrite map_map. erewrite map_ext; [exact Hdev |]. intros d. apply Hsame.
  - rewrite Forall_forall in *. intros d' Hd'. apply in_map_iff in Hd'.
    destruct Hd' as [d [<- Hd]].
    destruct (Hsame d) as [_ [-> ->]]. apply Hnames, Hd.
Qed.

Lemma devicesSavable_flip (cutoffTime : Date) (ds : list Device.t) :
  devicesSavable ds -> devicesSavable (map (flipIfSilent cutoffTime) ds).
Proof.
  unfold devicesSavable. rewrite !Forall_forall. intros H d' Hd'.
  apply in_map_iff in Hd'. destruct Hd' as [d [<- Hd]].
  unfold flipIfSilent.
  destruct (Jobs.offlineFilter cutoffTime d); [| apply H, Hd].
  change (Device.validate (Device.setIsOnline false d)) with (Device.validate d).
  apply H, Hd.
Qed.

Lemma offlineAlerts_app (deviceId : string) (als new : list Alert.t) :
  offlineAlerts deviceId (als ++ new)
  = (offlineAlerts deviceId als + offlineAlerts deviceId new)%nat.
Proof. unfold offlineAlerts. rewrite filter_app, length_app. reflexivity. Qed.

Lemma offlineAlerts_count (deviceId : string) (new : list Alert.t) :
  Forall (fun a => Alert.type a = "device_offline") new ->
  offlineAlerts deviceId new
  = count_occ string_dec (map Alert.deviceId new) deviceId.
Proof.
  unfold offlineAlerts.
  induction 1 as [| a new Ht Hnew IH]; simpl; [reflexivity |].
  rewrite Ht, String.eqb_refl, andb_true_r.
  destruct (string_dec (Alert.deviceId a) deviceId) as [E | E].
  - apply String.eqb_eq in E. rewrite E. simpl. rewrite IH. reflexivity.
  - apply String.eqb_neq in E. rewrite E. exact IH.
Qed.

(** A device the job observes silent gets one alert in that run. *)
Lemma sweep_alerts_silent (now : Date) (db : Db) (d : Device.t) :
  devicesValid (devices db) ->
  devicesSavable (devices db) ->
  In d (devices db) ->
  Jobs.offlineFilter (now - Jobs.offlineThreshold) d = true ->
  offlineAlerts (Device.deviceId d) (alerts (Jobs.checkOfflineDevices now db))
  = (offlineAlerts (Device.deviceId d) (alerts db) + 1)%nat.
Proof.
  intros Hv Hs Hin Hp.
  destruct (checkOfflineDevices_spec now db Hv Hs) as [_ [_ [new [Ha [Hm Ht]]]]].
  rewrite Ha, offlineAlerts_app, (offlineAlerts_count _ _ Ht), Hm.
  f_equal. apply NoDup_count_occ'.
  - apply found_keys_unique. apply Hv.
  - apply in_map. apply filter_In. split; assumption.
Qed.

(** A device that is offline gets no alert in a run, and stays offline. *)
Lemma sweep_alerts_offline (now : Date) (db : Db) (deviceId : string) :
  devicesValid (devices db) ->
  devicesSavable (devices db) ->
  (forall d, In d (devices db) -> Device.deviceId d = deviceId ->
             Device.isOnline d = false) ->
  offlineAlerts deviceId (alerts (Jobs.checkOfflineDevices now db))
  = offlineAlerts deviceId (alerts db)
  /\ devicesValid (devices (Jobs.checkOfflineDevices now db))
  /\ devicesSavable (devices (Jobs.checkOfflineDevices now db))
  /\ (forall d, In d (devices (Jobs.checkOfflineDevices now db)) ->
                Device.deviceId d = deviceId -> Device.isOnline d = false).
Proof.
  intros Hv Hs Hoff.
  destruct (checkOfflineDevices_spec now db Hv Hs) as [Hd [_ [new [Ha [Hm Ht]]]]].
  split; [| split; [| split]].
  - rewrite Ha, offlineAlerts_app, (offlineAlerts_count _ _ Ht), Hm.
    rewrite (proj1 (count_occ_not_In string_dec _ _)); [lia |].
    intros Hin. apply in_map_iff in Hin. destruct Hin as [d [Hid Hf]].
    apply filter_In in Hf. destruct Hf as [Hin Hp].
    unfold Jobs.offlineFilter in Hp. rewrite (Hoff d Hin Hid) in Hp.
    discriminate.
  - rewrite Hd. apply devicesValid_flip, Hv.
  - rewrite Hd. apply devicesSavable_flip, Hs.
  - rewrite Hd. intros d' Hd' Hid. apply in_map_iff in Hd'.
    destruct Hd' as [d [<- Hin]]. unfold flipIfSilent in *.
    destruct (Jobs.offlineFilter _ d); [reflexivity | apply Hoff; assumption].
Qed.

Lemma sweeps_alerts_offline (times : list Date) (deviceId : string) :
  forall db,
    devicesValid (devices db) ->
    devicesSavable (devices db) ->
    (forall d, In d (devices db) -> Device.deviceId d = deviceId ->
               Device.isOnline d = false) ->
    offlineAlerts deviceId (alerts (sweeps times db))
    = offlineAlerts deviceId (alerts db).
Proof.
  unfold sweeps.
  induction times as [| t times IH]; intros db Hv Hs Hoff; simpl; [reflexivity |].
  destruct (sweep_alerts_offline t db deviceId Hv Hs Hoff)
    as [Ha [Hv' [Hs' Hoff']]].
  rewrite IH; assumption.
Qed.

(** C7: the job does not flip and alert every device it selects.  A
    heartbeat writes its extra keys to the stored document without running
    the validators of the schema, and [save()] in the job validates the
    whole document: after an accepted heartbeat of [dev-1] that reports a
    signal strength of 500, both devices of the store, silent for an hour,
    are selected by the job, but [save()] of [dev-1] throws and the run
    ends there.  Both devices stay online and no [device_offline] alert is
    raised, for [dev-1] or for the valid [dev-2] behind it, in that run
    and in every later one. *)
Theorem offline_sweep_stops_at_unvalidated_heartbeat_data :
  devicesSavable (devices Fixtures.dbSilentPair)
  /\ isSuccess (snd (DeviceController.receiveHeartbeat Fixtures.loudHeartbeat 0
                       Fixtures.dbSilentPair)) = true
  /\ devices Fixtures.dbUnsavable
     = [ Device.setSignalStrength 500 Fixtures.silentPhone;
         Fixtures.silentTablet ]
  /\ devicesValid (devices Fixtures.dbUnsavable)
  /\ filter (Jobs.offlineFilter (Fixtures.hour - Jobs.offlineThreshold))
            (devices Fixtures.dbUnsavable)
     = devices Fixtures.dbUnsavable
  /\ Jobs.checkOfflineDevices Fixtures.hour Fixtures.dbUnsavable
     = Fixtures.dbUnsavable
  /\ devices (Jobs.checkOfflineDevices Fixtures.hour Fixtures.dbUnsavable)
     <> map (flipIfSilent (Fixtures.hour - Jobs.offlineThreshold))
            (devices Fixtures.dbUnsavable)
  /\ offlineAlerts "dev-1"
       (alerts (sweeps [ Fixtures.hour; 2 * Fixtures.hour; 3 * Fixtures.hour ]
                  Fixtures.dbUnsavable))
     = 0%nat
  /\ offlineAlerts "dev-2"
       (alerts (sweeps [ Fixtures.hour; 2 * Fixtures.hour; 3 * Fixtures.hour ]
                  Fixtures.dbUnsavable))
     = 0%nat.
Proof.
  split; [repeat constructor |].
  split; [reflexivity | split; [reflexivity |]].
  split; [| split; [reflexivity | split; [reflexivity |]]].
  - split; [| split].
    + repeat constructor; simpl; intuition discriminate.
    + repeat constructor; simpl; intuition discriminate.
    + repeat constructor; try discriminate; vm_compute; repeat constructor.
  - split; [discriminate | split; reflexivity].
Qed.

(** X30: on a device collection whose documents pass the validators of
    the schema (and have unique ids), one run of the offline job selects
    exactly the devices with [isOnline = true] and [now - lastHeartbeat]
    above the threshold, stores each of them with [isOnline = false] and
    leaves the others as they are, and appends one [device_offline] alert
    per selected device.  A device observed silent has one more such alert
    after that run and still exactly one more after any number of further
    runs; a device that is already offline gets none. *)
Theorem checkOfflineDevices_one_alert_per_transition :
  forall (now : Date) (db : Db),
    devicesValid (devices db) ->
    devicesSavable (devices db) ->
    let cutoffTime := now - Jobs.offlineThreshold in
    let db' := Jobs.checkOfflineDevices now db in
    (forall d, Jobs.offlineFilter cutoffTime d = true <->
               Device.isOnline d = true
               /\ exists hb, Device.lastHeartbeat d = Some hb
                             /\ now - hb > Jobs.offlineThreshold)
    /\ devices db' = map (flipIfSilent cutoffTime) (devices db)
    /\ (exists new,
           alerts db' = alerts db ++ new
           /\ map Alert.deviceId new
              = map Device.deviceId
                  (filter (Jobs.offlineFilter cutoffTime) (devices db))
           /\ Forall (fun a => Alert.type a = "device_offline") new)
    /\ (forall d, In d (devices db) ->
                  Jobs.offlineFilter cutoffTime d = true ->
                  offlineAlerts (Device.deviceId d) (alerts db')
                  = (offlineAlerts (Device.deviceId d) (alerts db) + 1)%nat
                  /\ forall times,
                      offlineAlerts (Device.deviceId d) (alerts (sweeps times db'))
                      = (offlineAlerts (Device.deviceId d) (alerts db) + 1)%nat)
    /\ (forall d, In d (devices db) ->
                  Device.isOnline d = false ->
                  forall times,
                    offlineAlerts (Device.deviceId d)
                                  (alerts (sweeps (now :: times) db))
                    = offlineAlerts (Device.deviceId d) (alerts db)).
Proof.
  intros now db Hv Hs cutoffTime db'.
  destruct (checkOfflineDevices_spec now db Hv Hs) as [Hd [_ Hnew]].
  fold cutoffTime in Hd, Hnew. fold db' in Hd, Hnew.
  split; [intros d; apply offlineFilter_spec |].
  split; [exact Hd |].
  split; [exact Hnew |].
  split.
  - intros d Hin Hp.
    pose proof (sweep_alerts_silent now db d Hv Hs Hin Hp) as H1.
    fold db' in H1. split; [exact H1 |].
    intros times. rewrite <- H1. apply sweeps_alerts_offline.
    + rewrite Hd. apply devicesValid_flip, Hv.
    + rewrite Hd. apply devicesSavable_flip, Hs.
    + rewrite Hd. intros d' Hd' Hid. apply in_map_iff in Hd'.
      destruct Hd' as [d0 [<- Hin0]].
      assert (d0 = d).
      { apply (NoDup_map_inj Device.deviceId (devices db)); auto.
        - apply Hv.
        - rewrite <- Hid. unfold flipIfSilent.
          destruct (Jobs.offlineFilter cutoffTime d0); reflexivity. }
      subst d0. unfold flipIfSilent. rewrite Hp. reflexivity.
  - intros d Hin Hoff times.
    apply (sweeps_alerts_offline (now :: times) (Device.deviceId d) db Hv Hs).
    intros d' Hin' Hid.
    assert (d' = d)
      by (apply (NoDup_map_inj Device.deviceId (devices db)); auto; apply Hv).
    subst d'. exact Hoff.
Qed.

Lemma checkOfflineDevices_one_alert_per_transition_witness :
  devices (Jobs.checkOfflineDevices Fixtures.hour Fixtures.dbSilent)
  = [ Device.setIsOnline false Fixtures.silentPhone ]
  /\ offlineAlerts "dev-1"
       (alerts (sweeps [ 2 * Fixtures.hour; 3 * Fixtures.hour ]
                  (Jobs.checkOfflineDevices Fixtures.hour Fixtures.dbSilent)))
     = 1%nat.
Proof.
  assert (Hv : devicesValid (devices Fixtures.dbSilent)).
  { split; [| split].
    - constructor; [intros H; exact H | constructor].
    - constructor; [intros H; exact H | constructor].
    - constructor; [| constructor].
      split; [discriminate | vm_compute; repeat constructor]. }
  assert (Hs : devicesSavable (devices Fixtures.dbSilent)).
  { constructor; [reflexivity | constructor]. }
  destruct (checkOfflineDevices_one_alert_per_transition Fixtures.hour
              Fixtures.dbSilent Hv Hs) as [_ [H1 [_ [H _]]]].
  split; [exact H1 |].
  destruct (H Fixtures.silentPhone (or_introl eq_refl) eq_refl) as [_ H2].
  exact (H2 [ 2 * Fixtures.hour; 3 * Fixtures.hour ]).
Defined.

(** * Further properties of the handlers *)

(** ** Keys of a collection *)
Section KeyFacts.
Context {D K : Type} (key : D -> K).

Lemma filter_keeps_unique_keys (keep : D -> bool) (coll : list D) :
  NoDup (map key coll) -> NoDup (map key (filter keep coll)).
Proof.
  induction coll as [| d coll IH]; simpl; intros H; [constructor |].
  apply NoDup_cons_iff in H. destruct H as [Hd Hrest].
  destruct (keep d); simpl; [| apply IH, Hrest].
  apply NoDup_cons_iff. split; [| apply IH, Hrest].
  intros Hin. apply Hd. apply in_map_iff in Hin.
  destruct Hin as [d' [Hk Hin]]. apply filter_In in Hin.
  apply in_map_iff. exists d'. tauto.
Qed.

Lemma updateMany_keys (p : D -> bool) (f : D -> D) (coll : list D) :
  (forall d, key (f d) = key d) ->
  map key (Mongo.updateMany p f coll) = map key coll.
Proof.
  intros Hf. unfold Mongo.updateMany. rewrite map_map.
  apply map_ext. intros d. destruct (p d); [apply Hf | reflexivity].
Qed.

(** The shape of a successful [findOneAndUpdate]: one document, the
    first match, is replaced by its update. *)
Lemma findOneAndUpdate_split (p : D -> bool) (f : D -> D) (coll : list D) d' coll' :
  Mongo.findOneAndUpdate p f coll = Some (d', coll') ->
  exists before x after,
    coll = before ++ x :: after
    /\ coll' = before ++ f x :: after
    /\ d' = f x
    /\ p x = true
    /\ Forall (fun y => p y = false) before.
Proof.
  revert d' coll'. induction coll as [| d coll IH]; simpl; intros d' coll' E.
  - discriminate.
  - destruct (p d) eqn:Ep.
    + inversion E; subst. exists [], d, coll. repeat split; auto.
    + destruct (Mongo.findOneAndUpdate p f coll) as [[d1 l1] |]; [| discriminate].
      inversion E; subst.
      destruct (IH _ _ eq_refl) as [b [x [a [H1 [H2 [H3 [H4 H5]]]]]]].
      exists (d :: b), x, a. subst. repeat split; auto.
Qed.

Lemma findOneAndUpdate_keys (p : D -> bool) (f : D -> D) (coll : list D) d' coll' :
  Mongo.findOneAndUpdate p f coll = Some (d', coll') ->
  (forall d, key (f d) = key d) ->
  map key coll' = map key coll.
Proof.
  intros E Hf. apply findOneAndUpdate_split in E.
  destruct E as [b [x [a [-> [-> _]]]]].
  rewrite !map_app. simpl. rewrite Hf. reflexivity.
Qed.
End KeyFacts.

Lemma filter_map_swap {A : Type} (p q : A -> bool) (g : A -> A) (l : list A) :
  (forall x, In x l -> p (g x) = q x) ->
  filter p (map g l) = map g (filter q l).
Proof.
  induction l as [| x l IH]; simpl; intros H; [reflexivity |].
  rewrite (H x (or_introl eq_refl)).
  rewrite IH by (intros y Hy; apply H; right; exact Hy).
  destruct (q x); reflexivity.
Qed.

Lemma filter_filter_absorb {A : Type} (p q : A -> bool) (l : list A) :
  (forall x, In x l -> p x = true -> q x = true) ->
  filter p (filter q l) = filter p l.
Proof.
  induction l as [| x l IH]; simpl; intros H; [reflexivity |].
  rewrite <- IH by (intros y Hy; apply H; right; exact Hy).
  destruct (q x) eqn:Eq; simpl; [reflexivity |].
  destruct (p x) eqn:Ep; [| reflexivity].
  rewrite (H x (or_introl eq_refl) Ep) in Eq. discriminate.
Qed.

Lemma sortBy_map {A : Type} (before : A -> A -> bool) (g : A -> A) (l : list A) :
  (forall a b, before (g a) (g b) = before a b) ->
  sortBy before (map g l) = map g (sortBy before l).
Proof.
  intros Hg.
  assert (Hins : forall x s,
             insertSorted before (g x) (map g s) = map g (insertSorted before x s)).
  { intros x s. induction s as [| y s IHs]; simpl; [reflexivity |].
    rewrite Hg. destruct (before x y); simpl; [reflexivity |].
    rewrite IHs. reflexivity. }
  induction l as [| x l IH]; simpl; [reflexivity |].
  rewrite IH. apply Hins.
Qed.

(** ** The pull, in full *)

(** X1: the pull returns exactly the stored commands of the device whose
    status is [pending] or [sent] and whose deadline lies ahead, each as
    often as it is stored: nothing that qualifies is withheld. *)
Theorem pull_returns_exactly_the_deliverable :
  forall (deviceId : string) (now : Date) (db : Db),
    pulled (snd (CommandController.getPendingCommands deviceId now db))
    = map CommandController.summary
          (CommandController.pendingQuery deviceId now (commands db))
    /\ Permutation
         (CommandController.pendingQuery deviceId now (commands db))
         (filter (CommandController.pendingFilter deviceId now) (commands db))
    /\ (forall cmd,
           In cmd (CommandController.pendingQuery deviceId now (commands db)) <->
           In cmd (commands db)
           /\ Command.deviceId cmd = deviceId
           /\ (Command.status cmd = "pending" \/ Command.status cmd = "sent")
           /\ exists e, Command.expiresAt cmd = Some e /\ now < e).
Proof.
  intros deviceId now db. split; [reflexivity | split].
  - apply sortBy_perm.
  - intros cmd. rewrite pendingQuery_In, pendingFilter_true. tauto.
Qed.

Lemma pull_update_is_filter (deviceId : string) (now : Date) coll c :
  NoDup (map Command._id coll) ->
  In c coll ->
  existsb (Nat.eqb (Command._id c))
          (map Command._id (CommandController.pendingQuery deviceId now coll))
  = CommandController.pendingFilter deviceId now c.
Proof.
  intros Hnd Hin.
  destruct (CommandController.pendingFilter deviceId now c) eqn:E.
  - apply existsb_exists. exists (Command._id c).
    split; [| apply Nat.eqb_refl].
    apply in_map. apply pendingQuery_In. split; assumption.
  - destruct (existsb _ _) eqn:Ex; [| reflexivity].
    apply existsb_exists in Ex. destruct Ex as [i [Hi Heq]].
    apply Nat.eqb_eq in Heq. apply in_map_iff in Hi.
    destruct Hi as [c' [Hid Hc']]. apply pendingQuery_In in Hc'.
    destruct Hc' as [Hin' Hf'].
    assert (c' = c)
      by (apply (NoDup_map_inj Command._id coll); auto; congruence).
    subst c'. congruence.
Qed.

Lemma getPendingCommands_stored :
  forall (deviceId : string) (now : Date) (db : Db),
    NoDup (map Command._id (commands db)) ->
    commands (fst (CommandController.getPendingCommands deviceId now db))
    = map (fun c => if CommandController.pendingFilter deviceId now c
                    then markSent now c else c)
          (commands db).
Proof.
  intros deviceId now db Hnd.
  unfold CommandController.getPendingCommands.
  destruct (CommandController.pendingQuery deviceId now (commands db))
    as [| c0 rest] eqn:Eq; simpl.
  - symmetry. rewrite <- (map_id (commands db)) at 2.
    apply map_ext_in. intros c Hc.
    destruct (CommandController.pendingFilter deviceId now c) eqn:E;
      [| reflexivity].
    assert (Hin : In c (CommandController.pendingQuery deviceId now (commands db)))
      by (apply pendingQuery_In; split; assumption).
    rewrite Eq in Hin. contradiction.
  - unfold Mongo.updateMany. apply map_ext_in. intros c Hc.
    rewrite <- (pull_update_is_filter deviceId now (commands db) c Hnd Hc).
    rewrite Eq. reflexivity.
Qed.

(** X2: with unique command ids, the pull writes [sent] (and the update
    time) to exactly the commands it returns; every other stored command,
    of this or another device, is left as it was. *)
Theorem pull_marks_exactly_the_returned :
  forall (deviceId : string) (now : Date) (db : Db),
    NoDup (map Command._id (commands db)) ->
    commands (fst (CommandController.getPendingCommands deviceId now db))
    = map (fun c => if CommandController.pendingFilter deviceId now c
                    then markSent now c else c)
          (commands db).
Proof. exact getPendingCommands_stored. Qed.

Lemma pull_marks_exactly_the_returned_witness :
  commands (fst (CommandController.getPendingCommands "dev-1" 5000
                   Fixtures.dbStale))
  = [ Fixtures.stale; markSent 5000 Fixtures.cmdA ].
Proof.
  rewrite (pull_marks_exactly_the_returned "dev-1" 5000 Fixtures.dbStale).
  - reflexivity.
  - simpl. repeat constructor; simpl; intuition discriminate.
Defined.

Lemma getPendingCommands_reply (deviceId : string) (now : Date) (db : Db) :
  snd (CommandController.getPendingCommands deviceId now db)
  = Json 200 (map CommandController.summary
                (CommandController.pendingQuery deviceId now (commands db))).
Proof. reflexivity. Qed.

(** X3: at-least-once delivery.  With unique ids, a second pull at the same
    or a later time, before any of the returned commands reaches its
    deadline, returns the same commands; when no two of them share both
    priority and creation time (the sort key of the query), it returns
    them in the same order, so the two replies are equal. *)
Theorem pull_again_returns_the_same :
  forall (deviceId : string) (now now' : Date) (db : Db),
    NoDup (map Command._id (commands db)) ->
    now <= now' ->
    (forall cmd e,
        In cmd (CommandController.pendingQuery deviceId now (commands db)) ->
        Command.expiresAt cmd = Some e -> now' < e) ->
    Permutation
      (pulled (snd (CommandController.getPendingCommands deviceId now'
                      (fst (CommandController.getPendingCommands deviceId now db)))))
      (pulled (snd (CommandController.getPendingCommands deviceId now db)))
    /\ (NoDup (map pendingKey
                 (CommandController.pendingQuery deviceId now (commands db))) ->
        snd (CommandController.getPendingCommands deviceId now'
               (fst (CommandController.getPendingCommands deviceId now db)))
        = snd (CommandController.getPendingCommands deviceId now db)).
Proof.
  intros deviceId now now' db Hnd Hle Hlive.
  assert (Heq : snd (CommandController.getPendingCommands deviceId now'
                       (fst (CommandController.getPendingCommands deviceId now db)))
                = snd (CommandController.getPendingCommands deviceId now db)).
  { rewrite !getPendingCommands_reply. f_equal.
    rewrite (getPendingCommands_stored deviceId now db Hnd).
    unfold CommandController.pendingQuery.
    set (g := fun c => if CommandController.pendingFilter deviceId now c
                       then markSent now c else c).
    rewrite (filter_map_swap _ (CommandController.pendingFilter deviceId now) g).
    - rewrite sortBy_map.
      + rewrite map_map. apply map_ext. intros c. unfold g.
        destruct (CommandController.pendingFilter deviceId now c); reflexivity.
      + intros a b. unfold g, CommandController.pendingOrder.
        destruct (CommandController.pendingFilter deviceId now a),
                 (CommandController.pendingFilter deviceId now b); reflexivity.
    - intros c Hc. unfold g.
      destruct (CommandController.pendingFilter deviceId now c) eqn:E.
      + assert (Hq : In c (CommandController.pendingQuery deviceId now
                             (commands db)))
          by (apply pendingQuery_In; split; assumption).
        apply pendingFilter_true in E. destruct E as [Hd [_ [e [He _]]]].
        apply pendingFilter_true. simpl. split; [exact Hd | split].
        * right. reflexivity.
        * exists e. split; [exact He | apply (Hlive c e Hq He)].
      + destruct (CommandController.pendingFilter deviceId now' c) eqn:E';
          [| reflexivity].
        apply pendingFilter_true in E'. destruct E' as [Hd [Hs [e [He Hlt]]]].
        assert (CommandController.pendingFilter deviceId now c = true).
        { apply pendingFilter_true. split; [exact Hd | split; [exact Hs |]].
          exists e. split; [exact He | lia]. }
        congruence. }
  split; [rewrite Heq; apply Permutation_refl | intros _; exact Heq].
Qed.

Lemma pull_again_returns_the_same_witness :
  snd (CommandController.getPendingCommands "dev-1" 6000
         (fst (CommandController.getPendingCommands "dev-1" 5000
                 Fixtures.dbOrdering)))
  = snd (CommandController.getPendingCommands "dev-1" 5000 Fixtures.dbOrdering).
Proof.
  apply pull_again_returns_the_same.
  - simpl. repeat constructor; simpl; intuition discriminate.
  - discriminate.
  - intros cmd e Hin He. vm_compute in Hin.
    destruct Hin as [<- | [<- | [<- | []]]];
      inversion He; subst; reflexivity.
  - vm_compute. repeat constructor; simpl; intuition discriminate.
Defined.

(** ** Cancelling *)

(** X4: a cancel is answered with success exactly when some stored command
    has the given id, belongs to the caller and is [pending] or [sent];
    otherwise the reply is 404 and the store is unchanged. *)
Theorem cancelCommand_success_condition :
  forall (user commandId : ObjectId) (now : Date) (db : Db),
    let r := CommandController.cancelCommand user commandId now db in
    (isSuccess (snd r) = true <->
     exists c, In c (commands db)
               /\ Command._id c = commandId
               /\ Command.parentId c = user
               /\ (Command.status c = "pending" \/ Command.status c = "sent"))
    /\ (isSuccess (snd r) = false ->
        r = (db, Fail 404 "Command not found or cannot be cancelled")).
Proof.
  intros user commandId now db r. subst r.
  unfold CommandController.cancelCommand.
  set (p := fun c : Command.t => _).
  set (f := fun c : Command.t => _).
  assert (Hp : forall c, p c = true <->
                         Command._id c = commandId
                         /\ Command.parentId c = user
                         /\ (Command.status c = "pending"
                             \/ Command.status c = "sent")).
  { intros c. unfold p, inEnum. simpl.
    rewrite !andb_true_iff, !orb_true_iff, !Nat.eqb_eq, !String.eqb_eq.
    intuition discriminate. }
  destruct (Mongo.findOneAndUpdate p f (commands db)) as [[d coll'] |] eqn:E;
    simpl.
  - split; [| discriminate]. split; [intros _ | reflexivity].
    apply findOneAndUpdate_split in E.
    destruct E as [b [x [a [Hc [_ [_ [Hx _]]]]]]].
    exists x. split; [rewrite Hc; apply in_elt | apply Hp, Hx].
  - split; [| reflexivity]. split; [discriminate |].
    intros [c [Hin Hc]]. apply findOneAndUpdate_none in E.
    apply (findOne_none _ _ E) in Hin. apply Hp in Hc. congruence.
Qed.

(** X5: with unique ids, after a successful cancel the command is stored
    as [expired], and no pull, for any device at any time, returns it. *)
Theorem cancelled_command_is_not_pulled :
  forall (user commandId : ObjectId) (now : Date) (db : Db),
    NoDup (map Command._id (commands db)) ->
    let r := CommandController.cancelCommand user commandId now db in
    isSuccess (snd r) = true ->
    (forall c, In c (commands (fst r)) -> Command._id c = commandId ->
               Command.status c = "expired")
    /\ (forall deviceId now' c,
           In c (CommandController.pendingQuery deviceId now' (commands (fst r))) ->
           Command._id c <> commandId).
Proof.
  intros user commandId now db Hnd r Hok. subst r.
  unfold CommandController.cancelCommand in *.
  destruct (Mongo.findOneAndUpdate _ _ (commands db)) as [[d coll'] |] eqn:E;
    [| discriminate].
  simpl. apply findOneAndUpdate_split in E.
  destruct E as [b [x [a [Hc [Hc' [_ [Hx _]]]]]]].
  rewrite !andb_true_iff, Nat.eqb_eq in Hx. destruct Hx as [[Hid _] _].
  assert (Hexp : forall c, In c coll' -> Command._id c = commandId ->
                           Command.status c = "expired").
  { intros c Hin Hcid. subst coll'. apply in_app_or in Hin.
    rewrite Hc, map_app in Hnd. simpl in Hnd.
    destruct Hin as [Hin | [<- | Hin]].
    - exfalso. apply NoDup_remove_2 in Hnd. apply Hnd.
      apply in_or_app. left. rewrite Hid, <- Hcid. apply in_map, Hin.
    - reflexivity.
    - exfalso. apply NoDup_remove_2 in Hnd. apply Hnd.
      apply in_or_app. right. rewrite Hid, <- Hcid. apply in_map, Hin. }
  split; [exact Hexp |].
  intros deviceId now' c Hq Hcid. apply pendingQuery_In in Hq.
  destruct Hq as [Hin Hf]. apply pendingFilter_true in Hf.
  destruct Hf as [_ [Hs _]]. rewrite (Hexp c Hin Hcid) in Hs.
  destruct Hs; discriminate.
Qed.

Lemma cancelled_command_is_not_pulled_witness :
  Command.status
    (Command.setUpdatedAt 5000
       (Command.setStatus "expired" (Fixtures.cmd 1 "normal" "sent" 1000)))
  = "expired".
Proof.
  assert (Hnd : NoDup (map Command._id (commands Fixtures.dbSent))).
  { simpl. repeat constructor; simpl; intuition. }
  destruct (cancelled_command_is_not_pulled 7 1 5000 Fixtures.dbSent Hnd eq_refl)
    as [H _].
  apply H; [left; reflexivity | reflexivity].
Defined.

Lemma pull_returns_exactly_the_deliverable_witness :
  In Fixtures.cmdA
     (CommandController.pendingQuery "dev-1" 5000 (commands Fixtures.dbOrdering)).
Proof.
  destruct (pull_returns_exactly_the_deliverable "dev-1" 5000 Fixtures.dbOrdering)
    as [_ [_ H]].
  apply H. split; [left; reflexivity |].
  split; [reflexivity |].
  split; [left; reflexivity |].
  eexists. split; reflexivity.
Defined.

Lemma cancelCommand_success_condition_witness :
  CommandController.cancelCommand 8 1 5000 Fixtures.dbSent
  = (Fixtures.dbSent, Fail 404 "Command not found or cannot be cancelled").
Proof.
  apply (cancelCommand_success_condition 8 1 5000 Fixtures.dbSent).
  reflexivity.
Defined.

(** ** Issuing *)

Lemma ownsActiveDevice_spec (deviceId : string) (user : ObjectId) (d : Device.t) :
  CommandController.ownsActiveDevice deviceId user d = true <->
  Device.deviceId d = deviceId /\ Device.parentId d = user
  /\ Device.status d = "active".
Proof.
  unfold CommandController.ownsActiveDevice.
  rewrite !andb_true_iff, Nat.eqb_eq, !String.eqb_eq. tauto.
Qed.

Lemma commandCreate_fails (now : Date) deviceId parentId type command priority
    coll :
  inEnum type Command.typeEnum = false
  \/ inEnum (match priority with Some p => p | None => "normal" end)
            Command.priorityEnum = false ->
  commandCreate now deviceId parentId type command priority coll = None.
Proof.
  intros H. unfold commandCreate.
  match goal with |- context [Command.validate ?d] =>
    assert (Hv : Command.validate d = false)
  end.
  { unfold Command.validate. simpl.
    destruct H as [-> | ->];
      rewrite ?andb_false_r; reflexivity. }
  rewrite Hv. reflexivity.
Qed.

(** X6: a command is issued only to a device that the caller owns and that
    is [active]: without one the reply is 404; with one but a type or a
    priority outside the schema's enumerations the reply is 500.  In both
    cases nothing is stored. *)
Theorem sendCommand_rejections :
  forall (user : ObjectId) (body : CommandController.SendBody) (now : Date)
         (db : Db),
    ((forall d, In d (devices db) ->
                ~ (Device.deviceId d = CommandController.sendDeviceId body
                   /\ Device.parentId d = user
                   /\ Device.status d = "active")) ->
     CommandController.sendCommand user body now db
     = (db, Fail 404 "Device not found or access denied"))
    /\ ((exists d, In d (devices db)
                   /\ Device.deviceId d = CommandController.sendDeviceId body
                   /\ Device.parentId d = user
                   /\ Device.status d = "active") ->
        ~ In (CommandController.sendType body) Command.typeEnum
        \/ (exists p, CommandController.sendPriority body = Some p
                      /\ ~ In p Command.priorityEnum) ->
        CommandController.sendCommand user body now db
        = (db, Fail 500 "Server error sending command")).
Proof.
  intros user body now db. unfold CommandController.sendCommand. split.
  - intros Hnone.
    destruct (Mongo.findOne _ (devices db)) as [d |] eqn:E; [| reflexivity].
    apply findOne_some in E. destruct E as [Hin Hd].
    apply ownsActiveDevice_spec in Hd. exfalso. apply (Hnone d Hin Hd).
  - intros [d [Hin Hd]] Hbad.
    destruct (Mongo.findOne _ (devices db)) as [d' |] eqn:E.
    + rewrite commandCreate_fails; [reflexivity |].
      destruct Hbad as [Ht | [p [Hp Hn]]].
      * left. destruct (inEnum _ Command.typeEnum) eqn:Et; [| reflexivity].
        apply inEnum_In in Et. contradiction.
      * right. rewrite Hp.
        destruct (inEnum p Command.priorityEnum) eqn:Ep; [| reflexivity].
        apply inEnum_In in Ep. contradiction.
    + apply (findOne_none _ _ E) in Hin.
      apply ownsActiveDevice_spec in Hd. congruence.
Qed.

Lemma sendCommand_rejections_witness :
  CommandController.sendCommand 8
    (CommandController.mkSendBody "dev-1" "lock_device" None None) 1000
    Fixtures.dbSilent
  = (Fixtures.dbSilent, Fail 404 "Device not found or access denied").
Proof.
  apply (sendCommand_rejections 8
           (CommandController.mkSendBody "dev-1" "lock_device" None None) 1000
           Fixtures.dbSilent).
  intros d [<- | []] [_ [H _]]. discriminate H.
Defined.

(** X7: a command issued at [now] to an owned, active device is stored as
    [pending] with retry count zero and the requested priority ([normal]
    when none is given), and every pull of that device before [now + 24h]
    returns it. *)
Theorem issued_command_is_pulled :
  forall (user : ObjectId) (body : CommandController.SendBody) (now : Date)
         (db : Db) (code : nat) (reply : CommandController.Created),
    snd (CommandController.sendCommand user body now db) = Json code reply ->
    exists cmd,
      commands (fst (CommandController.sendCommand user body now db))
      = commands db ++ [cmd]
      /\ reply = CommandController.created cmd
      /\ ~ In (Command._id cmd) (map Command._id (commands db))
      /\ Command.status cmd = "pending"
      /\ Command.retryCount cmd = 0
      /\ Command.priority cmd
         = match CommandController.sendPriority body with
           | Some p => p
           | None => "normal"
           end
      /\ forall now',
          now' < now + 24 * 60 * 60 * 1000 ->
          In (CommandController.summary cmd)
             (pulled (snd (CommandController.getPendingCommands
                             (CommandController.sendDeviceId body) now'
                             (fst (CommandController.sendCommand user body now db))))).
Proof.
  intros user body now db code reply.
  unfold CommandController.sendCommand.
  destruct (Mongo.findOne _ (devices db)) as [d |]; [| discriminate].
  destruct (commandCreate _ _ _ _ _ _ _) as [[cmd coll'] |] eqn:E;
    [| discriminate].
  simpl. intros Hr. inversion Hr; subst code reply; clear Hr.
  pose proof (commandCreate_spec _ _ _ _ _ _ _ _ _ E)
    as [Hc [_ [Hid [Hd [_ [_ [_ [Hp [Hs [Hrc He]]]]]]]]]].
  exists cmd. subst coll'.
  split; [reflexivity | split; [reflexivity |]].
  split; [rewrite Hid; apply freshId_fresh |].
  split; [exact Hs | split; [exact Hrc | split; [exact Hp |]]].
  intros now' Hlt. unfold CommandController.getPendingCommands. simpl.
  apply in_map. apply pendingQuery_In. split.
  - apply in_or_app. right. left. reflexivity.
  - apply pendingFilter_true. split; [exact Hd | split; [left; exact Hs |]].
    eexists. split; [exact He |].
    destruct (String.eqb (Command.priority cmd) "critical"); lia.
Qed.

Lemma issued_command_is_pulled_witness :
  exists cmd,
    commands (fst (CommandController.sendCommand 7
                     (CommandController.mkSendBody "dev-1" "lock_device" None
                        (Some "critical")) 1000 Fixtures.dbSilent))
    = commands Fixtures.dbSilent ++ [cmd]
    /\ Command.status cmd = "pending".
Proof.
  destruct (issued_command_is_pulled 7
              (CommandController.mkSendBody "dev-1" "lock_device" None
                 (Some "critical")) 1000 Fixtures.dbSilent 201
              (CommandController.mkCreated 1 "lock_device" "critical" "pending")
              eq_refl)
    as [cmd [H1 [_ [_ [H2 _]]]]].
  exists cmd. split; assumption.
Defined.

(** ** Result reports *)

(** X8: a success report for a stored, schema-valid command is answered
    with 200 and stores it as [completed], with the time of the report as
    execution time and an execution result that carries the reported
    message, or the standard text when the message is missing or empty;
    the retry count and the backoff deadline are not touched. *)
Theorem success_report_completes :
  forall (commandId : ObjectId) (body : CommandController.ResultBody)
         (now : Date) (db : Db) (cmd : Command.t),
    stored commandId db = Some cmd ->
    Command.validate cmd = true ->
    CommandController.success body = true ->
    let r := CommandController.reportCommandResult commandId body now db in
    snd r = Json 200 "Command result reported"
    /\ exists c',
        stored commandId (fst r) = Some c'
        /\ Command.status c' = "completed"
        /\ Command.executedAt c' = Some now
        /\ Command.executionResult c'
           = Some (Command.mkResult true
                     (match CommandController.message body with
                      | Some "" | None => "Command executed successfully"
                      | Some m => m
                      end)
                     None now (CommandController.data body))
        /\ Command.retryCount c' = Command.retryCount cmd
        /\ Command.nextRetryAt c' = Command.nextRetryAt cmd.
Proof.
  intros commandId body now db cmd Hst Hv Hs r. subst r.
  unfold CommandController.reportCommandResult.
  unfold stored in Hst. rewrite Hst, Hs.
  set (res := Command.mkResult _ _ _ _ _).
  set (c1 := Command.markAsCompleted now res cmd).
  assert (Hv1 : Command.validate c1 = true).
  { apply validate_spec in Hv. destruct Hv as [V1 [V2 [V3 [V4 V5]]]].
    apply validate_spec. simpl. repeat split; auto. }
  unfold commandSave. rewrite Hv1. simpl. split; [reflexivity |].
  destruct (preSave_fields now c1) as [_ [Ps [Pr [Pi _]]]].
  exists (Command.setUpdatedAt now (Command.preSave now c1)).
  assert (Hsame : forall {T} (g : Command.t -> T),
             (forall e c, g (Command.setExpiresAt e c) = g c) ->
             g (Command.preSave now c1) = g c1).
  { intros T g Hg. unfold Command.preSave.
    destruct (Command.expiresAt c1); [reflexivity | apply Hg]. }
  split; [| repeat split].
  - unfold stored. simpl. apply save_findOne.
    + simpl. rewrite Pi. simpl.
      apply findOne_some in Hst. destruct Hst as [_ Hb].
      apply Nat.eqb_eq in Hb. exact Hb.
    + rewrite Hst. discriminate.
  - simpl. rewrite Ps. reflexivity.
  - simpl. rewrite (Hsame _ Command.executedAt); reflexivity.
  - simpl. rewrite (Hsame _ Command.executionResult); [| reflexivity].
    simpl. unfold res, orDefault.
    destruct (CommandController.message body) as [m |]; [| reflexivity].
    destruct m as [| a m]; reflexivity.
  - simpl. rewrite Pr. reflexivity.
  - simpl. rewrite (Hsame _ Command.nextRetryAt); reflexivity.
Qed.

Lemma success_report_completes_witness :
  snd (CommandController.reportCommandResult 1 Fixtures.successBody 6000
         Fixtures.dbSent)
  = Json 200 "Command result reported".
Proof.
  apply (success_report_completes 1 Fixtures.successBody 6000 Fixtures.dbSent
           (Fixtures.cmd 1 "normal" "sent" 1000));
    reflexivity.
Defined.

(** X9: a failure report for a command whose retry count is already five
    or more is answered with 500 and stores nothing: the incremented count
    fails the schema's [max: 5]. *)
Theorem failure_report_at_ceiling_is_rejected :
  forall (commandId : ObjectId) (body : CommandController.ResultBody)
         (now : Date) (db : Db) (cmd : Command.t),
    stored commandId db = Some cmd ->
    5 <= Command.retryCount cmd ->
    CommandController.success body = false ->
    CommandController.reportCommandResult commandId body now db
    = (db, Fail 500 "Server error reporting command result").
Proof.
  intros commandId body now db cmd Hst H5 Hs.
  unfold CommandController.reportCommandResult.
  unfold stored in Hst. rewrite Hst, Hs.
  unfold commandSave.
  match goal with |- context [Command.validate ?c] =>
    assert (Hv : Command.validate c = false)
  end.
  { unfold Command.validate.
    match goal with |- context [Command.retryCount ?c <=? 5] =>
      assert (Hr : (Command.retryCount c <=? 5) = false)
    end.
    { apply Z.leb_gt.
      pose proof (markAsFailed_spec now
        (orDefault (CommandController.message body) "Command execution failed")
        cmd) as [Hr _].
      simpl in Hr. rewrite Hr. lia. }
    rewrite Hr. apply andb_false_r. }
  rewrite Hv. reflexivity.
Qed.

Lemma failure_report_at_ceiling_is_rejected_witness :
  CommandController.reportCommandResult 1 Fixtures.failure 60000 Fixtures.dbFailed
  = (Fixtures.dbFailed, Fail 500 "Server error reporting command result").
Proof.
  apply (failure_report_at_ceiling_is_rejected 1 Fixtures.failure 60000
           Fixtures.dbFailed Fixtures.failedCmd);
    [reflexivity | discriminate | reflexivity].
Defined.

(** X10: an acknowledgement or a result report for an id that no stored
    command carries is answered with 404 and leaves the store as it is. *)
Theorem unknown_command_id_is_not_found :
  forall (commandId : ObjectId) (body : CommandController.ResultBody)
         (now : Date) (db : Db),
    ~ In commandId (map Command._id (commands db)) ->
    CommandController.acknowledgeCommand commandId now db
    = (db, Fail 404 "Command not found")
    /\ CommandController.reportCommandResult commandId body now db
       = (db, Fail 404 "Command not found").
Proof.
  intros commandId body now db Hno.
  assert (Hst : stored commandId db = None).
  { unfold stored.
    destruct (Mongo.findOne _ (commands db)) as [c |] eqn:E; [| reflexivity].
    apply findOne_some in E. destruct E as [Hin Hb].
    apply Nat.eqb_eq in Hb. exfalso. apply Hno. rewrite <- Hb.
    apply in_map, Hin. }
  split; [apply acknowledgeCommand_unknown, Hst |].
  unfold CommandController.reportCommandResult.
  unfold stored in Hst. rewrite Hst. reflexivity.
Qed.

Lemma unknown_command_id_is_not_found_witness :
  CommandController.acknowledgeCommand 9 5000 Fixtures.dbSent
  = (Fixtures.dbSent, Fail 404 "Command not found").
Proof.
  apply (unknown_command_id_is_not_found 9 Fixtures.failure 5000 Fixtures.dbSent).
  simpl. intros [H | []]. discriminate H.
Defined.

(** X11: the backoff that a failure writes is [2000 * 2^n] ms for a
    command that had failed [n] times before, [n] from 0 to 3: between two
    and sixteen seconds, doubling with each failure; from the fifth failure
    on no deadline is written. *)
Theorem backoff_doubles_up_to_sixteen_seconds :
  forall (now : Date) (reason : string) (c : Command.t),
    0 <= Command.retryCount c ->
    (Command.retryCount c <= 3 ->
     Command.nextRetryAt (Command.markAsFailed now reason c)
     = Some (now + 2000 * 2 ^ Command.retryCount c)
     /\ now + 2000 <= now + 2000 * 2 ^ Command.retryCount c <= now + 16000)
    /\ (Command.retryCount c <= 2 ->
        forall now' reason',
          exists d1 d2,
            Command.nextRetryAt (Command.markAsFailed now reason c)
            = Some (now + d1)
            /\ Command.nextRetryAt
                 (Command.markAsFailed now' reason'
                    (Command.markAsFailed now reason c))
               = Some (now' + d2)
            /\ d2 = 2 * d1)
    /\ (4 <= Command.retryCount c ->
        Command.nextRetryAt (Command.markAsFailed now reason c)
        = Command.nextRetryAt c).
Proof.
  intros now reason c H0.
  assert (Hpow : forall n, 0 <= n -> 2 ^ (n + 1) * 1000 = 2000 * 2 ^ n).
  { intros n Hn. rewrite Z.pow_add_r by lia. lia. }
  assert (Hnext : forall t r k,
             0 <= Command.retryCount k -> Command.retryCount k <= 3 ->
             Command.nextRetryAt (Command.markAsFailed t r k)
             = Some (t + 2000 * 2 ^ Command.retryCount k)).
  { intros t r k Hk0 Hk3.
    destruct (markAsFailed_spec t r k) as [Hr [Hlt _]].
    destruct (Hlt ltac:(lia)) as [_ Hn]. rewrite Hn, Hr, Hpow by lia.
    reflexivity. }
  split; [| split].
  - intros H3. split; [apply Hnext; assumption |].
    assert (1 <= 2 ^ Command.retryCount c <= 8).
    { split.
      - apply (Z.pow_le_mono_r 2 0); lia.
      - change 8 with (2 ^ 3). apply Z.pow_le_mono_r; lia. }
    lia.
  - intros H2 now' reason'.
    destruct (markAsFailed_spec now reason c) as [Hr _].
    exists (2000 * 2 ^ Command.retryCount c),
           (2000 * 2 ^ (Command.retryCount c + 1)).
    split; [apply Hnext; lia |]. split.
    + rewrite Hnext; rewrite Hr; [reflexivity | lia | lia].
    + rewrite Z.pow_add_r by lia. lia.
  - intros H4. destruct (markAsFailed_spec now reason c) as [Hr [_ Hge]].
    apply Hge. rewrite Hr. lia.
Qed.

Lemma backoff_doubles_up_to_sixteen_seconds_witness :
  Command.nextRetryAt
    (Command.markAsFailed 10000 "x" (Fixtures.cmd 1 "normal" "sent" 1000))
  = Some (10000 + 2000 * 2 ^ 0).
Proof.
  destruct (backoff_doubles_up_to_sixteen_seconds 10000 "x"
              (Fixtures.cmd 1 "normal" "sent" 1000))
    as [H _]; [discriminate |].
  apply H. discriminate.
Defined.

(** ** The history listing *)

Lemma firstn_incl {A : Type} (n : nat) (l : list A) (x : A) :
  In x (firstn n l) -> In x l.
Proof.
  intros H. rewrite <- (firstn_skipn n l). apply in_or_app. left. exact H.
Qed.

Lemma skipn_incl {A : Type} (n : nat) (l : list A) (x : A) :
  In x (skipn n l) -> In x l.
Proof.
  intros H. rewrite <- (firstn_skipn n l). apply in_or_app. right. exact H.
Qed.

Lemma historyFilter_spec (deviceId : string) (user : ObjectId)
    (status : option string) (c : Command.t) :
  CommandHistory.historyFilter deviceId user status c = true <->
  Command.deviceId c = deviceId
  /\ Command.parentId c = user
  /\ (forall s, status = Some s -> s <> "" -> Command.status c = s).
Proof.
  unfold CommandHistory.historyFilter.
  rewrite !andb_true_iff, Nat.eqb_eq, String.eqb_eq.
  destruct status as [s |].
  - destruct (String.eqb s "") eqn:E.
    + apply String.eqb_eq in E. subst s. split.
      * intros [[H1 H2] _]. repeat split; auto.
        intros s Hs Hn. congruence.
      * intros [H1 [H2 _]]. auto.
    + apply String.eqb_neq in E. rewrite String.eqb_eq. split.
      * intros [[H1 H2] H3]. repeat split; auto.
        intros s' Hs _. congruence.
      * intros [H1 [H2 H3]]. repeat split; auto.
  - split.
    + intros [[H1 H2] _]. repeat split; auto. intros s Hs. discriminate.
    + intros [H1 [H2 _]]. auto.
Qed.

(** X12: whatever the paging, a history listing contains only stored
    commands of the requested device that belong to the caller (and have
    the requested status, when one is given); [count] is the number of
    listed commands, [total] the number of matching ones, and [count] never
    exceeds [total]. *)
Theorem history_lists_only_the_callers_commands :
  forall (user : ObjectId) (deviceId : string) (q : CommandHistory.Query)
         (db : Db) (code : nat) (listing : CommandHistory.Listing),
    CommandHistory.getCommandHistory user deviceId q db = Json code listing ->
    (forall c, In c (CommandHistory.commands listing) ->
               In c (commands db)
               /\ Command.deviceId c = deviceId
               /\ Command.parentId c = user
               /\ (forall s, CommandHistory.status q = Some s -> s <> "" ->
                             Command.status c = s))
    /\ CommandHistory.count listing
       = List.length (CommandHistory.commands listing)
    /\ CommandHistory.total listing
       = List.length (CommandHistory.matching deviceId user
                        (CommandHistory.status q) db)
    /\ (CommandHistory.count listing <= CommandHistory.total listing)%nat.
Proof.
  intros user deviceId q db code listing.
  unfold CommandHistory.getCommandHistory.
  set (page := match CommandHistory.page q with Some p => p | None => 1 end).
  set (limit := match CommandHistory.limit q with Some l => l | None => 50 end).
  set (m := CommandHistory.matching deviceId user (CommandHistory.status q) db).
  destruct ((page - 1) * limit <? 0); [discriminate |].
  set (rest := skipn _ (sortBy CommandHistory.newestFirst m)).
  set (cs := if limit =? 0 then rest else firstn (Z.abs_nat limit) rest).
  intros E. inversion E; subst code listing; clear E. simpl.
  assert (Hrest : forall c, In c cs -> In c rest).
  { intros c. unfold cs. destruct (limit =? 0); [auto | apply firstn_incl]. }
  assert (Hlen : (List.length cs <= List.length m)%nat).
  { transitivity (List.length rest).
    - unfold cs. destruct (limit =? 0); [lia | rewrite length_firstn; lia].
    - unfold rest. rewrite length_skipn.
      rewrite (Permutation_length (sortBy_perm CommandHistory.newestFirst m)).
      lia. }
  split; [| repeat split; auto].
  intros c Hc. apply Hrest in Hc. unfold rest in Hc. apply skipn_incl in Hc.
  apply sortBy_In in Hc. unfold m, CommandHistory.matching in Hc.
  apply filter_In in Hc. destruct Hc as [Hin Hf].
  apply historyFilter_spec in Hf. tauto.
Qed.

Lemma history_lists_only_the_callers_commands_witness :
  Command.parentId Fixtures.cmdC = 7%nat.
Proof.
  destruct (history_lists_only_the_callers_commands 7 "dev-1"
              (CommandHistory.mkQuery (Some 1) (Some 2) None) Fixtures.dbOrdering
              200 _ eq_refl) as [H _].
  apply (H Fixtures.cmdC). vm_compute. left. reflexivity.
Defined.

Lemma firstn_plus {A : Type} (a b : nat) (l : list A) :
  firstn (a + b) l = firstn a l ++ firstn b (skipn a l).
Proof.
  revert l. induction a as [| a IH]; intros l; simpl; [reflexivity |].
  destruct l as [| x l]; simpl.
  - rewrite firstn_nil. reflexivity.
  - rewrite IH. reflexivity.
Qed.

Lemma skipn_plus {A : Type} (a b : nat) (l : list A) :
  skipn (a + b) l = skipn b (skipn a l).
Proof.
  revert l. induction a as [| a IH]; intros l; simpl; [reflexivity |].
  destruct l as [| x l]; simpl; [rewrite skipn_nil; reflexivity | apply IH].
Qed.

(** Consecutive windows of [k] elements, from window [start] on, make up
    the corresponding stretch of the list. *)
Lemma windows_concat {A : Type} (k : nat) (l : list A) (n : nat) :
  forall start,
    flat_map (fun i => firstn k (skipn (i * k) l)) (seq start n)
    = firstn (n * k) (skipn (start * k) l).
Proof.
  induction n as [| n IH]; intros start; simpl; [reflexivity |].
  rewrite IH, firstn_plus. f_equal. f_equal.
  replace (S start * k)%nat with (start * k + k)%nat by lia.
  apply skipn_plus.
Qed.

Lemma historyPage_window (user : ObjectId) (deviceId : string)
    (status : option string) (limit : Z) (db : Db) (i : nat) :
  1 <= limit ->
  historyPage user deviceId status limit db (Z.of_nat (S i))
  = firstn (Z.to_nat limit)
      (skipn (i * Z.to_nat limit)
         (sortBy CommandHistory.newestFirst
            (CommandHistory.matching deviceId user status db))).
Proof.
  intros Hl. unfold historyPage, CommandHistory.getCommandHistory.
  cbn [CommandHistory.page CommandHistory.limit CommandHistory.status].
  assert (Hskip : (Z.of_nat (S i) - 1) * limit = Z.of_nat (i * Z.to_nat limit)).
  { rewrite Nat2Z.inj_mul, Z2Nat.id by lia. lia. }
  rewrite Hskip.
  assert (Hneg : (Z.of_nat (i * Z.to_nat limit) <? 0) = false)
    by (apply Z.ltb_ge; lia).
  rewrite Hneg.
  assert (Hz : (limit =? 0) = false) by (apply Z.eqb_neq; lia).
  rewrite Hz. cbn [CommandHistory.commands]. rewrite Nat2Z.id.
  rewrite Zabs2Nat.abs_nat_nonneg by lia. reflexivity.
Qed.

(** X13: paging loses and repeats nothing.  For a limit of at least one,
    the reported number of pages [n] is a natural number; when no two
    matching commands share their creation time (the sort key of the
    listing, so that every page query sees the same order), pages 1 to [n]
    laid end to end are the matching commands, newest first; no page holds
    more than [limit] commands; every page after [n] is empty; and a page
    number below one is answered with 500. *)
Theorem history_pages_partition_the_listing :
  forall (user : ObjectId) (deviceId : string) (status : option string)
         (limit : Z) (db : Db),
    1 <= limit ->
    let m := CommandHistory.matching deviceId user status db in
    exists n : nat,
      CommandHistory.pageCount (List.length m) limit = Some (Z.of_nat n)
      /\ (NoDup (map Command.createdAt m) ->
          flat_map (fun i => historyPage user deviceId status limit db
                               (Z.of_nat (S i)))
                   (seq 0 n)
          = sortBy CommandHistory.newestFirst m)
      /\ (forall i, Z.of_nat (List.length
                                (historyPage user deviceId status limit db
                                   (Z.of_nat (S i)))) <= limit)
      /\ (forall i, (n <= i)%nat ->
                    historyPage user deviceId status limit db (Z.of_nat (S i))
                    = [])
      /\ (forall page, page <= 0 ->
                       CommandHistory.getCommandHistory user deviceId
                         (CommandHistory.mkQuery (Some page) (Some limit) status)
                         db
                       = Fail 500 "Server error fetching command history").
Proof.
  intros user deviceId status limit db Hl m.
  set (t := Z.of_nat (List.length m)).
  set (k := Z.to_nat limit).
  assert (Hk : Z.of_nat k = limit) by (unfold k; apply Z2Nat.id; lia).
  set (q := (- t) / limit).
  assert (Hq1 : limit * q <= - t) by (apply Z.mul_div_le; lia).
  assert (Hq2 : - t < limit * Z.succ q) by (apply Z.mul_succ_div_gt; lia).
  assert (Ht : 0 <= t) by (unfold t; lia).
  assert (Hq0 : q <= 0) by nia.
  exists (Z.to_nat (- q)).
  assert (Hn : Z.of_nat (Z.to_nat (- q)) = - q) by (apply Z2Nat.id; lia).
  assert (Hcover : (List.length m <= Z.to_nat (- q) * k)%nat).
  { apply Nat2Z.inj_le. rewrite Nat2Z.inj_mul, Hn, Hk. fold t. nia. }
  assert (Hall : List.length (sortBy CommandHistory.newestFirst m)
                 = List.length m)
    by (apply Permutation_length, sortBy_perm).
  split; [| split; [| split; [| split]]].
  - unfold CommandHistory.pageCount.
    assert (Hz : (limit =? 0) = false) by (apply Z.eqb_neq; lia).
    rewrite Hz, Hn. reflexivity.
  - intros _.
    rewrite (flat_map_ext _
               (fun i => firstn k (skipn (i * k)
                                     (sortBy CommandHistory.newestFirst m)))).
    + rewrite windows_concat. simpl. apply firstn_all2. rewrite Hall.
      exact Hcover.
    + intros i. apply historyPage_window, Hl.
  - intros i. rewrite historyPage_window by exact Hl. fold k.
    rewrite <- Hk. apply Nat2Z.inj_le. apply firstn_le_length.
  - intros i Hi. rewrite historyPage_window by exact Hl. fold k.
    rewrite skipn_all2; [apply firstn_nil |].
    fold m. rewrite Hall. nia.
  - intros page Hp. unfold CommandHistory.getCommandHistory.
    cbn [CommandHistory.page CommandHistory.limit CommandHistory.status].
    assert (Hneg : ((page - 1) * limit <? 0) = true) by (apply Z.ltb_lt; nia).
    rewrite Hneg. reflexivity.
Qed.

Lemma history_pages_partition_the_listing_witness :
  exists n : nat,
    CommandHistory.pageCount
      (List.length (CommandHistory.matching "dev-1" 7 None Fixtures.dbOrdering)) 2
    = Some (Z.of_nat n)
    /\ flat_map (fun i => historyPage 7 "dev-1" None 2 Fixtures.dbOrdering
                            (Z.of_nat (S i)))
                (seq 0 n)
       = sortBy CommandHistory.newestFirst
           (CommandHistory.matching "dev-1" 7 None Fixtures.dbOrdering).
Proof.
  destruct (history_pages_partition_the_listing 7 "dev-1" None 2
              Fixtures.dbOrdering)
    as [n [H1 [H2 _]]]; [discriminate |].
  exists n. split; [exact H1 |]. apply H2.
  simpl. repeat constructor; simpl; intuition discriminate.
Defined.

(** ** What the handlers never change *)

Lemma save_ids {D : Type} (idOf : D -> ObjectId) (doc : D) (coll : list D) :
  map idOf (Mongo.save idOf doc coll) = map idOf coll.
Proof.
  unfold Mongo.save. rewrite map_map. apply map_ext. intros d.
  unfold Mongo.byId. destruct (Nat.eqb (idOf d) (idOf doc)) eqn:E;
    [apply Nat.eqb_eq in E; congruence | reflexivity].
Qed.

Lemma commandSave_ids (now : Date) (doc : Command.t) coll coll' :
  commandSave now doc coll = Some coll' ->
  map Command._id coll' = map Command._id coll.
Proof.
  unfold commandSave. destruct (Command.validate doc); [| discriminate].
  intros E. inversion E. apply save_ids.
Qed.

Lemma commandCreate_ids (now : Date) deviceId parentId type command priority
    coll doc coll' :
  commandCreate now deviceId parentId type command priority coll
  = Some (doc, coll') ->
  NoDup (map Command._id coll) -> NoDup (map Command._id coll').
Proof.
  intros E Hnd. apply commandCreate_spec in E.
  destruct E as [-> [_ [Hid _]]].
  rewrite map_app. simpl. apply NoDup_app_remove_l with (l := []).
  simpl. apply Permutation_NoDup with (l := Command._id doc :: map Command._id coll).
  - apply Permutation_cons_append.
  - constructor; [| exact Hnd]. rewrite Hid. apply freshId_fresh.
Qed.

Lemma handle_ids_unique (now : Date) (req : Request) (db : Db) :
  NoDup (map Command._id (commands db)) ->
  NoDup (map Command._id (commands (handle now req db))).
Proof.
  intros H. destruct req; simpl.
  - unfold CommandController.getPendingCommands.
    destruct (CommandController.pendingQuery _ _ _); simpl; [exact H |].
    rewrite updateMany_keys; [exact H | reflexivity].
  - unfold CommandController.acknowledgeCommand.
    destruct (Mongo.findOneAndUpdate _ _ _) as [[d coll'] |] eqn:E; [| exact H].
    simpl. rewrite (findOneAndUpdate_keys Command._id _ _ _ _ _ E (fun _ => eq_refl)).
    exact H.
  - unfold CommandController.reportCommandResult.
    destruct (Mongo.findOne _ _); [| exact H].
    destruct (commandSave _ _ _) as [coll' |] eqn:E; [| exact H].
    simpl. rewrite (commandSave_ids _ _ _ _ E). exact H.
  - unfold CommandController.sendCommand.
    destruct (Mongo.findOne _ _); [| exact H].
    destruct (commandCreate _ _ _ _ _ _ _) as [[c coll'] |] eqn:E; [| exact H].
    simpl. eapply commandCreate_ids; eauto.
  - unfold CommandController.cancelCommand.
    destruct (Mongo.findOneAndUpdate _ _ _) as [[d coll'] |] eqn:E; [| exact H].
    simpl. rewrite (findOneAndUpdate_keys Command._id _ _ _ _ _ E (fun _ => eq_refl)).
    exact H.
  - unfold CommandController.retryCommand.
    destruct (Mongo.findOne _ _); [| exact H].
    destruct (commandCreate _ _ _ _ _ _ _) as [[c coll'] |] eqn:E; [| exact H].
    simpl. eapply commandCreate_ids; eauto.
  - rewrite receiveHeartbeat_commands. exact H.
  - unfold DeviceController.updateDeviceSettings.
    destruct (DeviceController.cast body) as [settings |]; [| exact H].
    destruct (negb _); [exact H |].
    destruct (Mongo.findOneAndUpdate _ _ _) as [[d ds] |]; [| exact H].
    destruct (commandCreate _ _ _ _ _ _ _) as [[c coll'] |] eqn:E; [| exact H].
    simpl. eapply commandCreate_ids; eauto.
  - unfold DeviceController.toggleDeviceBlock.
    destruct (Mongo.findOneAndUpdate _ _ _) as [[d ds] |]; [| exact H].
    destruct (commandCreate _ _ _ _ _ _ _) as [[c coll'] |] eqn:E; [| exact H].
    simpl. eapply commandCreate_ids; eauto.
  - unfold Jobs.checkOfflineDevices. rewrite offlineLoop_commands. exact H.
  - unfold Jobs.ttlMonitor. simpl. apply filter_keeps_unique_keys, H.
Qed.

Lemma run_ids_unique (history : list (Date * Request)) :
  forall db, NoDup (map Command._id (commands db)) ->
             NoDup (map Command._id (commands (run history db))).
Proof.
  induction history as [| [now req] rest IH]; intros db H; simpl.
  - exact H.
  - apply IH, handle_ids_unique, H.
Qed.

(** X14: command ids stay unique.  In every state reachable from a store
    without commands, by any history of requests, no two stored commands
    carry the same id. *)
Theorem command_ids_stay_unique :
  forall (history : list (Date * Request)) (linked : list Device.t),
    NoDup (map Command._id (commands (run history (initial linked)))).
Proof.
  intros history linked. apply run_ids_unique. constructor.
Qed.

Lemma save_cores (doc cmd : Command.t) (coll : list Command.t) :
  NoDup (map Command._id coll) ->
  In cmd coll ->
  core doc = core cmd ->
  map core (Mongo.save Command._id doc coll) = map core coll.
Proof.
  intros Hnd Hin Hcore. unfold Mongo.save. rewrite map_map.
  apply map_ext_in. intros d Hd. unfold Mongo.byId.
  destruct (Nat.eqb (Command._id d) (Command._id doc)) eqn:E; [| reflexivity].
  apply Nat.eqb_eq in E.
  assert (Hid : Command._id doc = Command._id cmd)
    by (unfold core in Hcore; congruence).
  assert (d = cmd)
    by (apply (NoDup_map_inj Command._id coll); auto; congruence).
  subst d. exact Hcore.
Qed.

(** X15: the command history is append-only.  In a reachable state, no
    request other than the TTL removal changes the id, device, parent,
    type, payload, priority, deadline or creation time of a stored command,
    or removes or reorders one; at most one command is added, behind the
    others, with a new id, status [pending] and retry count zero. *)
Theorem command_history_is_append_only :
  forall (history : list (Date * Request)) (linked : list Device.t)
         (now : Date) (req : Request),
    req <> TtlMonitor ->
    let db := run history (initial linked) in
    exists added,
      map core (commands (handle now req db))
      = map core (commands db) ++ map core added
      /\ (List.length added <= 1)%nat
      /\ Forall (fun c => ~ In (Command._id c) (map Command._id (commands db))
                          /\ Command.status c = "pending"
                          /\ Command.retryCount c = 0
                          /\ Command.createdAt c = now)
                added.
Proof.
  intros history linked now req Hreq db.
  assert (Hnd : NoDup (map Command._id (commands db)))
    by (apply run_ids_unique; constructor).
  assert (Hwf : Forall wellFormed (commands db))
    by apply reachable_wellFormed.
  assert (Hsame : forall coll', map core coll' = map core (commands db) ->
            exists added,
              map core coll' = map core (commands db) ++ map core added
              /\ (List.length added <= 1)%nat
              /\ Forall (fun c => ~ In (Command._id c)
                                       (map Command._id (commands db))
                                  /\ Command.status c = "pending"
                                  /\ Command.retryCount c = 0
                                  /\ Command.createdAt c = now) added).
  { intros coll' E. exists []. rewrite E, app_nil_r.
    repeat split; [simpl; lia | constructor]. }
  assert (Hnew : forall deviceId parentId type command priority c coll',
            commandCreate now deviceId parentId type command priority
              (commands db) = Some (c, coll') ->
            exists added,
              map core coll' = map core (commands db) ++ map core added
              /\ (List.length added <= 1)%nat
              /\ Forall (fun c => ~ In (Command._id c)
                                       (map Command._id (commands db))
                                  /\ Command.status c = "pending"
                                  /\ Command.retryCount c = 0
                                  /\ Command.createdAt c = now) added).
  { intros deviceId parentId type command priority c coll' E.
    pose proof E as E'. apply commandCreate_spec in E.
    destruct E as [-> [_ [Hid [_ [_ [_ [_ [_ [Hs [Hr _]]]]]]]]]].
    exists [c]. rewrite map_app. repeat split; [simpl; lia |].
    constructor; [| constructor]. repeat split; auto.
    - rewrite Hid. apply freshId_fresh.
    - unfold commandCreate in E'.
      destruct (Command.validate _); [| discriminate].
      inversion E'. unfold Command.preSave. simpl. reflexivity. }
  destruct req; simpl; try contradiction.
  - apply Hsame. unfold CommandController.getPendingCommands.
    destruct (CommandController.pendingQuery _ _ _); simpl; [reflexivity |].
    apply updateMany_keys. reflexivity.
  - apply Hsame. unfold CommandController.acknowledgeCommand.
    destruct (Mongo.findOneAndUpdate _ _ _) as [[d coll'] |] eqn:E;
      [| reflexivity].
    simpl. apply (findOneAndUpdate_keys core _ _ _ _ _ E (fun _ => eq_refl)).
  - apply Hsame. unfold CommandController.reportCommandResult.
    destruct (Mongo.findOne _ _) as [cmd |] eqn:Ef; [| reflexivity].
    apply findOne_some in Ef. destruct Ef as [Hin _].
    rewrite Forall_forall in Hwf. destruct (Hwf _ Hin) as [_ [[e He] _]].
    unfold commandSave.
    destruct (Command.validate _); [| reflexivity].
    simpl. apply (save_cores _ cmd); [exact Hnd | exact Hin |].
    destruct (CommandController.success body).
    + unfold Command.preSave. simpl. rewrite He. unfold core. simpl.
      rewrite He. reflexivity.
    + unfold Command.preSave, Command.markAsFailed.
      destruct (5 <=? Command.retryCount cmd + 1); simpl; rewrite He;
        unfold core; simpl; rewrite He; reflexivity.
  - unfold CommandController.sendCommand.
    destruct (Mongo.findOne _ _); [| apply Hsame; reflexivity].
    destruct (commandCreate _ _ _ _ _ _ _) as [[c coll'] |] eqn:E;
      [| apply Hsame; reflexivity].
    simpl. eapply Hnew; eauto.
  - apply Hsame. unfold CommandController.cancelCommand.
    destruct (Mongo.findOneAndUpdate _ _ _) as [[d coll'] |] eqn:E;
      [| reflexivity].
    simpl. apply (findOneAndUpdate_keys core _ _ _ _ _ E (fun _ => eq_refl)).
  - unfold CommandController.retryCommand.
    destruct (Mongo.findOne _ _); [| apply Hsame; reflexivity].
    destruct (commandCreate _ _ _ _ _ _ _) as [[c coll'] |] eqn:E;
      [| apply Hsame; reflexivity].
    simpl. eapply Hnew; eauto.
  - apply Hsame. rewrite receiveHeartbeat_commands. reflexivity.
  - unfold DeviceController.updateDeviceSettings.
    destruct (DeviceController.cast body) as [settings |];
      [| apply Hsame; reflexivity].
    destruct (negb _); [apply Hsame; reflexivity |].
    destruct (Mongo.findOneAndUpdate _ _ _) as [[d ds] |];
      [| apply Hsame; reflexivity].
    destruct (commandCreate _ _ _ _ _ _ _) as [[c coll'] |] eqn:E;
      [| apply Hsame; reflexivity].
    simpl. eapply Hnew; eauto.
  - unfold DeviceController.toggleDeviceBlock.
    destruct (Mongo.findOneAndUpdate _ _ _) as [[d ds] |];
      [| apply Hsame; reflexivity].
    destruct (commandCreate _ _ _ _ _ _ _) as [[c coll'] |] eqn:E;
      [| apply Hsame; reflexivity].
    simpl. eapply Hnew; eauto.
  - apply Hsame. unfold Jobs.checkOfflineDevices.
    rewrite offlineLoop_commands. reflexivity.
Qed.

Lemma command_history_is_append_only_witness :
  exists added,
    map core (commands (handle 5000 (GetPendingCommands "dev-1")
                          (run Fixtures.issuing (initial [ Fixtures.phone ]))))
    = map core (commands (run Fixtures.issuing (initial [ Fixtures.phone ])))
      ++ map core added
    /\ (List.length added <= 1)%nat.
Proof.
  destruct (command_history_is_append_only Fixtures.issuing [ Fixtures.phone ]
              5000 (GetPendingCommands "dev-1"))
    as [added [H1 [H2 _]]]; [discriminate |].
  exists added. split; assumption.
Defined.

(** ** The TTL removal *)

(** X16: the TTL removal never takes away a command that a pull could
    still deliver.  Run at a time not after the pull, it leaves the pull's
    result as it would have been; it removes exactly the commands whose
    deadline is not ahead; and a later removal subsumes an earlier one. *)
Theorem ttl_removal_does_not_change_the_pull :
  forall (removedAt now : Date) (deviceId : string) (db : Db),
    removedAt <= now ->
    CommandController.pendingQuery deviceId now
      (commands (Jobs.ttlMonitor removedAt db))
    = CommandController.pendingQuery deviceId now (commands db)
    /\ Jobs.ttlMonitor now (Jobs.ttlMonitor removedAt db) = Jobs.ttlMonitor now db
    /\ (forall c, In c (commands (Jobs.ttlMonitor removedAt db)) <->
                  In c (commands db)
                  /\ forall e, Command.expiresAt c = Some e -> removedAt < e).
Proof.
  intros removedAt now deviceId db Hle. split; [| split].
  - unfold CommandController.pendingQuery, Jobs.ttlMonitor. simpl. f_equal.
    apply filter_filter_absorb. intros c _ Hf.
    apply pendingFilter_true in Hf. destruct Hf as [_ [_ [e [He Hlt]]]].
    rewrite He. apply Z.ltb_lt. lia.
  - unfold Jobs.ttlMonitor, withCommands. simpl. f_equal.
    apply filter_filter_absorb. intros c _ Hf.
    destruct (Command.expiresAt c) as [e |]; [| reflexivity].
    apply Z.ltb_lt in Hf. apply Z.ltb_lt. lia.
  - intros c. unfold Jobs.ttlMonitor. simpl. rewrite filter_In.
    destruct (Command.expiresAt c) as [e |].
    + rewrite Z.ltb_lt. split.
      * intros [Hin Hlt]. split; [exact Hin |].
        intros e' He'. inversion He'; subst. exact Hlt.
      * intros [Hin H]. split; [exact Hin | apply H; reflexivity].
    + split; [| tauto]. intros [Hin _]. split; [exact Hin |].
      intros e He. discriminate.
Qed.

Lemma ttl_removal_does_not_change_the_pull_witness :
  CommandController.pendingQuery "dev-1" 5000
    (commands (Jobs.ttlMonitor 4500 Fixtures.dbStale))
  = CommandController.pendingQuery "dev-1" 5000 (commands Fixtures.dbStale).
Proof.
  apply (ttl_removal_does_not_change_the_pull 4500 5000 "dev-1" Fixtures.dbStale).
  discriminate.
Defined.

(** ** Order within the pull reply *)

Lemma pendingOrder_trans (a b c : Command.t) :
  CommandController.pendingOrder a b = true ->
  CommandController.pendingOrder b c = true ->
  CommandController.pendingOrder a c = true.
Proof.
  unfold CommandController.pendingOrder.
  destruct (String.compare (Command.priority b) (Command.priority a)) eqn:Eab;
    try discriminate;
    destruct (String.compare (Command.priority c) (Command.priority b)) eqn:Ebc;
    try discriminate; intros Hab Hbc.
  - apply OrderedTypeEx.String_as_OT.cmp_eq in Eab, Ebc.
    rewrite Ebc, Eab, compare_same. apply Z.leb_le.
    apply Z.leb_le in Hab, Hbc. lia.
  - apply OrderedTypeEx.String_as_OT.cmp_eq in Eab.
    rewrite <- Eab, Ebc. reflexivity.
  - apply OrderedTypeEx.String_as_OT.cmp_eq in Ebc.
    rewrite Ebc, Eab. reflexivity.
  - apply OrderedTypeEx.String_as_OT.cmp_lt in Eab, Ebc.
    pose proof (OrderedTypeEx.String_as_OT.lt_trans _ _ _ Ebc Eab) as Hlt.
    apply OrderedTypeEx.String_as_OT.cmp_lt in Hlt.
    unfold OrderedTypeEx.String_as_OT.cmp in Hlt. rewrite Hlt. reflexivity.
Qed.

Lemma StronglySorted_later {A : Type} (R : A -> A -> Prop) (l1 l2 : list A) (a : A) :
  StronglySorted R (l1 ++ a :: l2) -> Forall (R a) l2.
Proof.
  induction l1 as [| x l1 IH]; simpl; intros H.
  - inversion H; assumption.
  - inversion H; subst. apply IH. assumption.
Qed.

(** X17: first in, first out within a priority.  Of two commands of the
    same priority in one pull reply, the one that stands first was created
    no later than the other. *)
Theorem pull_is_oldest_first_within_a_priority :
  forall (deviceId : string) (now : Date) (db : Db) l1 a l2 b l3,
    CommandController.pendingQuery deviceId now (commands db)
    = l1 ++ a :: l2 ++ b :: l3 ->
    Command.priority a = Command.priority b ->
    Command.createdAt a <= Command.createdAt b.
Proof.
  intros deviceId now db l1 a l2 b l3 E Hp.
  pose proof (pendingQuery_sorted deviceId now (commands db)) as Hs.
  apply Sorted_StronglySorted in Hs;
    [| intros x y z; apply pendingOrder_trans].
  rewrite E in Hs. apply StronglySorted_later in Hs.
  rewrite Forall_forall in Hs.
  assert (Hab : CommandController.pendingOrder a b = true)
    by (apply Hs; apply in_or_app; right; left; reflexivity).
  apply (pendingOrder_same_priority a b Hp), Hab.
Qed.

Lemma pull_is_oldest_first_within_a_priority_witness :
  Command.createdAt Fixtures.cmdA <= Command.createdAt Fixtures.cmdC.
Proof.
  apply (pull_is_oldest_first_within_a_priority "dev-1" 5000 Fixtures.dbOrdering
           [] Fixtures.cmdA [] Fixtures.cmdC [ Fixtures.cmdB ]);
    reflexivity.
Defined.

(** ** Heartbeats *)

Lemma save_find {D : Type} (idOf : D -> ObjectId) (p : D -> bool) (doc x : D)
    (coll : list D) :
  find p coll = Some x -> idOf doc = idOf x -> p doc = true ->
  find p (Mongo.save idOf doc coll) = Some doc.
Proof.
  intros Hf Hid Hp. unfold Mongo.save, Mongo.byId.
  induction coll as [| d coll IH]; simpl in *; [discriminate |].
  destruct (Nat.eqb (idOf d) (idOf doc)) eqn:E; simpl.
  - rewrite Hp. reflexivity.
  - destruct (p d) eqn:Epd.
    + inversion Hf; subst. rewrite Hid, Nat.eqb_refl in E. discriminate.
    + apply IH, Hf.
Qed.

Lemma save_same_id {D : Type} (idOf : D -> ObjectId) (doc : D) (coll : list D) :
  forall d, In d (Mongo.save idOf doc coll) ->
            Mongo.byId idOf (idOf doc) d = true -> d = doc.
Proof.
  intros d Hin Hb. unfold Mongo.save in Hin. apply in_map_iff in Hin.
  destruct Hin as [d0 [Hd0 _]].
  destruct (Mongo.byId idOf (idOf doc) d0) eqn:E; [congruence |].
  subst d0. congruence.
Qed.

Lemma findOneAndUpdate_find {D : Type} (p q : D -> bool) (f : D -> D) (x : D)
    (coll : list D) :
  (forall d, In d coll -> q d = true -> d = x) ->
  find p coll = Some x -> q x = true -> p (f x) = true ->
  exists coll',
    Mongo.findOneAndUpdate q f coll = Some (f x, coll')
    /\ find p coll' = Some (f x).
Proof.
  intros Hq Hf Hqx Hpf.
  induction coll as [| d coll IH]; simpl in *; [discriminate |].
  destruct (q d) eqn:Eq.
  - assert (d = x) by (apply Hq; auto). subst d.
    eexists. split; [reflexivity |]. simpl. rewrite Hpf. reflexivity.
  - destruct (p d) eqn:Ep.
    + inversion Hf; subst. congruence.
    + destruct IH as [coll' [-> Hfind]]; [intros d' Hd'; apply Hq; auto | exact Hf |].
      eexists. split; [reflexivity |]. simpl. rewrite Ep. exact Hfind.
Qed.

Lemma showZ_short (level : Z) :
  0 <= level <= 100 -> (String.length (showZ level) <= 3)%nat.
Proof.
  intros H.
  assert (Hall : forallb (fun n => Nat.leb (String.length (showZ (Z.of_nat n))) 3)
                         (seq 0 101) = true) by (vm_compute; reflexivity).
  rewrite forallb_forall in Hall.
  specialize (Hall (Z.to_nat level)).
  rewrite Z2Nat.id in Hall by lia.
  apply Nat.leb_le, Hall. apply in_seq. lia.
Qed.

Lemma lowBattery_alertCreate (now : Date) (deviceId : string) (parentId : ObjectId)
    (level : Z) als :
  deviceId <> "" -> 0 <= level <= 100 ->
  exists a,
    alertCreate now deviceId parentId "low_battery"
      ("Low battery alert: " ++ showZ level ++ "% remaining")%string
      (if level <=? 10 then "critical" else "medium")
      [ ("batteryLevel", MNum level) ] als
    = Some (a, als ++ [a])
    /\ Alert.deviceId a = deviceId
    /\ Alert.parentId a = parentId
    /\ Alert.type a = "low_battery"
    /\ Alert.severity a = (if level <=? 10 then "critical" else "medium")
    /\ Alert.data a = [ ("batteryLevel", MNum level) ]
    /\ Alert.createdAt a = now.
Proof.
  intros Hid Hl. unfold alertCreate.
  set (msg := ("Low battery alert: " ++ showZ level ++ "% remaining")%string).
  assert (Hne : String.eqb msg "" = false) by reflexivity.
  assert (Hlen : Nat.leb (String.length msg) 500 = true).
  { apply Nat.leb_le. unfold msg. rewrite !length_append.
    pose proof (showZ_short level Hl) as Hs.
    change (String.length "Low battery alert: ") with 19%nat.
    change (String.length "% remaining") with 11%nat. lia. }
  match goal with |- context [alertValidate ?d] =>
    assert (Hv : alertValidate d = true)
  end.
  { unfold alertValidate.
    cbn [Alert.deviceId Alert.type Alert.message Alert.severity].
    apply String.eqb_neq in Hid. rewrite Hid, Hne, Hlen.
    destruct (level <=? 10); reflexivity. }
  rewrite Hv. eexists. split; [reflexivity |]. repeat split.
Qed.

Lemma extraUpdate_some (now : Date) (other : list DeviceController.ExtraKey) :
  existsb DeviceController.isRefused other = false ->
  exists update, DeviceController.extraUpdate now other = Some update.
Proof.
  induction other as [| k rest IH]; simpl; intros H.
  - eexists. reflexivity.
  - apply orb_false_iff in H. destruct H as [Hk Hr].
    destruct (IH Hr) as [update E].
    destruct k as [key | key | key write]; simpl in Hk; [| discriminate |].
    + exists update. exact E.
    + rewrite E. eexists. reflexivity.
Qed.

Lemma extraUpdate_none (now : Date) (other : list DeviceController.ExtraKey) :
  existsb DeviceController.isRefused other = true ->
  DeviceController.extraUpdate now other = None.
Proof.
  induction other as [| k rest IH]; simpl; intros H; [discriminate |].
  destruct k as [key | key | key write]; simpl in H.
  - apply IH, H.
  - reflexivity.
  - rewrite (IH H). reflexivity.
Qed.

(** A heartbeat is answered with success only for a stored device whose
    document, with the reported battery state, passes the validators, and
    when no extra key fails the update. *)
Lemma receiveHeartbeat_success (body : DeviceController.HeartbeatBody)
    (now : Date) (db : Db) :
  isSuccess (snd (DeviceController.receiveHeartbeat body now db)) = true ->
  exists found,
    storedDevice (DeviceController.deviceId body) db = Some found
    /\ Device.validate
         (Device.updateHeartbeat now (DeviceController.batteryLevel body)
            (DeviceController.isCharging body) found) = true
    /\ existsb DeviceController.isRefused (DeviceController.otherData body)
       = false.
Proof.
  unfold DeviceController.receiveHeartbeat, storedDevice.
  destruct (Mongo.findOne _ (devices db)) as [found |]; [| discriminate].
  destruct (Device.validate _) eqn:Hv; [| discriminate].
  cbn [negb]. cbv zeta. intros H.
  exists found. split; [reflexivity | split; [exact Hv |]].
  destruct (existsb DeviceController.isRefused (DeviceController.otherData body))
    eqn:Er; [| reflexivity].
  exfalso. revert H.
  destruct (DeviceController.otherData body) as [| k rest] eqn:Eo;
    [discriminate Er |].
  rewrite (extraUpdate_none now _ Er). discriminate.
Qed.

(** What such a heartbeat does: the reply, the stored document when the
    body has no extra keys, and the alert. *)
Lemma receiveHeartbeat_accepted (body : DeviceController.HeartbeatBody)
    (now : Date) (db : Db) (found : Device.t) :
  storedDevice (DeviceController.deviceId body) db = Some found ->
  Device.validate
    (Device.updateHeartbeat now (DeviceController.batteryLevel body)
       (DeviceController.isCharging body) found) = true ->
  existsb DeviceController.isRefused (DeviceController.otherData body) = false ->
  exists ds als,
    DeviceController.receiveHeartbeat body now db
    = (mkDb (commands db) ds als,
       Json 200
         (DeviceController.mkHeartbeatReply
            (negb (Nat.eqb
                     (List.length
                        (filter (CommandController.pendingFilter
                                   (DeviceController.deviceId body) now)
                                (commands db))) 0))
            (map DeviceController.pendingSummary
                 (filter (CommandController.pendingFilter
                            (DeviceController.deviceId body) now)
                         (commands db)))))
    /\ (DeviceController.otherData body = [] ->
        ds = Mongo.save Device._id
               (Device.updateHeartbeat now (DeviceController.batteryLevel body)
                  (DeviceController.isCharging body) found)
               (devices db))
    /\ (DeviceController.lowBattery found (DeviceController.batteryLevel body)
          (DeviceController.isCharging body) = true ->
        exists a,
          als = alerts db ++ [a]
          /\ Alert.deviceId a = DeviceController.deviceId body
          /\ Alert.parentId a = Device.parentId found
          /\ Alert.type a = "low_battery"
          /\ Alert.severity a
             = (if DeviceController.batteryLevel body <=? 10
                then "critical" else "medium"))
    /\ (DeviceController.lowBattery found (DeviceController.batteryLevel body)
          (DeviceController.isCharging body) = false ->
        als = alerts db).
Proof.
  intros Hst Hv Hok.
  pose proof (proj1 (deviceValidate_spec _) Hv) as [Hid [_ [Hl _]]].
  cbn [Device.updateHeartbeat Device.deviceId Device.batteryLevel] in Hid, Hl.
  unfold storedDevice in Hst.
  assert (Hsame : Device.deviceId found = DeviceController.deviceId body).
  { apply findOne_some in Hst. destruct Hst as [_ Hp].
    apply String.eqb_eq in Hp. exact Hp. }
  rewrite Hsame in Hid.
  unfold DeviceController.receiveHeartbeat.
  rewrite Hst, Hv. cbn [negb]. cbv zeta.
  match goal with
  | |- context [match ?u with Some _ => _ | None => (_, _) end] =>
      remember u as updated eqn:Eu
  end.
  assert (Hu : exists ds,
             updated = Some (mkDb (commands db) ds (alerts db))
             /\ (DeviceController.otherData body = [] ->
                 ds = Mongo.save Device._id
                        (Device.updateHeartbeat now
                           (DeviceController.batteryLevel body)
                           (DeviceController.isCharging body) found)
                        (devices db))).
  { rewrite Eu.
    destruct (DeviceController.otherData body) as [| k rest] eqn:Eo.
    - eexists. split; [reflexivity | reflexivity].
    - destruct (extraUpdate_some now (k :: rest) Hok) as [update E].
      rewrite E.
      destruct (Mongo.findOneAndUpdate _ _ _) as [[d ds] |];
        eexists; (split; [reflexivity | discriminate]). }
  clear Eu. destruct Hu as [ds [-> Hds]].
  change (DeviceController.lowBattery
            (Device.updateHeartbeat now (DeviceController.batteryLevel body)
               (DeviceController.isCharging body) found)
            (DeviceController.batteryLevel body)
            (DeviceController.isCharging body))
    with (DeviceController.lowBattery found (DeviceController.batteryLevel body)
            (DeviceController.isCharging body)).
  destruct (DeviceController.lowBattery found _ _) eqn:El.
  - destruct (lowBattery_alertCreate now (DeviceController.deviceId body)
                (Device.parentId found) (DeviceController.batteryLevel body)
                (alerts db) Hid Hl)
      as [a [E [Ha1 [Ha2 [Ha3 [Ha4 _]]]]]].
    cbn [alerts Device.parentId Device.updateHeartbeat].
    rewrite E.
    exists ds, (alerts db ++ [a]). split; [reflexivity |].
    split; [exact Hds | split; [| discriminate]].
    intros _. exists a. repeat split; assumption.
  - exists ds, (alerts db). split; [reflexivity |].
    split; [exact Hds | split; [discriminate | reflexivity]].
Qed.

(** X18: a heartbeat for a device id that is not stored is answered with
    404, and one whose battery level is outside 0..100 with 500; in both
    cases nothing is stored, in particular the device is not marked
    online. *)
Theorem heartbeat_rejections :
  forall (body : DeviceController.HeartbeatBody) (now : Date) (db : Db),
    (storedDevice (DeviceController.deviceId body) db = None ->
     DeviceController.receiveHeartbeat body now db
     = (db, Fail 404 "Device not registered"))
    /\ (storedDevice (DeviceController.deviceId body) db <> None ->
        DeviceController.batteryLevel body < 0
        \/ 100 < DeviceController.batteryLevel body ->
        DeviceController.receiveHeartbeat body now db
        = (db, Fail 500 "Server error processing heartbeat")).
Proof.
  intros body now db. unfold storedDevice, DeviceController.receiveHeartbeat.
  split.
  - intros ->. reflexivity.
  - intros Hsome Hbad.
    destruct (Mongo.findOne _ (devices db)) as [found |]; [| congruence].
    assert (Hv : Device.validate
                   (Device.updateHeartbeat now (DeviceController.batteryLevel body)
                      (DeviceController.isCharging body) found) = false).
    { destruct (Device.validate _) eqn:E; [| reflexivity].
      apply deviceValidate_spec in E. destruct E as [_ [_ [Hb _]]].
      cbn [Device.updateHeartbeat Device.batteryLevel] in Hb. lia. }
    rewrite Hv. reflexivity.
Qed.

Lemma heartbeat_rejections_witness :
  DeviceController.receiveHeartbeat
    (DeviceController.mkHeartbeatBody "dev-1" 101 false []) 5000 Fixtures.dbSilent
  = (Fixtures.dbSilent, Fail 500 "Server error processing heartbeat").
Proof.
  apply (heartbeat_rejections
           (DeviceController.mkHeartbeatBody "dev-1" 101 false []) 5000
           Fixtures.dbSilent).
  - discriminate.
  - right. reflexivity.
Defined.



(** X19: after an accepted heartbeat that carries no keys besides
    [deviceId], [batteryLevel] and [isCharging], the stored device is
    online, carries the time of the heartbeat and the reported battery
    state, and no run of the offline job within the next fifteen minutes
    selects it. *)
Theorem heartbeat_marks_the_device_online :
  forall (body : DeviceController.HeartbeatBody) (now : Date) (db : Db)
         (code : nat) (reply : DeviceController.HeartbeatReply),
    DeviceController.otherData body = [] ->
    snd (DeviceController.receiveHeartbeat body now db) = Json code reply ->
    exists d,
      storedDevice (DeviceController.deviceId body)
        (fst (DeviceController.receiveHeartbeat body now db)) = Some d
      /\ Device.isOnline d = true
      /\ Device.lastHeartbeat d = Some now
      /\ Device.batteryLevel d = DeviceController.batteryLevel body
      /\ Device.isCharging d = DeviceController.isCharging body
      /\ forall t, t - now <= Jobs.offlineThreshold ->
                   Jobs.offlineFilter (t - Jobs.offlineThreshold) d = false.
Proof.
  intros body now db code reply Hno Hjson.
  assert (Hs : isSuccess (snd (DeviceController.receiveHeartbeat body now db))
               = true) by (rewrite Hjson; reflexivity).
  destruct (receiveHeartbeat_success body now db Hs) as [found [Hst [Hv Hok]]].
  destruct (receiveHeartbeat_accepted body now db found Hst Hv Hok)
    as [ds [als [E [Hds _]]]].
  rewrite E, (Hds Hno). cbn [fst]. unfold storedDevice in *. cbn [devices].
  set (device := Device.updateHeartbeat now _ _ found).
  exists device. split.
  - apply (save_find Device._id _ device found); [exact Hst | reflexivity |].
    apply findOne_some in Hst. destruct Hst as [_ Hp]. exact Hp.
  - repeat split. intros t Ht. unfold Jobs.offlineFilter.
    cbn [device Device.updateHeartbeat Device.isOnline Device.lastHeartbeat andb].
    apply Z.ltb_ge. lia.
Qed.

Lemma heartbeat_marks_the_device_online_witness :
  exists d,
    storedDevice "dev-1"
      (fst (DeviceController.receiveHeartbeat
              (DeviceController.mkHeartbeatBody "dev-1" 55 true []) 5000
              Fixtures.dbSilent)) = Some d
    /\ Device.isOnline d = true
    /\ Device.lastHeartbeat d = Some 5000.
Proof.
  destruct (heartbeat_marks_the_device_online
              (DeviceController.mkHeartbeatBody "dev-1" 55 true []) 5000
              Fixtures.dbSilent 200 _ eq_refl eq_refl)
    as [d [H1 [H2 [H3 _]]]].
  exists d. repeat split; assumption.
Defined.

(** X20: the low-battery rule.  When the device is stored, its document
    with the reported battery state passes the validators and no extra key
    fails the update, the heartbeat compares the level with the device's
    [maxBatteryAlert], which is the stored number or 20 when the stored
    settings lack it.  It appends exactly one [low_battery] alert when the
    level is at most that threshold and the device is not charging, with
    severity [critical] for a level of at most 10 and [medium] above;
    otherwise the alerts are left as they are. *)
Theorem heartbeat_low_battery_rule :
  forall (body : DeviceController.HeartbeatBody) (now : Date) (db : Db)
         (found : Device.t),
    storedDevice (DeviceController.deviceId body) db = Some found ->
    Device.validate
      (Device.updateHeartbeat now (DeviceController.batteryLevel body)
         (DeviceController.isCharging body) found) = true ->
    existsb DeviceController.isRefused (DeviceController.otherData body) = false ->
    let level := DeviceController.batteryLevel body in
    let db' := fst (DeviceController.receiveHeartbeat body now db) in
    exists threshold,
      Device.maxBatteryAlert found = Some threshold
      /\ (Device.lookup "maxBatteryAlert" (Device.settings found) = None ->
          threshold = 20)
      /\ (level <= threshold /\ DeviceController.isCharging body = false ->
          exists a,
            alerts db' = alerts db ++ [a]
            /\ Alert.deviceId a = DeviceController.deviceId body
            /\ Alert.parentId a = Device.parentId found
            /\ Alert.type a = "low_battery"
            /\ Alert.severity a = (if level <=? 10 then "critical" else "medium"))
      /\ (threshold < level \/ DeviceController.isCharging body = true ->
          alerts db' = alerts db).
Proof.
  intros body now db found Hst Hv Hok level db'. subst db'.
  pose proof (proj1 (deviceValidate_spec _) Hv)
    as [_ [_ [_ [_ [_ [_ [[threshold [Hm _]] _]]]]]]].
  change (Device.maxBatteryAlert found = Some threshold) in Hm.
  destruct (receiveHeartbeat_accepted body now db found Hst Hv Hok)
    as [ds [als [E [_ [Hlow Hnot]]]]].
  rewrite E. cbn [fst alerts].
  unfold DeviceController.lowBattery in Hlow, Hnot. rewrite Hm in Hlow, Hnot.
  exists threshold. split; [exact Hm | split; [| split]].
  - intros Hnone. unfold Device.maxBatteryAlert, Device.numberSetting in Hm.
    rewrite Hnone in Hm. inversion Hm. reflexivity.
  - intros [Hle Hc]. apply Hlow. rewrite Hc.
    apply andb_true_iff. split; [apply Z.leb_le; exact Hle | reflexivity].
  - intros Hno. apply Hnot. apply andb_false_iff.
    destruct Hno as [Hlt | Hc]; [left; apply Z.leb_gt; exact Hlt |].
    right. rewrite Hc. reflexivity.
Qed.

Lemma heartbeat_low_battery_rule_witness :
  exists a,
    alerts (fst (DeviceController.receiveHeartbeat
                   (DeviceController.mkHeartbeatBody "dev-1" 8 false []) 5000
                   Fixtures.dbSilent))
    = alerts Fixtures.dbSilent ++ [a]
    /\ Alert.severity a = "critical".
Proof.
  destruct (heartbeat_low_battery_rule
              (DeviceController.mkHeartbeatBody "dev-1" 8 false []) 5000
              Fixtures.dbSilent Fixtures.silentPhone eq_refl eq_refl eq_refl)
    as [threshold [Hm [_ [H _]]]].
  inversion Hm; subst threshold.
  destruct H as [a [H1 [_ [_ [_ H2]]]]].
  - split; [discriminate | reflexivity].
  - exists a. split; assumption.
Defined.

(** ** The [isOffline] virtual *)

(** X21: a device that never sent a heartbeat is offline; after a heartbeat
    at [now], a device with heartbeat interval [n] seconds is offline at
    [t] exactly when more than [2 n] seconds have passed; and with an
    interval of at most 450 seconds (the default is 300) every device that
    the offline job selects is offline by this virtual as well. *)
Theorem isOffline_after_twice_the_interval :
  (forall (t : Date) (d : Device.t),
      Device.lastHeartbeat d = None -> DeviceAdmin.isOffline t d = true)
  /\ (forall (t now : Date) (level : Z) (charging : bool) (d : Device.t) (n : Z),
         Device.lookup "heartbeatInterval" (Device.settings d) = Some (MNum n) ->
         (DeviceAdmin.isOffline t (Device.updateHeartbeat now level charging d)
          = true
          <-> t - now > 2000 * n))
  /\ (forall (t : Date) (d : Device.t) (n : Z),
         Device.lookup "heartbeatInterval" (Device.settings d) = Some (MNum n) ->
         n <= 450 ->
         Jobs.offlineFilter (t - Jobs.offlineThreshold) d = true ->
         DeviceAdmin.isOffline t d = true).
Proof.
  split; [| split].
  - intros t d H. unfold DeviceAdmin.isOffline. rewrite H. reflexivity.
  - intros t now level charging d n Hn.
    unfold DeviceAdmin.isOffline, Device.heartbeatInterval,
      Device.numberSetting, Device.updateHeartbeat.
    cbn [Device.lastHeartbeat Device.settings].
    rewrite Hn. rewrite Z.ltb_lt. lia.
  - intros t d n Hn Hle Hsel. apply offlineFilter_spec in Hsel.
    destruct Hsel as [_ [hb [Hh Hgt]]].
    unfold DeviceAdmin.isOffline, Device.heartbeatInterval,
      Device.numberSetting.
    rewrite Hh, Hn. apply Z.ltb_lt.
    unfold Jobs.offlineThreshold in Hgt. lia.
Qed.

Lemma isOffline_after_twice_the_interval_witness :
  DeviceAdmin.isOffline Fixtures.hour Fixtures.silentPhone = true.
Proof.
  destruct isOffline_after_twice_the_interval as [_ [_ H]].
  apply (H Fixtures.hour Fixtures.silentPhone 300);
    [reflexivity | discriminate | reflexivity].
Defined.

(** ** Settings *)

Lemma validSetting_out_of_range (key : string) (lo hi n : Z) (settings : Payload) :
  Device.lookup key settings = Some (MNum n) -> n < lo \/ hi < n ->
  DeviceController.validSetting key lo hi settings = false.
Proof.
  intros Hl Hn. unfold DeviceController.validSetting. rewrite Hl.
  apply andb_false_iff.
  destruct Hn; [left | right]; apply Z.leb_gt; lia.
Qed.

(** X22: a settings update is answered with 500 when a value of the body
    does not cast to the type of its setting, and when the cast body has
    a [heartbeatInterval] outside 60..3600 or a [maxBatteryAlert] outside
    5..50; one that passes the cast and the validators, for a device that
    the caller does not own or that is not [active], is answered with
    404.  None of them stores a setting or queues a command. *)
Theorem updateDeviceSettings_rejections :
  forall (user : ObjectId) (deviceId : string)
         (body : DeviceController.SettingsBody) (now : Date) (db : Db),
    (DeviceController.cast body = None ->
     DeviceController.updateDeviceSettings user deviceId body now db
     = (db, Fail 500 "Server error updating device settings"))
    /\ (forall settings,
           DeviceController.cast body = Some settings ->
           (exists n, Device.lookup "heartbeatInterval" settings = Some (MNum n)
                      /\ (n < 60 \/ 3600 < n))
           \/ (exists n, Device.lookup "maxBatteryAlert" settings = Some (MNum n)
                         /\ (n < 5 \/ 50 < n)) ->
           DeviceController.updateDeviceSettings user deviceId body now db
           = (db, Fail 500 "Server error updating device settings"))
    /\ (forall settings,
           DeviceController.cast body = Some settings ->
           DeviceController.validateSettings settings = true ->
           (forall d, In d (devices db) ->
                      ~ (Device.deviceId d = deviceId
                         /\ Device.parentId d = user
                         /\ Device.status d = "active")) ->
           DeviceController.updateDeviceSettings user deviceId body now db
           = (db, Fail 404 "Device not found")).
Proof.
  intros user deviceId body now db.
  unfold DeviceController.updateDeviceSettings. split; [| split].
  - intros ->. reflexivity.
  - intros settings -> Hbad.
    assert (Hv : DeviceController.validateSettings settings = false).
    { unfold DeviceController.validateSettings. apply andb_false_iff.
      destruct Hbad as [[n [Hl Hn]] | [n [Hl Hn]]]; [left | right];
        eapply validSetting_out_of_range; eauto. }
    rewrite Hv. reflexivity.
  - intros settings -> Hv Hnone. rewrite Hv. simpl.
    destruct (Mongo.findOneAndUpdate _ _ _) as [[d ds] |] eqn:E; [| reflexivity].
    apply findOneAndUpdate_split in E.
    destruct E as [b [x [a [Hc [_ [_ [Hx _]]]]]]].
    apply ownsActiveDevice_spec in Hx. exfalso.
    apply (Hnone x); [rewrite Hc; apply in_elt | exact Hx].
Qed.

Lemma updateDeviceSettings_rejections_witness :
  DeviceController.updateDeviceSettings 7 "dev-1"
    (DeviceController.mkSettingsBody
       [ ("heartbeatInterval", MStr "30") ]
       (Some [ ("heartbeatInterval", MNum 30) ]))
    5000 Fixtures.dbSilent
  = (Fixtures.dbSilent, Fail 500 "Server error updating device settings").
Proof.
  destruct (updateDeviceSettings_rejections 7 "dev-1"
              (DeviceController.mkSettingsBody
                 [ ("heartbeatInterval", MStr "30") ]
                 (Some [ ("heartbeatInterval", MNum 30) ]))
              5000 Fixtures.dbSilent) as [_ [H _]].
  apply (H [ ("heartbeatInterval", MNum 30) ] eq_refl).
  left. exists 30. split; [reflexivity | left; reflexivity].
Defined.

(** X23: an accepted settings update stores the cast body as the
    [settings] sub-document of the caller's device and queues exactly one
    [update_settings] command of priority [high] for it, with the body as
    it was sent as payload; a pull of the device before [now + 24h]
    returns that command. *)
Theorem updateDeviceSettings_queues_the_push :
  forall (user : ObjectId) (deviceId : string)
         (body : DeviceController.SettingsBody) (now : Date)
         (db : Db) (code : nat) (msg : string),
    snd (DeviceController.updateDeviceSettings user deviceId body now db)
    = Json code msg ->
    let db' := fst (DeviceController.updateDeviceSettings user deviceId body now db) in
    (exists settings d,
        DeviceController.cast body = Some settings
        /\ DeviceController.validateSettings settings = true
        /\ In d (devices db')
        /\ Device.deviceId d = deviceId
        /\ Device.parentId d = user
        /\ Device.settings d = settings)
    /\ exists cmd,
        commands db' = commands db ++ [cmd]
        /\ Command.deviceId cmd = deviceId
        /\ Command.parentId cmd = user
        /\ Command.type cmd = "update_settings"
        /\ Command.priority cmd = "high"
        /\ Command.command cmd = DeviceController.raw body
        /\ Command.status cmd = "pending"
        /\ forall now', now' < now + 24 * 60 * 60 * 1000 ->
                        In cmd (CommandController.pendingQuery deviceId now'
                                  (commands db')).
Proof.
  intros user deviceId body now db code msg.
  unfold DeviceController.updateDeviceSettings.
  destruct (DeviceController.cast body) as [settings |]; [| discriminate].
  destruct (DeviceController.validateSettings settings) eqn:Hv;
    [| discriminate].
  cbn [negb].
  destruct (Mongo.findOneAndUpdate _ _ _) as [[d ds] |] eqn:E; [| discriminate].
  apply findOneAndUpdate_split in E.
  destruct E as [b [x [a [Hc [Hds [Hd [Hx _]]]]]]].
  apply ownsActiveDevice_spec in Hx. destruct Hx as [Hx1 [Hx2 _]].
  destruct (commandCreate _ _ _ _ _ _ _) as [[cmd coll'] |] eqn:Ec;
    [| discriminate].
  simpl. intros _.
  pose proof (commandCreate_spec _ _ _ _ _ _ _ _ _ Ec)
    as [-> [_ [_ [H1 [H2 [H3 [H4 [H5 [H6 [_ He]]]]]]]]]].
  assert (Hdev : Device.deviceId d = deviceId) by (subst d; exact Hx1).
  split.
  - exists settings, d. subst ds d.
    split; [reflexivity | split; [exact Hv | split; [apply in_elt |]]].
    repeat split; assumption.
  - exists cmd. split; [reflexivity |]. rewrite Hdev in H1.
    repeat (split; [assumption |]).
    intros now' Hlt. apply pendingQuery_In. split.
    + apply in_or_app. right. left. reflexivity.
    + apply pendingFilter_true. split; [exact H1 | split; [left; exact H6 |]].
      eexists. split; [exact He |].
      destruct (String.eqb (Command.priority cmd) "critical"); lia.
Qed.

Lemma updateDeviceSettings_queues_the_push_witness :
  (exists settings d,
      DeviceController.cast
        (DeviceController.mkSettingsBody
           [ ("maxBatteryAlert", MStr "30"); ("theme", MStr "dark") ]
           (Some [ ("maxBatteryAlert", MNum 30) ])) = Some settings
      /\ In d (devices
                 (fst (DeviceController.updateDeviceSettings 7 "dev-1"
                         (DeviceController.mkSettingsBody
                            [ ("maxBatteryAlert", MStr "30");
                              ("theme", MStr "dark") ]
                            (Some [ ("maxBatteryAlert", MNum 30) ]))
                         5000 Fixtures.dbSilent)))
      /\ Device.settings d = [ ("maxBatteryAlert", MNum 30) ])
  /\ exists cmd,
      commands (fst (DeviceController.updateDeviceSettings 7 "dev-1"
                       (DeviceController.mkSettingsBody
                          [ ("maxBatteryAlert", MStr "30");
                            ("theme", MStr "dark") ]
                          (Some [ ("maxBatteryAlert", MNum 30) ]))
                       5000 Fixtures.dbSilent))
      = commands Fixtures.dbSilent ++ [cmd]
      /\ Command.type cmd = "update_settings"
      /\ Command.command cmd
         = [ ("maxBatteryAlert", MStr "30"); ("theme", MStr "dark") ].
Proof.
  destruct (updateDeviceSettings_queues_the_push 7 "dev-1"
              (DeviceController.mkSettingsBody
                 [ ("maxBatteryAlert", MStr "30"); ("theme", MStr "dark") ]
                 (Some [ ("maxBatteryAlert", MNum 30) ]))
              5000 Fixtures.dbSilent 200 _ eq_refl)
    as [[settings [d [Hc [_ [Hin [_ [_ Hs]]]]]]]
        [cmd [H1 [_ [_ [H2 [_ [H3 _]]]]]]]].
  split.
  - exists settings, d. split; [exact Hc | split; [exact Hin |]].
    rewrite Hs. inversion Hc. reflexivity.
  - exists cmd. repeat split; assumption.
Defined.

(** ** Linking and deleting devices *)

Lemma find_none_all {A : Type} (p : A -> bool) (l : list A) :
  (forall x, In x l -> p x = false) -> find p l = None.
Proof.
  intros H. destruct (find p l) as [x |] eqn:E; [| reflexivity].
  apply find_some in E. destruct E as [Hin Hp].
  rewrite (H x Hin) in Hp. discriminate.
Qed.

Lemma find_some_any {A : Type} (p : A -> bool) (l : list A) (x : A) :
  In x l -> p x = true -> find p l <> None.
Proof.
  intros Hin Hp E. rewrite (find_none _ _ E x Hin) in Hp. discriminate.
Qed.

Lemma validate_setStatus (status : string) (d : Device.t) :
  In status Device.statusEnum ->
  Device.validate d = true ->
  Device.validate (DeviceAdmin.setStatus status d) = true.
Proof.
  intros Hs H. apply deviceValidate_spec in H. apply deviceValidate_spec.
  unfold Device.heartbeatInterval, Device.maxBatteryAlert in *.
  cbn [DeviceAdmin.setStatus Device.deviceId Device.deviceName
       Device.batteryLevel Device.networkType Device.signalStrength
       Device.settings Device.status].
  tauto.
Qed.

(** X24: a device id can be linked once.  Linking an id that is already
    stored, whoever owns it and whatever its status, is answered with 400
    and changes nothing; a successful link appends one device owned by the
    caller, active, not blocked, never seen (so offline by the [isOffline]
    virtual) and with the default settings; and linking keeps the device
    collection valid: ids and device ids unique, names within 100
    characters. *)
Theorem linkDevice_links_an_id_once :
  forall (user : ObjectId) (body : DeviceAdmin.LinkBody) (db : Db),
    (storedDevice (DeviceAdmin.deviceId body) db <> None ->
     DeviceAdmin.linkDevice user body db
     = (db, Fail 400 "Device is already linked to another account"))
    /\ (forall code d,
           snd (DeviceAdmin.linkDevice user body db) = Json code d ->
           devices (fst (DeviceAdmin.linkDevice user body db)) = devices db ++ [d]
           /\ Device.deviceId d = DeviceAdmin.deviceId body
           /\ Device.parentId d = user
           /\ Device.status d = "active"
           /\ Device.isBlocked d = false
           /\ Device.isOnline d = false
           /\ Device.settings d = Device.defaultSettings
           /\ (forall t, DeviceAdmin.isOffline t d = true))
    /\ (devicesValid (devices db) ->
        devicesValid (devices (fst (DeviceAdmin.linkDevice user body db)))).
Proof.
  intros user body db. unfold DeviceAdmin.linkDevice, storedDevice.
  destruct (Mongo.findOne _ (devices db)) as [existing |] eqn:Ef.
  - split; [reflexivity | split; [discriminate | auto]].
  - split; [congruence |].
    unfold DeviceAdmin.deviceCreate.
    set (name := DeviceAdmin.trim _).
    destruct (negb (String.eqb (DeviceAdmin.deviceId body) "")
              && Nat.leb (String.length
                            (Device.deviceName
                               (Device.mk _ _ name _ _ _ _ _ _ _ _ _ _ _ _))) 100)
      eqn:Ev.
    + simpl. split.
      * intros code d E. inversion E; subst. repeat split.
      * intros [Hids [Hdev Hnames]].
        apply andb_true_iff in Ev. destruct Ev as [Hne Hlen].
        simpl in Hlen. apply Nat.leb_le in Hlen.
        apply negb_true_iff, String.eqb_neq in Hne.
        split; [| split].
        -- rewrite map_app. simpl.
           apply Permutation_NoDup
             with (l := Mongo.freshId Device._id (devices db)
                        :: map Device._id (devices db)).
           ++ apply Permutation_cons_append.
           ++ constructor; [apply freshId_fresh | exact Hids].
        -- rewrite map_app. simpl.
           apply Permutation_NoDup
             with (l := DeviceAdmin.deviceId body
                        :: map Device.deviceId (devices db)).
           ++ apply Permutation_cons_append.
           ++ constructor; [| exact Hdev].
              intros Hin. apply in_map_iff in Hin.
              destruct Hin as [d [Hd Hin]].
              apply (findOne_none _ _ Ef) in Hin.
              apply String.eqb_neq in Hin. congruence.
        -- apply Forall_app. split; [exact Hnames |].
           constructor; [| constructor]. simpl. split; assumption.
    + simpl. split; [discriminate | auto].
Qed.

Lemma linkDevice_links_an_id_once_witness :
  DeviceAdmin.linkDevice 9 (DeviceAdmin.mkLinkBody "dev-1" None None None)
    Fixtures.dbSilent
  = (Fixtures.dbSilent, Fail 400 "Device is already linked to another account").
Proof.
  apply (linkDevice_links_an_id_once 9
           (DeviceAdmin.mkLinkBody "dev-1" None None None) Fixtures.dbSilent).
  discriminate.
Defined.

(** X25: deleting is a soft delete with lasting effect.  With unique
    device ids, after a successful delete the device is stored with status
    [deleted] and the stored commands stay; no command can be issued to
    the device (404), no settings update for it is accepted, and its id
    cannot be linked again (400).  Its heartbeats are still accepted:
    when the stored documents pass the validators, one with a battery
    level within 0..100 and no extra key that fails the update is answered
    with success. *)
Theorem deleted_device_takes_no_new_commands :
  forall (user : ObjectId) (deviceId : string) (db : Db),
    NoDup (map Device.deviceId (devices db)) ->
    isSuccess (snd (DeviceAdmin.deleteDevice user deviceId db)) = true ->
    let db' := fst (DeviceAdmin.deleteDevice user deviceId db) in
    commands db' = commands db
    /\ (forall d, In d (devices db') -> Device.deviceId d = deviceId ->
                  Device.status d = "deleted")
    /\ (forall u body now,
           CommandController.sendDeviceId body = deviceId ->
           CommandController.sendCommand u body now db'
           = (db', Fail 404 "Device not found or access denied"))
    /\ (forall u body now,
           fst (DeviceController.updateDeviceSettings u deviceId body now db')
           = db'
           /\ isSuccess
                (snd (DeviceController.updateDeviceSettings u deviceId body now db'))
              = false)
    /\ (forall u body,
           DeviceAdmin.deviceId body = deviceId ->
           DeviceAdmin.linkDevice u body db'
           = (db', Fail 400 "Device is already linked to another account"))
    /\ (forall hb now,
           devicesSavable (devices db) ->
           DeviceController.deviceId hb = deviceId ->
           0 <= DeviceController.batteryLevel hb <= 100 ->
           existsb DeviceController.isRefused (DeviceController.otherData hb)
           = false ->
           isSuccess (snd (DeviceController.receiveHeartbeat hb now db')) = true).
Proof.
  intros user deviceId db Hnd Hok db'. subst db'.
  unfold DeviceAdmin.deleteDevice in *.
  destruct (Mongo.findOneAndUpdate _ _ (devices db)) as [[d0 ds] |] eqn:E;
    [| discriminate].
  simpl. apply findOneAndUpdate_split in E.
  destruct E as [b [x [a [Hc [Hds [_ [Hx _]]]]]]].
  apply andb_true_iff in Hx. destruct Hx as [Hx _].
  apply String.eqb_eq in Hx.
  assert (Hdel : forall d, In d ds -> Device.deviceId d = deviceId ->
                           Device.status d = "deleted").
  { intros d Hin Hd. subst ds. apply in_app_or in Hin.
    rewrite Hc, map_app in Hnd. simpl in Hnd. apply NoDup_remove_2 in Hnd.
    destruct Hin as [Hin | [<- | Hin]]; [| reflexivity |]; exfalso; apply Hnd;
      apply in_or_app; [left | right]; rewrite Hx, <- Hd; apply in_map, Hin. }
  assert (Hin : In (DeviceAdmin.setStatus "deleted" x) ds)
    by (subst ds; apply in_elt).
  assert (Hnone : forall u,
             Mongo.findOne (CommandController.ownsActiveDevice deviceId u) ds
             = None).
  { intros u. apply find_none_all. intros d Hd.
    destruct (CommandController.ownsActiveDevice deviceId u d) eqn:Eo;
      [| reflexivity].
    apply ownsActiveDevice_spec in Eo. destruct Eo as [E1 [_ E3]].
    rewrite (Hdel d Hd E1) in E3. discriminate. }
  split; [reflexivity | split; [exact Hdel |]].
  split; [| split; [| split]].
  - intros u body now Hb. unfold CommandController.sendCommand. simpl.
    rewrite Hb, Hnone. reflexivity.
  - intros u body now. unfold DeviceController.updateDeviceSettings.
    destruct (DeviceController.cast body) as [settings |];
      [| split; reflexivity].
    destruct (negb _); [split; reflexivity |]. simpl.
    rewrite (proj2 (findOneAndUpdate_none _ _ _) (Hnone u)).
    split; reflexivity.
  - intros u body Hb. unfold DeviceAdmin.linkDevice. simpl. rewrite Hb.
    destruct (Mongo.findOne _ ds) as [e |] eqn:Ef; [reflexivity |].
    exfalso. revert Ef. apply (find_some_any _ ds _ Hin).
    simpl. rewrite Hx. apply String.eqb_refl.
  - intros hb now Hsav Hb Hl Hok'.
    assert (Hsav' : devicesSavable ds).
    { unfold devicesSavable in *. rewrite Hc in Hsav.
      apply Forall_app in Hsav. destruct Hsav as [Hb' Ha'].
      inversion Ha' as [| ? ? Hvx Ha'']; subst.
      apply Forall_app. split; [exact Hb' |].
      constructor; [| exact Ha''].
      apply validate_setStatus; [simpl; tauto | exact Hvx]. }
    destruct (storedDevice (DeviceController.deviceId hb) (withDevices ds db))
      as [found |] eqn:Ef.
    + assert (Hvf : Device.validate found = true).
      { unfold storedDevice in Ef. apply findOne_some in Ef.
        destruct Ef as [Hf _]. unfold devicesSavable in Hsav'.
        rewrite Forall_forall in Hsav'. apply Hsav', Hf. }
      destruct (receiveHeartbeat_accepted hb now (withDevices ds db) found Ef
                  (validate_updateHeartbeat now _ _ found Hvf Hl) Hok')
        as [ds' [als [E _]]].
      rewrite E. reflexivity.
    + exfalso. revert Ef. unfold storedDevice. simpl.
      apply (find_some_any _ ds _ Hin).
      simpl. rewrite Hx, Hb. apply String.eqb_refl.
Qed.

Lemma deleted_device_takes_no_new_commands_witness :
  CommandController.sendCommand 7
    (CommandController.mkSendBody "dev-1" "lock_device" None None) 9000
    (fst (DeviceAdmin.deleteDevice 7 "dev-1" Fixtures.dbSilent))
  = (fst (DeviceAdmin.deleteDevice 7 "dev-1" Fixtures.dbSilent),
     Fail 404 "Device not found or access denied")
  /\ isSuccess
       (snd (DeviceController.receiveHeartbeat
               (DeviceController.mkHeartbeatBody "dev-1" 60 false []) 9000
               (fst (DeviceAdmin.deleteDevice 7 "dev-1" Fixtures.dbSilent))))
     = true.
Proof.
  assert (Hnd : NoDup (map Device.deviceId (devices Fixtures.dbSilent))).
  { simpl. repeat constructor; simpl; intuition. }
  destruct (deleted_device_takes_no_new_commands 7 "dev-1" Fixtures.dbSilent
              Hnd eq_refl) as [_ [_ [H [_ [_ Hb]]]]].
  split.
  - apply H. reflexivity.
  - apply Hb.
    + constructor; [reflexivity | constructor].
    + reflexivity.
    + split; discriminate.
    + reflexivity.
Defined.

(** ** Alert retention *)

(** X26: the retention job removes exactly the alerts of severity [low] or
    [medium] created more than ninety days before the run.  Alerts of any
    other severity and alerts of the last ninety days are kept, in their
    order; commands and devices are not touched; a later run subsumes an
    earlier one. *)
Theorem cleanupOldAlerts_removes_old_minor_alerts :
  forall (now : Date) (db : Db),
    (forall a, In a (alerts (Retention.cleanupOldAlerts now db)) <->
               In a (alerts db)
               /\ (now - Alert.createdAt a <= Retention.ninetyDays
                   \/ (Alert.severity a <> "low"
                       /\ Alert.severity a <> "medium")))
    /\ commands (Retention.cleanupOldAlerts now db) = commands db
    /\ devices (Retention.cleanupOldAlerts now db) = devices db
    /\ (forall earlier, earlier <= now ->
                        Retention.cleanupOldAlerts now
                          (Retention.cleanupOldAlerts earlier db)
                        = Retention.cleanupOldAlerts now db).
Proof.
  intros now db.
  assert (Hkeep : forall t a,
             negb ((Alert.createdAt a <? t - Retention.ninetyDays)
                   && inEnum (Alert.severity a) [ "low"; "medium" ]) = true
             <-> (t - Alert.createdAt a <= Retention.ninetyDays
                  \/ (Alert.severity a <> "low"
                      /\ Alert.severity a <> "medium"))).
  { intros t a. rewrite negb_true_iff, andb_false_iff, Z.ltb_ge.
    unfold inEnum. simpl. rewrite !orb_false_iff, !String.eqb_neq.
    split.
    - intros [H | [H1 [H2 _]]]; [left; lia | right; auto].
    - intros [H | [H1 H2]]; [left; lia | right; auto]. }
  split; [| split; [reflexivity | split; [reflexivity |]]].
  - intros a. unfold Retention.cleanupOldAlerts. simpl.
    rewrite filter_In, Hkeep. tauto.
  - intros earlier Hle. unfold Retention.cleanupOldAlerts, withAlerts. simpl.
    f_equal. apply filter_filter_absorb. intros a _ Ha.
    apply Hkeep in Ha. apply Hkeep.
    destruct Ha as [H | H]; [left; lia | right; exact H].
Qed.

Lemma cleanupOldAlerts_removes_old_minor_alerts_witness :
  ~ In Fixtures.oldNotice
       (alerts (Retention.cleanupOldAlerts (200 * Fixtures.day) Fixtures.dbAlerts))
  /\ In Fixtures.oldTamper
        (alerts (Retention.cleanupOldAlerts (200 * Fixtures.day) Fixtures.dbAlerts))
  /\ In Fixtures.recentNotice
        (alerts (Retention.cleanupOldAlerts (200 * Fixtures.day) Fixtures.dbAlerts)).
Proof.
  destruct (cleanupOldAlerts_removes_old_minor_alerts (200 * Fixtures.day)
              Fixtures.dbAlerts) as [H _].
  split; [| split].
  - intros Hin. apply H in Hin. destruct Hin as [_ [Hle | [_ Hm]]].
    + vm_compute in Hle. exact (Hle eq_refl).
    + apply Hm. reflexivity.
  - apply H. split; [right; left; reflexivity |].
    right. split; discriminate.
  - apply H. split; [right; right; left; reflexivity |].
    left. discriminate.
Defined.

(** ** Sessions *)

Lemma activeFilter_spec (now : Date) (user : ObjectId) (s : Session.t) :
  (Nat.eqb (Session.userId s) user && Session.isActive s
   && (now <? Session.expiresAt s)) = true
  <-> Session.userId s = user /\ Session.isActive s = true
      /\ now < Session.expiresAt s.
Proof. rewrite !andb_true_iff, Nat.eqb_eq, Z.ltb_lt. tauto. Qed.

Lemma getActiveSessions_In (now : Date) (user : ObjectId) coll s :
  In s (Session.getActiveSessions now user coll) <->
  In s coll /\ Session.userId s = user /\ Session.isActive s = true
  /\ now < Session.expiresAt s.
Proof.
  unfold Session.getActiveSessions.
  rewrite sortBy_In, filter_In, activeFilter_spec. tauto.
Qed.

(** X27: a logout ends a session.  It succeeds exactly for a reason of the
    enumeration (none given counts as [user]); the session is then
    inactive, listed by no query for active sessions, expired at every
    later time (though not yet at the instant of the logout) and removed by
    every later cleanup. *)
Theorem logout_ends_the_session :
  forall (now : Date) (reason : option string) (s : Session.t),
    (Session.logout now reason s <> None <->
     In (match reason with Some r => r | None => "user" end)
        Session.logoutReasonEnum)
    /\ (forall s', Session.logout now reason s = Some s' ->
           Session.isActive s' = false
           /\ Session.userId s' = Session.userId s
           /\ Session.isExpired now s' = false
           /\ (forall t, now < t -> Session.isExpired t s' = true)
           /\ (forall t user coll, ~ In s' (Session.getActiveSessions t user coll))
           /\ (forall t coll, now < t ->
                              ~ In s' (Session.cleanupExpiredSessions t coll))).
Proof.
  intros now reason s. unfold Session.logout.
  set (r := match reason with Some r => r | None => "user" end).
  destruct (inEnum r Session.logoutReasonEnum) eqn:E.
  - split.
    + split; [intros _; apply inEnum_In, E | discriminate].
    + intros s' Hs. inversion Hs; subst s'; clear Hs.
      split; [reflexivity | split; [reflexivity |]].
      split; [unfold Session.isExpired; simpl; apply Z.ltb_irrefl |].
      split; [intros t Ht; unfold Session.isExpired; simpl; apply Z.ltb_lt, Ht |].
      split.
      * intros t user coll Hin. apply getActiveSessions_In in Hin.
        simpl in Hin. destruct Hin as [_ [_ [Ha _]]]. discriminate.
      * intros t coll Ht Hin. unfold Session.cleanupExpiredSessions in Hin.
        apply filter_In in Hin. destruct Hin as [_ Hk]. simpl in Hk.
        apply negb_true_iff, Z.ltb_ge in Hk. lia.
  - split.
    + split; [congruence |]. intros Hin. apply inEnum_In in Hin. congruence.
    + discriminate.
Qed.

Lemma logout_ends_the_session_witness :
  Session.logout 5000 None (Session.mk 1 7 "tok" "10.0.0.1" 90000 100 true None 0 100)
  <> None.
Proof.
  apply (logout_ends_the_session 5000 None
           (Session.mk 1 7 "tok" "10.0.0.1" 90000 100 true None 0 100)).
  simpl. left. reflexivity.
Defined.

(** X28: logging out all sessions of a user leaves that user without an
    active session at any time, and leaves the active sessions of every
    other user as they were. *)
Theorem logoutAllSessions_ends_all_of_one_user :
  forall (now : Date) (user : ObjectId) (reason : option string)
         (coll : list Session.t) (t : Date),
    Session.getActiveSessions t user
      (Session.logoutAllSessions now user reason coll) = []
    /\ (forall other, other <> user ->
           Session.getActiveSessions t other
             (Session.logoutAllSessions now user reason coll)
           = Session.getActiveSessions t other coll).
Proof.
  intros now user reason coll t.
  unfold Session.logoutAllSessions, Session.getActiveSessions, Mongo.updateMany.
  set (r := match reason with Some r => r | None => "security" end).
  set (f := fun s : Session.t =>
              Session.mk (Session._id s) (Session.userId s) (Session.token s)
                (Session.ipAddress s) now (Session.lastActivity s) false (Some r)
                (Session.createdAt s) now).
  set (g := fun d : Session.t =>
              if Nat.eqb (Session.userId d) user && Session.isActive d
              then f d else d).
  split.
  - rewrite (filter_map_swap _ (fun _ => false) g).
    + assert (Hnil : filter (fun _ : Session.t => false) coll = []).
      { clear. induction coll as [| s l IH]; simpl; auto. }
      rewrite Hnil. reflexivity.
    + intros s _. unfold g.
      destruct (Nat.eqb (Session.userId s) user) eqn:Eu; simpl.
      * destruct (Session.isActive s) eqn:Ea; simpl.
        -- rewrite andb_false_r. reflexivity.
        -- rewrite Eu, Ea. reflexivity.
      * rewrite Eu. reflexivity.
  - intros other Hne.
    rewrite (filter_map_swap _
               (fun s => Nat.eqb (Session.userId s) other && Session.isActive s
                         && (t <? Session.expiresAt s)) g).
    + f_equal. rewrite <- (map_id (filter _ coll)) at 2.
      apply map_ext_in. intros s Hs. apply filter_In in Hs.
      destruct Hs as [_ Hs]. apply activeFilter_spec in Hs.
      destruct Hs as [Hu _]. unfold g.
      assert (Eu : Nat.eqb (Session.userId s) user = false)
        by (apply Nat.eqb_neq; congruence).
      rewrite Eu. reflexivity.
    + intros s _. unfold g.
      destruct (Nat.eqb (Session.userId s) user) eqn:Eu; simpl;
        [| reflexivity].
      destruct (Session.isActive s) eqn:Ea; simpl; [| rewrite Ea; reflexivity].
      apply Nat.eqb_eq in Eu.
      assert (Eo : Nat.eqb (Session.userId s) other = false)
        by (apply Nat.eqb_neq; congruence).
      rewrite Eo. reflexivity.
Qed.

Lemma logoutAllSessions_ends_all_of_one_user_witness :
  Session.getActiveSessions 200 8
    (Session.logoutAllSessions 100 7 None
       [ Session.mk 1 7 "a" "10.0.0.1" 90000 100 true None 0 100;
         Session.mk 2 8 "b" "10.0.0.2" 90000 150 true None 0 150 ])
  = Session.getActiveSessions 200 8
      [ Session.mk 1 7 "a" "10.0.0.1" 90000 100 true None 0 100;
        Session.mk 2 8 "b" "10.0.0.2" 90000 150 true None 0 150 ].
Proof.
  apply (logoutAllSessions_ends_all_of_one_user 100 7 None _ 200).
  discriminate.
Defined.


